(** * fcrm_chat_sdk_expo: the session core, its services and its wire types

    A shallow embedding of the TypeScript sources
    - [src/types/message.ts], [src/types/remote-config.ts], [src/types/index.ts]
    - [src/services/storage.service.ts], [src/services/api.service.ts],
      [src/services/socket.service.ts]
    - [src/context/FcrmChatContext.tsx]
    together with the properties the specification states about them.

    Conventions of the embedding.
    - A JavaScript value is a [JValue].  Numbers are the integers ([Z])
      that the engine prints in plain decimal; fractional numbers and NaN
      are outside the model.
    - A JavaScript string is a [string] whose characters are the code
      units below 256 (the Latin-1 block of UTF-16).
    - An object is the list of its own enumerable properties in the order
      in which the engine enumerates them ([Object.entries]): the keys that
      are array indices in ascending order, then the others in the order
      of their creation.  The objects are plain ones: what they do not hold
      themselves they inherit from [Object.prototype], and a read with a
      computed key, [obj[key]], sees those members too.
    - A [throw] is a [Throw e] result; [await] is sequencing, and the
      promise awaited is fulfilled unless the text says it can reject. *)

From Stdlib Require Import ZArith Ascii String List Bool Lia.
From stdpp Require Import base option list strings pretty gmap.

Set Warnings "-register-all".
Local Open Scope string_scope.
Local Open Scope Z_scope.

(* ===================================================================== *)
(** * JavaScript values *)
(* ===================================================================== *)

Module JS.

Inductive JValue : Type :=
| JUndefined
| JNull
| JBool (b : bool)
| JNum (n : Z)
| JStr (s : string)
| JArr (items : list JValue)
| JObj (props : list (string * JValue))
| JFun (name : string).  (* a built-in function, by its name *)

(** [v == null]: true of [null] and of [undefined] only. *)
Definition nullish (v : JValue) : bool :=
  match v with
  | JUndefined | JNull => true
  | _ => false
  end.

(** [a ?? b] *)
Definition coalesce (a b : JValue) : JValue :=
  if nullish a then b else a.

Notation "a ?? b" := (coalesce a b) (at level 45, left associativity).

(** ToBoolean, the test an [if (v)], a [!v] and an [&&] perform. *)
Definition truthy (v : JValue) : bool :=
  match v with
  | JUndefined | JNull => false
  | JBool b => b
  | JNum n => negb (n =? 0)
  | JStr s => negb (String.eqb s "")
  | JArr _ | JObj _ | JFun _ => true
  end.

(** [typeof v === 'object'] *)
Definition typeof_object (v : JValue) : bool :=
  match v with
  | JNull | JArr _ | JObj _ => true
  | _ => false
  end.

(** Own-property lookup in a property list: the first entry of that name. *)
Fixpoint lookup_prop (props : list (string * JValue)) (k : string) : JValue :=
  match props with
  | [] => JUndefined
  | (k', v) :: rest => if String.eqb k' k then v else lookup_prop rest k
  end.

(** [v.k] on a value that is neither [null] nor [undefined]: a primitive
    or an array has none of the property names the sources read. *)
Definition get (v : JValue) (k : string) : JValue :=
  match v with
  | JObj props => lookup_prop props k
  | _ => JUndefined
  end.

(** [String(v)] *)
Fixpoint ToString (v : JValue) : string :=
  match v with
  | JUndefined => "undefined"
  | JNull => "null"
  | JBool true => "true"
  | JBool false => "false"
  | JNum n => pretty n
  | JStr s => s
  | JArr items =>
      (fix join (l : list JValue) : string :=
         match l with
         | [] => ""
         | x :: rest =>
             let sx := match x with
                       | JUndefined | JNull => ""
                       | _ => ToString x
                       end in
             match rest with
             | [] => sx
             | _ :: _ => sx +:+ "," +:+ join rest
             end
         end) items
  | JObj _ => "[object Object]"
  | JFun name => "function " +:+ name +:+ "() { [native code] }"
  end.

(** ** Plain objects *)

(** Whether the object holds a property of that name itself. *)
Definition has_own {A} (props : list (string * A)) (k : string) : bool :=
  existsb (fun kv => String.eqb (fst kv) k) props.

(** What every plain object inherits from [Object.prototype]: eleven
    built-in functions, and the accessor [__proto__], which reads as the
    prototype itself, an object without enumerable properties. *)
Definition Object_prototype : list (string * JValue) :=
  [("constructor", JFun "Object");
   ("__defineGetter__", JFun "__defineGetter__");
   ("__defineSetter__", JFun "__defineSetter__");
   ("hasOwnProperty", JFun "hasOwnProperty");
   ("__lookupGetter__", JFun "__lookupGetter__");
   ("__lookupSetter__", JFun "__lookupSetter__");
   ("isPrototypeOf", JFun "isPrototypeOf");
   ("propertyIsEnumerable", JFun "propertyIsEnumerable");
   ("toString", JFun "toString");
   ("valueOf", JFun "valueOf");
   ("toLocaleString", JFun "toLocaleString");
   ("__proto__", JObj [])].

(** [obj[key]] on a plain object with these own properties: the own
    property of that name, else the inherited member, else [undefined]. *)
Definition member (props : list (string * JValue)) (key : string) : JValue :=
  if has_own props key then lookup_prop props key
  else lookup_prop Object_prototype key.

(** The text an array element contributes to [Array.prototype.join]. *)
Definition join_item (v : JValue) : string :=
  if nullish v then "" else ToString v.

(** [items.join(sep)] *)
Fixpoint join (sep : string) (items : list JValue) : string :=
  match items with
  | [] => ""
  | x :: rest =>
      match rest with
      | [] => join_item x
      | _ :: _ => join_item x +:+ sep +:+ join sep rest
      end
  end.

(** [items.flat()]: one level of nesting is removed. *)
Definition flat (items : list JValue) : list JValue :=
  concat (map (fun v => match v with JArr l => l | _ => [v] end) items).

(** [Object.values(v)] for an object or an array. *)
Definition Object_values (v : JValue) : list JValue :=
  match v with
  | JObj props => map snd props
  | JArr items => items
  | _ => []
  end.

(** ** Strings *)

Definition code (c : ascii) : N := N_of_ascii c.

(** WhiteSpace and LineTerminator code units below 256: TAB, LF, VT, FF,
    CR, SP and NBSP. *)
Definition is_white (c : ascii) : bool :=
  let n := code c in
  ((9 <=? n) && (n <=? 13) || (n =? 32) || (n =? 160))%N.

Fixpoint trimStart (s : string) : string :=
  match s with
  | EmptyString => EmptyString
  | String c rest => if is_white c then trimStart rest else s
  end.

Fixpoint trimEnd (s : string) : string :=
  match s with
  | EmptyString => EmptyString
  | String c rest =>
      match trimEnd rest with
      | EmptyString => if is_white c then EmptyString else String c EmptyString
      | r => String c r
      end
  end.

(** [s.trim()] *)
Definition trim (s : string) : string := trimEnd (trimStart s).

(** The lower-case mapping of one code unit below 256: A-Z and the
    Latin-1 capitals (all of 192..222 but the multiplication sign). *)
Definition lower_char (c : ascii) : ascii :=
  let n := code c in
  if ((65 <=? n) && (n <=? 90))%N then ascii_of_N (n + 32)
  else if ((192 <=? n) && (n <=? 222) && negb (n =? 215))%N then ascii_of_N (n + 32)
  else c.

(** [s.toLowerCase()] *)
Fixpoint toLowerCase (s : string) : string :=
  match s with
  | EmptyString => EmptyString
  | String c rest => String (lower_char c) (toLowerCase rest)
  end.

(** ** The order of the properties of an object *)

Definition is_digit (c : ascii) : bool :=
  ((48 <=? code c) && (code c <=? 57))%N.

Fixpoint digits_value (acc : N) (s : string) : option N :=
  match s with
  | EmptyString => Some acc
  | String c rest =>
      if is_digit c then digits_value (acc * 10 + (code c - 48))%N rest else None
  end.

(** A key that is an array index: the decimal, without a leading zero, of
    an integer below 2^32 - 1. *)
Definition array_index (key : string) : option N :=
  match key with
  | EmptyString => None
  | String c rest =>
      if Ascii.eqb c "0" then (if String.eqb rest "" then Some 0%N else None)
      else match digits_value 0 key with
           | Some n => if (n <? 4294967295)%N then Some n else None
           | None => None
           end
  end.

(** The place of a new array index [n] among the properties: after the
    indices below it, before everything else. *)
Fixpoint insert_index {A} (n : N) (k : string) (v : A) (props : list (string * A))
  : list (string * A) :=
  match props with
  | [] => [(k, v)]
  | (k', v') :: rest =>
      match array_index k' with
      | Some n' =>
          if (n' <? n)%N then (k', v') :: insert_index n k v rest
          else (k, v) :: props
      | None => (k, v) :: props
      end
  end.

(** The value of a property the object holds is replaced where it is. *)
Fixpoint update_prop {A} (props : list (string * A)) (k : string) (v : A)
  : list (string * A) :=
  match props with
  | [] => []
  | (k', v') :: rest =>
      if String.eqb k' k then (k', v) :: rest else (k', v') :: update_prop rest k v
  end.

(** A data property [k] is created on the object, or given a new value:
    what [JSON.parse] does for each member of an object of the text, and
    an assignment [obj[k] = v] for every [k] other than ["__proto__"]. *)
Definition define_prop {A} (props : list (string * A)) (k : string) (v : A)
  : list (string * A) :=
  if has_own props k then update_prop props k v
  else match array_index k with
       | Some n => insert_index n k v props
       | None => props ++ [(k, v)]
       end.


(** ** What the engine supplies

    Built-ins the sources call and this development does not define:
    the relational comparison on operands that are not both (integer)
    numbers, the JSON codec, the keyed hash of js-sha256, and the message
    the engine gives the TypeError of a property read off [null] or
    [undefined]. *)
Record Engine : Type := {
  lt_other : JValue -> JValue -> bool;
  JSON_stringify : JValue -> string;
  JSON_parse : string -> option JValue;  (* [None]: a SyntaxError *)
  sha256_hmac : string -> string -> string;
  null_read_message : JValue -> string -> string  (* of reading [k] off [v] *)
}.

(** [a < b] *)
Definition js_lt (E : Engine) (a b : JValue) : bool :=
  match a, b with
  | JNum x, JNum y => x <? y
  | _, _ => lt_other E a b
  end.

(** ** Exceptions *)

Inductive Thrown : Type :=
| ChatException (message : string)
| ChatApiException (message : string) (statusCode : Z)
| UploadCancelledException (message : string)
| TypeError (message : string)
| NullReadError (v : JValue) (k : string)  (* the TypeError of [v.k], [v] nullish *)
| AxiosError (response : option (Z * JValue)) (message : string)
| PlainError (message : string)
| NonError (text : string).

(** [Error.prototype.toString] *)
Definition error_text (name message : string) : string :=
  if String.eqb message "" then name else name +:+ ": " +:+ message.

(** [String(error)] of a thrown value. *)
Definition Thrown_toString (E : Engine) (e : Thrown) : string :=
  match e with
  | ChatException m => error_text "ChatException" m
  | ChatApiException m status =>
      "ChatApiException: " +:+ m +:+ " (status: " +:+ pretty status +:+ ")"
  | UploadCancelledException m => error_text "UploadCancelledException" m
  | TypeError m => error_text "TypeError" m
  | NullReadError v k => error_text "TypeError" (null_read_message E v k)
  | AxiosError _ m => error_text "AxiosError" m
  | PlainError m => error_text "Error" m
  | NonError text => text
  end.

(** [e instanceof Error ? e : new Error(String(e))] *)
Definition as_Error (e : Thrown) : Thrown :=
  match e with
  | NonError text => PlainError text
  | _ => e
  end.

Inductive Result (A : Type) : Type :=
| Ok (a : A)
| Throw (e : Thrown).

Arguments Ok {A} a.
Arguments Throw {A} e.

Definition bind {A B} (r : Result A) (k : A -> Result B) : Result B :=
  match r with
  | Ok a => k a
  | Throw e => Throw e
  end.

Notation "x <- r ;; k" := (bind r (fun x => k))
  (at level 100, r at next level, right associativity).

(** [items.map(f)] for an [f] that can throw: the first exception ends it. *)
Fixpoint mapM {A B} (f : A -> Result B) (l : list A) : Result (list B) :=
  match l with
  | [] => Ok []
  | x :: rest =>
      y <- f x ;;
      ys <- mapM f rest ;;
      Ok (y :: ys)
  end.

End JS.

Import JS.

(* ===================================================================== *)
(** * src/types: messages, pages, remote configuration *)
(* ===================================================================== *)

Module Types.

(** [type MessageType = 'user' | 'admin' | 'ai' | 'system'] *)
Inductive MessageType : Type := MsgUser | MsgAdmin | MsgAi | MsgSystem.

(** The literal each category stands for. *)
Definition MessageType_literal (t : MessageType) : string :=
  match t with
  | MsgUser => "user"
  | MsgAdmin => "admin"
  | MsgAi => "ai"
  | MsgSystem => "system"
  end.

(** The [switch] of [parseMessageType] on an already lower-cased string. *)
Definition messageType_switch (l : string) : MessageType :=
  if String.eqb l "user" then MsgUser
  else if String.eqb l "admin" then MsgAdmin
  else if String.eqb l "ai" then MsgAi
  else if String.eqb l "system" then MsgSystem
  else MsgUser.

(** [parseMessageType(value)].  [value?.toLowerCase()] is [undefined] on a
    nullish [value] and a TypeError on a value that has no such method. *)
Definition parseMessageType (value : JValue) : Result MessageType :=
  match value with
  | JUndefined | JNull => Ok MsgUser
  | JStr s => Ok (messageType_switch (toLowerCase s))
  | _ => Throw (TypeError "value?.toLowerCase is not a function")
  end.

(** A [Date] is kept symbolic: built from a wire value, or the clock. *)
Inductive JSDate : Type :=
| DateOf (v : JValue)
| DateNow.

Record ChatMessage : Type := {
  id : JValue;
  chatId : JValue;
  content : JValue;
  type : MessageType;
  senderName : JValue;
  senderType : JValue;
  createdAt : JSDate;
  updatedAt : option JSDate;
  isRead : JValue;
  readAt : option JSDate;
  metadata : JValue
}.

Record PaginatedMessages : Type := {
  messages : list ChatMessage;
  total : JValue;
  currentPage : JValue;
  perPage : JValue;
  lastPage : JValue;
  hasMore : bool
}.

(** The TypeError of reading property [k] of [v], which is [null] or
    [undefined]; its message is the engine's. *)
Definition null_read (v : JValue) (k : string) : Thrown := NullReadError v k.

(** [parseChatMessage(json)] *)
Definition parseChatMessage (json : JValue) : Result ChatMessage :=
  if nullish json then Throw (null_read json "id")
  else
    t <- parseMessageType (get json "type") ;;
    Ok {| id := get json "id" ?? JNum 0;
          chatId := get json "chat_id" ?? JNum 0;
          content := get json "content" ?? JStr "";
          type := t;
          senderName := get json "sender_name";
          senderType := get json "sender_type";
          createdAt := if truthy (get json "created_at")
                       then DateOf (get json "created_at") else DateNow;
          updatedAt := if truthy (get json "updated_at")
                       then Some (DateOf (get json "updated_at")) else None;
          isRead := get json "is_read" ?? JBool false;
          readAt := if truthy (get json "read_at")
                    then Some (DateOf (get json "read_at")) else None;
          metadata := get json "metadata" |}.

(** [messagesData.map(parseChatMessage)]: only an array has [map]. *)
Definition map_parseChatMessage (messagesData : JValue) : Result (list ChatMessage) :=
  match messagesData with
  | JArr items => mapM parseChatMessage items
  | _ => Throw (TypeError "messagesData.map is not a function")
  end.

(** [parsePaginatedMessages(json)] *)
Definition parsePaginatedMessages (E : Engine) (json : JValue) : Result PaginatedMessages :=
  if nullish json then Throw (null_read json "messages")
  else
    let messagesData := get json "messages" ?? JArr [] in
    messages <- map_parseChatMessage messagesData ;;
    let total := get json "total" ?? JNum 0 in
    let currentPage := get json "current_page" ?? JNum 1 in
    let perPage := get json "per_page" ?? JNum 20 in
    let lastPage := get json "last_page" ?? JNum 1 in
    Ok {| messages := messages;
          total := total;
          currentPage := currentPage;
          perPage := perPage;
          lastPage := lastPage;
          hasMore := js_lt E currentPage lastPage |}.

(** [createEmptyPaginatedMessages(perPage = 20)] of src/types/index.ts;
    [None] is the omitted argument. *)
Definition createEmptyPaginatedMessages (perPage : option Z) : PaginatedMessages :=
  {| messages := [];
     total := JNum 0;
     currentPage := JNum 1;
     perPage := JNum (default 20 perPage);
     lastPage := JNum 1;
     hasMore := false |}.

(** [ChatAppRemoteConfig] *)
Record ChatAppRemoteConfig : Type := {
  appName : JValue;
  appDescription : JValue;
  logoUrl : JValue;
  isActive : JValue;
  settings : JValue;
  requiredFields : list (string * string);
  socketUrl : JValue;
  socketApiKey : JValue
}.

(** [Object.entries] of an array: the indices in decimal, in order. *)
Fixpoint index_entries (i : Z) (items : list JValue) : list (string * JValue) :=
  match items with
  | [] => []
  | x :: rest => (pretty i, x) :: index_entries (i + 1) rest
  end.

(** [result[String(key)] = String(value)] on the record being built.  The
    key ["__proto__"] reaches the setter of [Object.prototype], which
    ignores a string: no property is created. *)
Definition Record_set (result : list (string * string)) (key : string) (value : JValue)
  : list (string * string) :=
  if String.eqb key "__proto__" then result
  else define_prop result key (ToString value).

(** [parseRequiredFields(fields)]: the loop over [Object.entries(fields)]. *)
Definition parseRequiredFields (fields : JValue) : list (string * string) :=
  let entries := match fields with
                 | JObj props => props
                 | JArr items => index_entries 0 items
                 | _ => []
                 end in
  fold_left (fun result kv => Record_set result (fst kv) (snd kv)) entries [].

(** [parseChatAppRemoteConfig(json)] *)
Definition parseChatAppRemoteConfig (json : JValue) : Result ChatAppRemoteConfig :=
  if nullish json then Throw (null_read json "app_name")
  else
    Ok {| appName := get json "app_name" ?? JStr "Chat";
          appDescription := get json "app_description";
          logoUrl := get json "logo_url";
          isActive := get json "is_active" ?? JBool false;
          settings := get json "settings" ?? JObj [];
          requiredFields := parseRequiredFields (get json "required_fields");
          socketUrl := get json "socket_url" ?? JStr "";
          socketApiKey := get json "socket_api_key" ?? JStr "" |}.

End Types.

Import Types.

(* ===================================================================== *)
(** * src/services/storage.service.ts *)
(* ===================================================================== *)

Module Storage.

Definition BROWSER_KEY_PREFIX : string := "fcrm_chat_browser_".
Definition USER_DATA_PREFIX : string := "fcrm_chat_user_".

(** AsyncStorage: a map from keys to strings.  Its operations are taken to
    complete, but for the reads that are awaited as [Rejections] says. *)
Abbreviation AsyncStorage := (gmap string string).

(** The reads of the store that fail: what [AsyncStorage.getItem(key)]
    rejects with, for the keys for which it does. *)
Definition Rejections : Type := string -> option Thrown.

Definition none_rejected : Rejections := fun _ => None.

(** [await AsyncStorage.getItem(key)] *)
Definition getItem (rejected : Rejections) (key : string) (st : AsyncStorage)
  : Result (option string) :=
  match rejected key with
  | Some e => Throw e
  | None => Ok (st !! key)
  end.

Section ChatStorageService.
Context (E : Engine) (appKey : string).

Definition browserStorageKey : string := BROWSER_KEY_PREFIX +:+ appKey.
Definition userDataStorageKey : string := USER_DATA_PREFIX +:+ appKey.

Definition saveBrowserKey (browserKey : string) (st : AsyncStorage) : AsyncStorage :=
  <[browserStorageKey := browserKey]> st.

Definition getBrowserKey (st : AsyncStorage) : option string :=
  st !! browserStorageKey.

Definition clearBrowserKey (st : AsyncStorage) : AsyncStorage :=
  delete browserStorageKey st.

Definition saveUserData (userData : JValue) (st : AsyncStorage) : AsyncStorage :=
  <[userDataStorageKey := JSON_stringify E userData]> st.

(** [getUserData()]: [JNull] is the [null] it returns. *)
Definition getUserData (st : AsyncStorage) : JValue :=
  match st !! userDataStorageKey with
  | Some data =>
      if truthy (JStr data) then
        match JSON_parse E data with
        | Some v => v
        | None => JNull
        end
      else JNull
  | None => JNull
  end.

Definition clearUserData (st : AsyncStorage) : AsyncStorage :=
  delete userDataStorageKey st.

(** [browserKey !== null && browserKey.length > 0] *)
Definition isRegistered (st : AsyncStorage) : bool :=
  match getBrowserKey st with
  | Some browserKey => (0 <? Z.of_nat (String.length browserKey))
  | None => false
  end.

(** [Promise.all([clearBrowserKey(), clearUserData()])] *)
Definition clearAll (st : AsyncStorage) : AsyncStorage :=
  clearUserData (clearBrowserKey st).

(** [await storageService.getBrowserKey()], whose read can reject. *)
Definition await_getBrowserKey (rejected : Rejections) (st : AsyncStorage)
  : Result (option string) :=
  getItem rejected browserStorageKey st.

(** [await storageService.getUserData()]: the read is outside the [try]
    of [getUserData], which catches what [JSON.parse] throws only. *)
Definition await_getUserData (rejected : Rejections) (st : AsyncStorage)
  : Result JValue :=
  _ <- getItem rejected userDataStorageKey st ;;
  Ok (getUserData st).

End ChatStorageService.

End Storage.

(* ===================================================================== *)
(** * src/services/api.service.ts *)
(* ===================================================================== *)

Module Api.

(** [ChatConfigWithDefaults] of src/types/config.ts *)
Record ChatConfigWithDefaults : Type := {
  baseUrl : string;
  companyToken : string;
  appKey : string;
  appSecret : string;
  socketUrl : option string;
  connectionTimeout : Z;
  enableLogging : bool
}.

(** [generateSignature(appKey, appSecret)] of src/utils/hmac.ts *)
Definition generateSignature (E : Engine) (appKey appSecret : string) : string :=
  sha256_hmac E appSecret appKey.

(** ** CancelToken

    [_source] is the axios source; what is recorded of it is the list of
    the [cancel] calls it has received. *)
Record CancelToken : Type := {
  _isCancelled : bool;
  _source : list string
}.

(** [new CancelToken()] *)
Definition CancelToken_new : CancelToken :=
  {| _isCancelled := false; _source := [] |}.

Definition isCancelled (t : CancelToken) : bool := _isCancelled t.

(** [cancel()] *)
Definition cancel (t : CancelToken) : CancelToken :=
  if negb (_isCancelled t)
  then {| _isCancelled := true; _source := _source t ++ ["Upload cancelled"] |}
  else t.

(** ** The HTTP client *)

Record Request : Type := {
  method : string;
  path : string;
  headers : list (string * string);
  body : JValue;
  cancelToken : option CancelToken
}.

(** What axios answers to a request: a 2xx response body, a cancellation
    ([axios.isCancel]), or any other rejection. *)
Inductive HttpOutcome : Type :=
| HttpResponse (data : JValue)
| HttpCancel
| HttpError (e : Thrown).

(** What a request method of [ChatApiService] gives its caller: the parsed
    value, or the [ChatApiException] its [catch] block throws. *)
Inductive ApiResult (A : Type) : Type :=
| ApiOk (a : A)
| ApiFail (message : string) (statusCode : Z).

Arguments ApiOk {A} a.
Arguments ApiFail {A} message statusCode.

Definition thrown_by {A} (r : ApiResult A) : Result A :=
  match r with
  | ApiOk a => Ok a
  | ApiFail message statusCode => Throw (ChatApiException message statusCode)
  end.

Section ChatApiService.
Context (E : Engine) (config : ChatConfigWithDefaults).
(** The network, as the replies it gives. *)
Context (http : Request -> HttpOutcome).

(** [getHeaders(isJson = true)] *)
Definition getHeaders (isJson : bool) : list (string * string) :=
  [("Accept", "application/json");
   ("X-Chat-Signature", generateSignature E (appKey config) (appSecret config));
   ("X-Chat-App-Key", appKey config)]
  ++ (if isJson then [("Content-Type", "application/json")] else []).


(** [parseError(error)] *)
Definition parseError (error : Thrown) : string :=
  match error with
  | AxiosError response _ =>
      let data := match response with
                  | Some (_, d) => d
                  | None => JUndefined
                  end in
      let fallback :=
        "Request failed with status " +:+
        match response with
        | Some (status, _) => pretty status
        | None => "unknown"
        end in
      if truthy data then
        if truthy (get data "error") then ToString (get data "error")
        else if truthy (get data "errors") && typeof_object (get data "errors")
        then join ", " (flat (Object_values (get data "errors")))
        else if truthy (get data "message") then ToString (get data "message")
        else fallback
      else fallback
  | _ => Thrown_toString E error
  end.

(** [axios.isAxiosError(error) ? error.response?.status ?? 0 : 0] *)
Definition statusCodeOf (error : Thrown) : Z :=
  match error with
  | AxiosError (Some (status, _)) _ => status
  | _ => 0
  end.

(** The [catch] block every request method ends with:
    [throw new ChatApiException(message, statusCode)]. *)
Definition rethrow {A} (error : Thrown) : ApiResult A :=
  ApiFail (parseError error) (statusCodeOf error).

(** A request without a cancel token is never cancelled; should the
    client report one all the same it is an error like any other. *)
Definition plain (o : HttpOutcome) : Result JValue :=
  match o with
  | HttpResponse data => Ok data
  | HttpCancel => Throw (NonError "canceled")
  | HttpError e => Throw e
  end.

(** [getConfig()]; the second component is the request issued. *)
Definition getConfig : ApiResult ChatAppRemoteConfig * list Request :=
  let signature := generateSignature E (appKey config) (appSecret config) in
  let req := {| method := "GET"; path := "/config";
                headers := [("Accept", "application/json")];
                body := JObj [("key", JStr (appKey config)); ("sig", JStr signature)];
                cancelToken := None |} in
  (match plain (http req) with
   | Ok data =>
       match parseChatAppRemoteConfig data with
       | Ok c => ApiOk c
       | Throw error => rethrow error
       end
   | Throw error => rethrow error
   end, [req]).

(** [getMessages(browserKey, page = 1, perPage = 20)] *)
Definition getMessages (browserKey : string) (page perPage : option Z)
  : ApiResult PaginatedMessages * list Request :=
  let req := {| method := "POST"; path := "/messages";
                headers := getHeaders true;
                body := JObj [("chat_app_key", JStr (appKey config));
                              ("browser_key", JStr browserKey);
                              ("page", JNum (default 1 page));
                              ("per_page", JNum (default 20 perPage))];
                cancelToken := None |} in
  (match plain (http req) with
   | Ok data =>
       match parsePaginatedMessages E data with
       | Ok p => ApiOk p
       | Throw error => rethrow error
       end
   | Throw error => rethrow error
   end, [req]).

(** The text after the last [sep], the whole string when there is none:
    the last element of [s.split(sep)]. *)
Fixpoint after_last (sep : ascii) (s : string) : option string :=
  match s with
  | EmptyString => None
  | String c rest =>
      match after_last sep rest with
      | Some t => Some t
      | None => if Ascii.eqb c sep then Some rest else None
      end
  end.

Definition last_segment (sep : ascii) (s : string) : string :=
  default s (after_last sep s).

(** The object literal [mimeTypes]. *)
Definition mimeTypes : list (string * JValue) :=
  [("jpg", JStr "image/jpeg"); ("jpeg", JStr "image/jpeg"); ("png", JStr "image/png");
   ("gif", JStr "image/gif"); ("webp", JStr "image/webp"); ("bmp", JStr "image/bmp")].

(** [mimeTypes[extension] ?? 'image/jpeg']: the read goes through the
    prototype of the literal. *)
Definition mimeType_of (extension : string) : JValue :=
  member mimeTypes extension ?? JStr "image/jpeg".

(** [uploadImage(browserKey, imageUri, endpoint?, onProgress?, cancelToken?)].
    Progress events are delivered by the client while the request is in
    flight and are not followed.  The second component lists the
    requests issued. *)
Definition uploadImage (browserKey imageUri : string) (endpoint : option string)
    (cancelToken : option CancelToken) : Result JValue * list Request :=
  if match cancelToken with Some t => isCancelled t | None => false end
  then (Throw (UploadCancelledException "Upload was cancelled"), [])
  else
    let fileName := last_segment "/" imageUri in
    let extension := toLowerCase (last_segment "." fileName) in
    let mimeType := mimeType_of extension in
    let formData :=
      JObj ([("chat_app_key", JStr (appKey config));
             ("browser_key", JStr browserKey)]
            ++ match endpoint with
               | Some e => if truthy (JStr e) then [("endpoint", JStr e)] else []
               | None => []
               end
            ++ [("image", JObj [("uri", JStr imageUri);
                                ("name", JStr fileName);
                                ("type", mimeType)])]) in
    let req := {| method := "POST"; path := "/upload-image";
                  headers := getHeaders false
                             ++ [("Content-Type", "multipart/form-data")];
                  body := formData;
                  cancelToken := cancelToken |} in
    (match http req with
     | HttpResponse data =>
         if nullish data then thrown_by (rethrow (null_read data "image_url"))
         else Ok data
     | HttpCancel => Throw (UploadCancelledException "Upload was cancelled")
     | HttpError error => thrown_by (rethrow error)
     end, [req]).

(** [uploadFile]: the same endpoint as the image upload. *)
Definition uploadFile (browserKey fileUri : string) (endpoint : option string)
    (cancelToken : option CancelToken) : Result JValue * list Request :=
  uploadImage browserKey fileUri endpoint cancelToken.

End ChatApiService.

End Api.

(* ===================================================================== *)
(** * src/services/socket.service.ts *)
(* ===================================================================== *)

Module Socket.

(** ** Subscriber sets

    A callback runs on the state [S] of whoever subscribed, and returns
    or throws.  A [Set] iterates in insertion order. *)
Definition Callback (A S : Type) : Type := A -> S -> S * Result unit.

Record Subscribers (S : Type) : Type := {
  connectionCallbacks : list (Callback bool S);
  messageCallbacks : list (Callback ChatMessage S);
  typingCallbacks : list (Callback bool S);
  browserKeyCallbacks : list (Callback string S)
}.

Arguments connectionCallbacks {S} _.
Arguments messageCallbacks {S} _.
Arguments typingCallbacks {S} _.
Arguments browserKeyCallbacks {S} _.

(** [callbacks.forEach((callback) => callback(x))]: an exception leaves
    the loop. *)
Fixpoint forEach {A S} (callbacks : list (Callback A S)) (x : A) (s : S)
  : S * Result unit :=
  match callbacks with
  | [] => (s, Ok tt)
  | callback :: rest =>
      match callback x s with
      | (s', Ok _) => forEach rest x s'
      | (s', Throw e) => (s', Throw e)
      end
  end.

Section Notify.
Context {S : Type} (subs : Subscribers S).

Definition notifyConnectionChange (connected : bool) : S -> S * Result unit :=
  forEach (connectionCallbacks subs) connected.

Definition notifyMessage (message : ChatMessage) : S -> S * Result unit :=
  forEach (messageCallbacks subs) message.

Definition notifyTyping (isTyping : bool) : S -> S * Result unit :=
  forEach (typingCallbacks subs) isTyping.

Definition notifyBrowserKeyUpdate (browserKey : string) : S -> S * Result unit :=
  forEach (browserKeyCallbacks subs) browserKey.
End Notify.

(** ** The connection *)

(** The socket.io client object. *)
Record SocketIo : Type := {
  connected : bool;
  url : JValue;
  auth : JValue
}.

(** The fields of [ChatSocketService], and the events it has emitted. *)
Record SocketService : Type := {
  socket : option SocketIo;
  currentBrowserKey : option string;
  emitted : list (string * JValue)
}.

Definition SocketService_new : SocketService :=
  {| socket := None; currentBrowserKey := None; emitted := [] |}.

(** [this.socket?.connected] *)
Definition socket_connected (sv : SocketService) : bool :=
  match socket sv with
  | Some io => connected io
  | None => false
  end.

Definition roomName (browserKey : string) : string := "private-chat_" +:+ browserKey.

(** A string or [null] in a condition. *)
Definition truthy_key (k : option string) : bool :=
  match k with
  | Some s => truthy (JStr s)
  | None => false
  end.

(** [connect(socketUrl, apiKey, browserKey?)] *)
Definition connect (socketUrl apiKey : JValue) (browserKey : option string)
    (sv : SocketService) : SocketService :=
  if socket_connected sv then sv
  else
    let withKey := truthy_key browserKey in
    let authData :=
      JObj ([("key", apiKey)]
            ++ match browserKey with
               | Some k => if withKey then [("browser_key", JStr k)] else []
               | None => []
               end) in
    {| socket := Some {| connected := false; url := socketUrl; auth := authData |};
       currentBrowserKey := if withKey then browserKey else currentBrowserKey sv;
       emitted := emitted sv |}.

(** [joinChatRoom(browserKey)] *)
Definition joinChatRoom (browserKey : string) (sv : SocketService) : SocketService :=
  if negb (socket_connected sv) then sv
  else {| socket := socket sv;
          currentBrowserKey := Some browserKey;
          emitted := emitted sv ++ [("join", JStr (roomName browserKey))] |}.

(** [leaveChatRoom(browserKey)] *)
Definition leaveChatRoom (browserKey : string) (sv : SocketService) : SocketService :=
  if negb (socket_connected sv) then sv
  else {| socket := socket sv;
          currentBrowserKey := currentBrowserKey sv;
          emitted := emitted sv ++ [("leave", JStr (roomName browserKey))] |}.

(** [updateBrowserKey(browserKey)] *)
Definition updateBrowserKey (browserKey : string) (sv : SocketService) : SocketService :=
  if bool_decide (Some browserKey = currentBrowserKey sv) then sv
  else
    let sv1 := match currentBrowserKey sv with
               | Some old =>
                   if truthy (JStr old) && socket_connected sv
                   then leaveChatRoom old sv else sv
               | None => sv
               end in
    let sv2 := {| socket := socket sv1;
                  currentBrowserKey := Some browserKey;
                  emitted := emitted sv1 |} in
    if socket_connected sv2 then joinChatRoom browserKey sv2 else sv2.

(** [sendTyping(browserKey, isTyping)] *)
Definition sendTyping (browserKey : string) (isTyping : bool) (sv : SocketService)
  : SocketService :=
  if negb (socket_connected sv) then sv
  else {| socket := socket sv;
          currentBrowserKey := currentBrowserKey sv;
          emitted := emitted sv ++
                     [("typing", JObj [("browser_key", JStr browserKey);
                                       ("isTyping", JBool isTyping)])] |}.

Section WithSubscribers.
Context {S : Type} (subs : Subscribers S).

(** The connection as the client library sets it before a listener runs. *)
Definition set_connected (b : bool) (sv : SocketService) : SocketService :=
  {| socket := match socket sv with
               | Some io => Some {| connected := b; url := url io; auth := auth io |}
               | None => None
               end;
     currentBrowserKey := currentBrowserKey sv;
     emitted := emitted sv |}.

(** [disconnect()]: the service and its subscribers' state.
    [this.socket.disconnect()] on a connected socket closes it and fires
    its ['disconnect'] event before it returns, so the listener of
    [setupListeners] notifies the subscribers a first time; what a
    subscriber throws there leaves [disconnect()] before the socket is
    dropped.  Then the socket and the identity are dropped and the
    subscribers are notified. *)
Definition disconnect (sv : SocketService) (s : S)
  : SocketService * S * Result unit :=
  match socket sv with
  | Some io =>
      let '(s1, r1) := if connected io then notifyConnectionChange subs false s
                       else (s, Ok tt) in
      match r1 with
      | Throw e => (set_connected false sv, s1, Throw e)
      | Ok _ =>
          let sv' := {| socket := None; currentBrowserKey := None;
                        emitted := emitted sv |} in
          let '(s2, r2) := notifyConnectionChange subs false s1 in
          (sv', s2, r2)
      end
  | None => (sv, s, Ok tt)
  end.

(** The events [setupListeners] listens to that reach a subscriber. *)
Inductive SocketEvent : Type :=
| EvConnect
| EvConnectError
| EvDisconnect
| EvReconnect
| EvMessage (data : JValue)
| EvTyping (data : JValue)
| EvBrowserKeyUpdated (data : JValue).

(** The wire data of a message event, as [handleMessage] hands it to
    [parseSocketMessage]. *)
Definition parseSocketMessage (json : JValue) : Result ChatMessage :=
  if nullish json then Throw (null_read json "message")
  else parseChatMessage (get json "message" ?? json).

(** [handleMessage(data, format)]: whatever is thrown inside is logged. *)
Definition handleMessage (data : JValue) (s : S) : S :=
  let messageData := if typeof_object data && negb (nullish data)
                     then data else JObj [("message", data)] in
  match parseSocketMessage messageData with
  | Ok message => fst (notifyMessage subs message s)
  | Throw _ => s
  end.

(** The join a [connect] or [reconnect] listener makes after notifying. *)
Definition rejoin (sv : SocketService) : SocketService :=
  match currentBrowserKey sv with
  | Some k => if truthy (JStr k) then joinChatRoom k sv else sv
  | None => sv
  end.

(** One event delivered to the listeners of a live socket.  An exception
    a listener lets escape goes to the client library, not to the code
    modelled here, and is the [Result]. *)
Definition deliver (ev : SocketEvent) (sv : SocketService) (s : S)
  : SocketService * S * Result unit :=
  match socket sv with
  | None => (sv, s, Ok tt)
  | Some _ =>
      match ev with
      | EvConnect | EvReconnect =>
          let sv1 := set_connected true sv in
          match notifyConnectionChange subs true s with
          | (s', Ok _) => (rejoin sv1, s', Ok tt)
          | (s', Throw e) => (sv1, s', Throw e)
          end
      | EvConnectError =>
          let '(s', r) := notifyConnectionChange subs false s in (sv, s', r)
      | EvDisconnect =>
          let '(s', r) := notifyConnectionChange subs false s in
          (set_connected false sv, s', r)
      | EvMessage data => (sv, handleMessage data s, Ok tt)
      | EvTyping data =>
          let isTyping := match get data "isTyping" with
                          | JBool true => true
                          | _ => false
                          end in
          let '(s', r) := notifyTyping subs isTyping s in (sv, s', r)
      | EvBrowserKeyUpdated data =>
          match get data "browser_key" with
          | JStr browserKey =>
              let sv1 := {| socket := socket sv;
                            currentBrowserKey := Some browserKey;
                            emitted := emitted sv |} in
              let '(s', r) := notifyBrowserKeyUpdate subs browserKey s in
              (sv1, s', r)
          | _ => (sv, s, Ok tt)
          end
      end
  end.

End WithSubscribers.

End Socket.

(* ===================================================================== *)
(** * src/context/FcrmChatContext.tsx *)
(* ===================================================================== *)

Module Context.

Import Storage Socket.

(** [ChatState] of src/types/index.ts *)
Record ChatState : Type := {
  isInitialized : bool;
  isConnected : bool;
  isRegistered : bool;
  remoteConfig : option ChatAppRemoteConfig;
  browserKey : option string;
  chatId : option Z;
  error : option Thrown
}.

(** The argument of [useState]. *)
Definition ChatState_initial : ChatState :=
  {| isInitialized := false; isConnected := false; isRegistered := false;
     remoteConfig := None; browserKey := None; chatId := None; error := None |}.

(** [RegistrationResponse] of src/types/responses.ts, as typed there. *)
Record RegistrationResponse : Type := {
  success : bool;
  response_browserKey : string;
  response_chatId : option Z;
  response_message : option string;
  lastMessages : option (list JValue)
}.

(** The [ChatApiService] the provider holds, as what each of its methods
    answers when called: a value of the declared type, or the
    [ChatApiException] of its [catch] block. *)
Record RemoteAPI : Type := {
  api_getConfig : Api.ApiResult ChatAppRemoteConfig;
  api_registerBrowser :
    list (string * JValue) -> option string -> Api.ApiResult RegistrationResponse;
  api_getMessages : string -> Z -> Z -> Api.ApiResult PaginatedMessages
}.

(** A callback of client code, subscribed through the context: it owns no
    part of the provider, and what is kept of it is whether it returns or
    throws on each argument. *)
Definition ClientCallback (A : Type) : Type := A -> Result unit.

(** The callbacks client code has subscribed with [onConnectionChange],
    [onMessage] and [onTyping], each list in the order of subscription. *)
Record Clients : Type := {
  connectionClients : list (ClientCallback bool);
  messageClients : list (ClientCallback ChatMessage);
  typingClients : list (ClientCallback bool)
}.

Definition no_clients : Clients :=
  {| connectionClients := []; messageClients := []; typingClients := [] |}.

(** The provider: its React state, the device's AsyncStorage, the socket
    service, whether the mount effect has filled the service refs, and
    the client callbacks the sets of the socket service hold. *)
Record World : Type := {
  state : ChatState;
  storage : AsyncStorage;
  socketService : SocketService;
  mounted : bool;
  clients : Clients
}.

(** [{ ...obj, k: v }] *)
Fixpoint set_prop (props : list (string * JValue)) (k : string) (v : JValue)
  : list (string * JValue) :=
  match props with
  | [] => [(k, v)]
  | (k', v') :: rest =>
      if String.eqb k' k then (k', v) :: rest else (k', v') :: set_prop rest k v
  end.

(** [value == null || String(value).trim() === ''] *)
Definition missing (value : JValue) : bool :=
  nullish value || String.eqb (trim (ToString value)) "".

(** The validation loop of [register]: the entry it throws for, if any.
    [userData[key]] is a read with a computed key. *)
Fixpoint first_missing (requiredFields : list (string * string))
    (userData : list (string * JValue)) : option (string * string) :=
  match requiredFields with
  | [] => None
  | (key, label) :: rest =>
      let value := member userData key in
      if missing value then Some (key, label) else first_missing rest userData
  end.

Definition MissingRequiredField (key label : string) : Thrown :=
  ChatException ("Missing required field: " +:+ label +:+ " (key: " +:+ key +:+ ")").

Definition NotInitialized : Thrown :=
  ChatException "Chat not initialized. Call initialize() first.".

Definition ServicesNotInitialized : Thrown :=
  ChatException "Services not initialized".

Definition InactiveApp : Thrown :=
  ChatException "Chat app is not active".

Section Provider.
Context (E : Engine) (config : Api.ChatConfigWithDefaults).

Let appKey : string := Api.appKey config.

(** The two listeners the mount effect registers on the socket service. *)
Definition providerSubscribers : Subscribers (ChatState * AsyncStorage) :=
  {| connectionCallbacks :=
       [fun connected '(st, store) =>
          ({| isInitialized := isInitialized st; isConnected := connected;
              isRegistered := isRegistered st; remoteConfig := remoteConfig st;
              browserKey := browserKey st; chatId := chatId st;
              error := error st |}, store, Ok tt)];
     messageCallbacks := [];
     typingCallbacks := [];
     browserKeyCallbacks :=
       [fun key '(st, store) =>
          ({| isInitialized := isInitialized st; isConnected := isConnected st;
              isRegistered := isRegistered st; remoteConfig := remoteConfig st;
              browserKey := Some key; chatId := chatId st;
              error := error st |}, saveBrowserKey appKey key store, Ok tt)] |}.

(** A client callback as a member of a set of the socket service. *)
Definition client {A} (callback : ClientCallback A)
  : Callback A (ChatState * AsyncStorage) :=
  fun x s => (s, callback x).

(** The four sets of the socket service: the listeners of the provider,
    which the mount effect subscribes first, then the client callbacks. *)
Definition subscribers (c : Clients) : Subscribers (ChatState * AsyncStorage) :=
  {| connectionCallbacks :=
       connectionCallbacks providerSubscribers ++ map client (connectionClients c);
     messageCallbacks :=
       messageCallbacks providerSubscribers ++ map client (messageClients c);
     typingCallbacks :=
       typingCallbacks providerSubscribers ++ map client (typingClients c);
     browserKeyCallbacks := browserKeyCallbacks providerSubscribers |}.

(** The mount effect: the three services are constructed, the socket
    service with the two listeners of the provider in its sets. *)
Definition mount (w : World) : World :=
  {| state := state w; storage := storage w;
     socketService := SocketService_new; mounted := true;
     clients := no_clients |}.

(** [onConnectionChange(callback)], [onMessage(callback)] and
    [onTyping(callback)] of the context, for a callback the set does not
    hold yet: without a socket service nothing is subscribed. *)
Definition onConnectionChange (callback : ClientCallback bool) (w : World) : World :=
  if mounted w then
    {| state := state w; storage := storage w;
       socketService := socketService w; mounted := mounted w;
       clients := {| connectionClients := connectionClients (clients w) ++ [callback];
                     messageClients := messageClients (clients w);
                     typingClients := typingClients (clients w) |} |}
  else w.

Definition onMessage (callback : ClientCallback ChatMessage) (w : World) : World :=
  if mounted w then
    {| state := state w; storage := storage w;
       socketService := socketService w; mounted := mounted w;
       clients := {| connectionClients := connectionClients (clients w);
                     messageClients := messageClients (clients w) ++ [callback];
                     typingClients := typingClients (clients w) |} |}
  else w.

Definition onTyping (callback : ClientCallback bool) (w : World) : World :=
  if mounted w then
    {| state := state w; storage := storage w;
       socketService := socketService w; mounted := mounted w;
       clients := {| connectionClients := connectionClients (clients w);
                     messageClients := messageClients (clients w);
                     typingClients := typingClients (clients w) ++ [callback] |} |}
  else w.

(** [config.socketUrl ?? remoteConfig.socketUrl] *)
Definition socketUrl_for (remoteConfig : ChatAppRemoteConfig) : JValue :=
  match Api.socketUrl config with
  | Some u => JStr u
  | None => socketUrl remoteConfig
  end.

(** [initialize()] *)
Definition initialize (api : RemoteAPI) (w : World) : World * Result unit :=
  if isInitialized (state w) then (w, Ok tt)
  else if negb (mounted w) then (w, Throw ServicesNotInitialized)
  else
    let st := state w in
    let catch (e : Thrown) : World * Result unit :=
      ({| state := {| isInitialized := isInitialized st;
                      isConnected := isConnected st;
                      isRegistered := isRegistered st;
                      remoteConfig := remoteConfig st;
                      browserKey := browserKey st;
                      chatId := chatId st;
                      error := Some (as_Error e) |};
          storage := storage w;
          socketService := socketService w;
          mounted := mounted w; clients := clients w |}, Throw e) in
    match api_getConfig api with
    | Api.ApiFail message statusCode => catch (ChatApiException message statusCode)
    | Api.ApiOk remoteConfig =>
        if negb (truthy (isActive remoteConfig)) then catch InactiveApp
        else
          let browserKey := getBrowserKey appKey (storage w) in
          let isRegistered := Storage.isRegistered appKey (storage w) in
          let sv := connect (socketUrl_for remoteConfig)
                            (socketApiKey remoteConfig) browserKey
                            (socketService w) in
          ({| state := {| isInitialized := true;
                          isConnected := isConnected st;
                          isRegistered := isRegistered;
                          remoteConfig := Some remoteConfig;
                          browserKey := browserKey;
                          chatId := chatId st;
                          error := None |};
              storage := storage w;
              socketService := sv;
              mounted := mounted w; clients := clients w |}, Ok tt)
    end.

(** [register(userData, endpoint?)]; [now] is [new Date().toISOString()]. *)
Definition register (api : RemoteAPI) (now : string)
    (userData : list (string * JValue)) (endpoint : option string) (w : World)
  : World * Result unit :=
  if negb (isInitialized (state w)) then (w, Throw NotInitialized)
  else if negb (mounted w) then (w, Throw ServicesNotInitialized)
  else
    let requiredFields := match remoteConfig (state w) with
                          | Some c => requiredFields c
                          | None => []
                          end in
    match first_missing requiredFields userData with
    | Some (key, label) => (w, Throw (MissingRequiredField key label))
    | None =>
        match api_registerBrowser api userData endpoint with
        | Api.ApiFail message statusCode =>
            (w, Throw (ChatApiException message statusCode))
        | Api.ApiOk response =>
            let st := state w in
            let store1 := saveBrowserKey appKey (response_browserKey response)
                                         (storage w) in
            let userDataWithMeta :=
              set_prop (set_prop userData "registered" (JBool true))
                       "registrationDate" (JStr now) in
            let store2 := saveUserData E appKey (JObj userDataWithMeta) store1 in
            let sv := updateBrowserKey (response_browserKey response)
                                       (socketService w) in
            ({| state := {| isInitialized := isInitialized st;
                            isConnected := isConnected st;
                            isRegistered := true;
                            remoteConfig := remoteConfig st;
                            browserKey := Some (response_browserKey response);
                            chatId := response_chatId response;
                            error := error st |};
                storage := store2;
                socketService := sv;
                mounted := mounted w; clients := clients w |}, Ok tt)
        end
    end.

(** [loadMessages(page = 1, perPage = 20)].  The two reads of the store
    are awaited before the [try]: [rejected] says which of them fail. *)
Definition loadMessages (api : RemoteAPI) (rejected : Rejections)
    (page perPage : option Z) (w : World) : Result PaginatedMessages :=
  let page := default 1 page in
  let perPage := default 20 perPage in
  if negb (isInitialized (state w)) then Throw NotInitialized
  else if negb (mounted w) then Throw ServicesNotInitialized
  else
    let browserKey := browserKey (state w) in
    browserKey <- (if negb (truthy_key browserKey)
                   then await_getBrowserKey appKey rejected (storage w)
                   else Ok browserKey) ;;
    match browserKey with
    | Some key =>
        if negb (truthy (JStr key)) then Ok (createEmptyPaginatedMessages (Some perPage))
        else
          userData <- await_getUserData E appKey rejected (storage w) ;;
          if negb (truthy userData) then Ok (createEmptyPaginatedMessages (Some perPage))
          else
            match api_getMessages api key page perPage with
            | Api.ApiOk p => Ok p
            | Api.ApiFail _ _ => Ok (createEmptyPaginatedMessages (Some perPage))
            end
    | None => Ok (createEmptyPaginatedMessages (Some perPage))
    end.

(** [reset()] *)
Definition reset (w : World) : World * Result unit :=
  let store := if mounted w then clearAll appKey (storage w) else storage w in
  let '(sv, (st, store'), r) :=
    if mounted w
    then disconnect (subscribers (clients w)) (socketService w) (state w, store)
    else (socketService w, (state w, store), Ok tt) in
  match r with
  | Throw e =>
      ({| state := st; storage := store'; socketService := sv;
          mounted := mounted w; clients := clients w |}, Throw e)
  | Ok _ =>
      ({| state := {| isInitialized := isInitialized st;
                      isConnected := isConnected st;
                      isRegistered := false;
                      remoteConfig := remoteConfig st;
                      browserKey := None;
                      chatId := None;
                      error := error st |};
          storage := store'; socketService := sv;
          mounted := mounted w; clients := clients w |}, Ok tt)
  end.

(** [disconnect()] *)
Definition disconnect_ (w : World) : World * Result unit :=
  if mounted w then
    let '(sv, (st, store), r) :=
      disconnect (subscribers (clients w)) (socketService w) (state w, storage w) in
    ({| state := st; storage := store; socketService := sv;
        mounted := mounted w; clients := clients w |}, r)
  else (w, Ok tt).

(** [reconnect()] *)
Definition reconnect (w : World) : World :=
  match mounted w, remoteConfig (state w) with
  | true, Some remoteConfig =>
      {| state := state w; storage := storage w;
         socketService := connect (socketUrl_for remoteConfig)
                                  (socketApiKey remoteConfig)
                                  (browserKey (state w)) (socketService w);
         mounted := mounted w; clients := clients w |}
  | _, _ => w
  end.

(** A socket event reaching the listeners of the provider's service. *)
Definition on_event (ev : SocketEvent) (w : World) : World * Result unit :=
  if mounted w then
    let '(sv, (st, store), r) :=
      deliver (subscribers (clients w)) ev (socketService w) (state w, storage w) in
    ({| state := st; storage := store; socketService := sv;
        mounted := mounted w; clients := clients w |}, r)
  else (w, Ok tt).

(** ** Sessions *)

Inductive Op : Type :=
| OpMount
| OpInitialize (api : RemoteAPI)
| OpRegister (api : RemoteAPI) (now : string)
             (userData : list (string * JValue)) (endpoint : option string)
| OpLoadMessages (api : RemoteAPI) (rejected : Rejections) (page perPage : option Z)
| OpReset
| OpDisconnect
| OpReconnect
| OpEvent (ev : SocketEvent).

Definition step (w : World) (op : Op) : World :=
  match op with
  | OpMount => mount w
  | OpInitialize api => fst (initialize api w)
  | OpRegister api now userData endpoint => fst (register api now userData endpoint w)
  | OpLoadMessages _ _ _ _ => w
  | OpReset => fst (reset w)
  | OpDisconnect => fst (disconnect_ w)
  | OpReconnect => reconnect w
  | OpEvent ev => fst (on_event ev w)
  end.

Definition run (ops : list Op) (w : World) : World := fold_left step ops w.

(** A fresh provider on a device whose AsyncStorage holds [persisted]. *)
Definition World_initial (persisted : AsyncStorage) : World :=
  {| state := ChatState_initial; storage := persisted;
     socketService := SocketService_new; mounted := false;
     clients := no_clients |}.

Definition reachable (w : World) : Prop :=
  exists persisted ops, w = run ops (World_initial persisted).

End Provider.

End Context.

(* ===================================================================== *)
(** * Vocabulary of the properties *)
(* ===================================================================== *)

Import Storage Api Socket Context.

(** An engine to evaluate examples with. *)
Definition sample_engine : Engine :=
  {| lt_other := fun _ _ => false;
     JSON_stringify := ToString;
     JSON_parse := fun s => Some (JStr s);
     sha256_hmac := fun key message => key +:+ message;
     null_read_message := fun v k =>
       "Cannot read properties of " +:+ ToString v +:+ " (reading '" +:+ k +:+ "')" |}.

Definition sample_config : ChatConfigWithDefaults :=
  {| baseUrl := "https://api.example.com"; companyToken := "acme";
     appKey := "app"; appSecret := "secret"; socketUrl := None;
     connectionTimeout := 20000; enableLogging := false |}.

(** A [string | undefined] argument as the value it is at run time. *)
Definition string_or_undefined (value : option string) : JValue :=
  match value with
  | Some s => JStr s
  | None => JUndefined
  end.

(** The pages the sources construct: parsed from a response body, or the
    empty page. *)
Inductive constructed (E : Engine) : PaginatedMessages -> Prop :=
| constructed_parsed (json : JValue) (p : PaginatedMessages) :
    parsePaginatedMessages E json = Ok p -> constructed E p
| constructed_empty (perPage : option Z) :
    constructed E (createEmptyPaginatedMessages perPage).

Definition sample_page_json : JValue :=
  JObj [("messages", JArr [JObj [("id", JNum 1); ("content", JStr "hi")]]);
        ("total", JNum 1); ("current_page", JNum 1); ("per_page", JNum 20);
        ("last_page", JNum 1)].

(** An [errors] field as the backend sends it: field name to messages. *)
Definition errors_map (fields : list (string * list string)) : JValue :=
  JObj (map (fun f => (fst f, JArr (map JStr (snd f)))) fields).

(** [strings.join(sep)] on strings. *)
Fixpoint join_strings (sep : string) (l : list string) : string :=
  match l with
  | [] => ""
  | x :: rest =>
      match rest with
      | [] => x
      | _ :: _ => x +:+ sep +:+ join_strings sep rest
      end
  end.

Definition sample_validation_body : JValue :=
  JObj [("message", JStr "The given data was invalid.");
        ("errors", errors_map [("email", ["Email is required"; "Email is invalid"]);
                               ("name", ["Name is too short"])])].

(** The dispatch the specification asks for: every callback is invoked,
    and what one throws is dropped. *)
Fixpoint forEach_isolated {A S} (callbacks : list (Callback A S)) (x : A) (s : S) : S :=
  match callbacks with
  | [] => s
  | callback :: rest => forEach_isolated rest x (fst (callback x s))
  end.

Definition thrower {A} : Callback A (list nat) :=
  fun _ log => ((log ++ [1%nat])%list, Throw (PlainError "boom")).

Definition recorder {A} : Callback A (list nat) :=
  fun _ log => ((log ++ [2%nat])%list, Ok tt).

Definition sample_subscribers : Subscribers (list nat) :=
  {| connectionCallbacks := [thrower; recorder];
     messageCallbacks := [thrower; recorder];
     typingCallbacks := [thrower; recorder];
     browserKeyCallbacks := [thrower; recorder] |}.

Definition sample_message : ChatMessage :=
  {| id := JNum 1; Types.chatId := JNum 1; content := JStr "hi"; type := MsgUser;
     senderName := JUndefined; senderType := JUndefined; createdAt := DateNow;
     updatedAt := None; isRead := JBool false; readAt := None;
     metadata := JUndefined |}.

(** [{ ...prev, isConnected: connected }] *)
Definition set_isConnected (connected : bool) (st : ChatState) : ChatState :=
  {| isInitialized := isInitialized st; isConnected := connected;
     isRegistered := isRegistered st; remoteConfig := remoteConfig st;
     browserKey := browserKey st; chatId := chatId st; error := error st |}.

(** What a socket notification may change of the React state: the
    connection flag, and the identity, which it can only set. *)
Definition notified (st st' : ChatState) : Prop :=
  isInitialized st' = isInitialized st /\
  isRegistered st' = isRegistered st /\
  remoteConfig st' = remoteConfig st /\
  chatId st' = chatId st /\
  error st' = error st /\
  (browserKey st' = browserKey st \/ exists k, browserKey st' = Some k).

(** What holds of every world a session can be in. *)
Definition invariant (w : World) : Prop :=
  (isRegistered (state w) = true -> browserKey (state w) <> None) /\
  (isInitialized (state w) = true -> mounted w = true) /\
  (remoteConfig (state w) <> None -> isInitialized (state w) = true).

(** Sample collaborators to evaluate examples with. *)
Definition sample_remote_config (active : bool) : ChatAppRemoteConfig :=
  {| appName := JStr "Support"; appDescription := JUndefined; logoUrl := JUndefined;
     isActive := JBool active; settings := JObj [];
     requiredFields := [("name", "Full name"); ("email", "E-mail")];
     Types.socketUrl := JStr "wss://socket.example.com";
     socketApiKey := JStr "socket-key" |}.

Definition sample_api (active : bool) : RemoteAPI :=
  {| api_getConfig := ApiOk (sample_remote_config active);
     api_registerBrowser := fun _ _ =>
       ApiOk {| success := true; response_browserKey := "abc123";
                response_chatId := Some 7; response_message := None;
                lastMessages := None |};
     api_getMessages := fun _ _ _ => ApiFail "Network Error" 0 |}.

Definition sample_userData : list (string * JValue) :=
  [("name", JStr "Ada"); ("email", JStr "ada@example.com")].

(** A device that mounted the provider, initialized and registered. *)
Definition sample_registered_world : World :=
  run sample_engine sample_config
      [OpMount; OpInitialize (sample_api true);
       OpRegister (sample_api true) "2024-01-01T00:00:00.000Z" sample_userData None;
       OpEvent EvConnect]
      (World_initial ∅).



(** The key names a member every object inherits. *)
Definition inherited (key : string) : Prop := In key (map fst Object_prototype).


(** The world of a device that has initialized and not yet registered. *)
Definition sample_initialized_world : World :=
  run sample_engine sample_config [OpMount; OpInitialize (sample_api true)]
      (World_initial ∅).

(** The identity [loadMessages] goes on with: the one in the state, or
    else the persisted one. *)
Definition held_identity (config : ChatConfigWithDefaults) (w : World) : option string :=
  if truthy_key (browserKey (state w)) then browserKey (state w)
  else getBrowserKey (Api.appKey config) (storage w).

(* ===================================================================== *)
(** * More of the sources *)
(* ===================================================================== *)

(** ** Substrings *)

Module Text.

(** [s.startsWith(p)] *)
Fixpoint startsWith (s p : string) {struct p} : bool :=
  match p with
  | EmptyString => true
  | String c p' =>
      match s with
      | EmptyString => false
      | String d s' => Ascii.eqb d c && startsWith s' p'
      end
  end.

(** [s.includes(sub)] *)
Fixpoint includes (s sub : string) : bool :=
  startsWith s sub ||
  match s with
  | EmptyString => false
  | String _ s' => includes s' sub
  end.

End Text.

(** ** src/types/message.ts: what a message is *)

Module MessageView.

Import Text.

Definition imageExtensions : list string :=
  [".jpg"; ".jpeg"; ".png"; ".gif"; ".webp"; ".bmp"].

(** [isImageContent(content)] *)
Definition isImageContent (content : string) : bool :=
  let lowerContent := toLowerCase content in
  existsb (fun ext => includes lowerContent ext) imageExtensions
  && (includes lowerContent "/storage/" || startsWith lowerContent "http").

(** [v?.k] *)
Definition optional_get (v : JValue) (k : string) : JValue :=
  if nullish v then JUndefined else get v k.

(** [v === true] *)
Definition is_true (v : JValue) : bool :=
  match v with
  | JBool true => true
  | _ => false
  end.

(** [isMessageImage(message)]: the content is read only when the flag of
    the metadata is not [true], and only a string has [toLowerCase]. *)
Definition isMessageImage (message : ChatMessage) : Result bool :=
  if is_true (optional_get (metadata message) "is_image") then Ok true
  else
    match content message with
    | JStr s => Ok (isImageContent s)
    | _ => Throw (TypeError "content.toLowerCase is not a function")
    end.

(** [isMessageEdited(message)] *)
Definition isMessageEdited (message : ChatMessage) : bool :=
  is_true (optional_get (metadata message) "edited").

(** [getMessageEditedAt(message)] *)
Definition getMessageEditedAt (message : ChatMessage) : option JSDate :=
  match optional_get (metadata message) "edited_at" with
  | JStr editedAt => Some (DateOf (JStr editedAt))
  | _ => None
  end.

(** [getMessageOriginalContent(message)] *)
Definition getMessageOriginalContent (message : ChatMessage) : JValue :=
  optional_get (metadata message) "original_content".

End MessageView.

(** ** src/types/responses.ts *)

Module Responses.

(** The responses as they are at run time: a field holds what the body
    held, or the default of its [??]. *)
Record RegistrationResponse : Type := {
  success : JValue;
  browserKey : JValue;
  chatId : JValue;
  message : JValue;
  lastMessages : JValue
}.

Record SendMessageResponse : Type := {
  send_success : JValue;
  userMessageId : JValue;
  send_chatId : JValue;
  aiAgentEnabled : JValue;
  aiMessage : JValue
}.

Record EditMessageResponse : Type := {
  edit_success : JValue;
  messageId : JValue;
  edit_content : JValue;
  edited : JValue;
  editedAt : JValue
}.

Record UpdateUserDataResponse : Type := {
  update_success : JValue;
  userData : JValue;
  update_message : JValue
}.

(** [parseRegistrationResponse(json)] *)
Definition parseRegistrationResponse (json : JValue) : Result RegistrationResponse :=
  if nullish json then Throw (null_read json "success")
  else Ok {| success := get json "success" ?? JBool false;
             browserKey := get json "browser_key" ?? JStr "";
             chatId := get json "chat_id";
             message := get json "message";
             lastMessages := get json "last_messages" |}.

(** [parseSendMessageResponse(json)] *)
Definition parseSendMessageResponse (json : JValue) : Result SendMessageResponse :=
  if nullish json then Throw (null_read json "success")
  else Ok {| send_success := get json "success" ?? JBool false;
             userMessageId := get json "user_message_id" ?? JNum 0;
             send_chatId := get json "chat_id" ?? JNum 0;
             aiAgentEnabled := get json "ai_agent_enabled" ?? JBool false;
             aiMessage := get json "ai_message" |}.

(** [parseEditMessageResponse(json)] *)
Definition parseEditMessageResponse (json : JValue) : Result EditMessageResponse :=
  if nullish json then Throw (null_read json "message")
  else
    let message := get json "message" in
    Ok {| edit_success := get json "success" ?? JBool false;
          messageId := MessageView.optional_get message "id" ?? JNum 0;
          edit_content := MessageView.optional_get message "content" ?? JStr "";
          edited := MessageView.optional_get message "edited" ?? JBool false;
          editedAt := MessageView.optional_get message "edited_at" |}.

(** [parseUpdateUserDataResponse(json)] *)
Definition parseUpdateUserDataResponse (json : JValue) : Result UpdateUserDataResponse :=
  if nullish json then Throw (null_read json "success")
  else Ok {| update_success := get json "success" ?? JBool false;
             userData := get json "user_data" ?? JObj [];
             update_message := get json "message" |}.

End Responses.

(** ** src/types/config.ts *)

Module Config.

(** [ChatConfig]: the optional members are [None] when left out. *)
Record ChatConfig : Type := {
  baseUrl : string;
  companyToken : string;
  appKey : string;
  appSecret : string;
  socketUrl : option string;
  connectionTimeout : option Z;
  enableLogging : option bool
}.

(** [applyConfigDefaults(config)] *)
Definition applyConfigDefaults (config : ChatConfig) : Api.ChatConfigWithDefaults :=
  {| Api.baseUrl := baseUrl config;
     Api.companyToken := companyToken config;
     Api.appKey := appKey config;
     Api.appSecret := appSecret config;
     Api.socketUrl := socketUrl config;
     Api.connectionTimeout := default 20000 (connectionTimeout config);
     Api.enableLogging := default false (enableLogging config) |}.

(** [getApiUrl(config)] *)
Definition getApiUrl (config : Api.ChatConfigWithDefaults) : string :=
  Api.baseUrl config +:+ "/api/v1/mobile-chat/" +:+ Api.companyToken config.

End Config.

(** ** src/services/api.service.ts: the other request methods *)

Module Requests.

Import Api.

Section ChatApiService.
Context (E : Engine) (config : ChatConfigWithDefaults).
Context (http : Request -> HttpOutcome).

(** [this.client.post(path, body, { headers: this.getHeaders() })] *)
Definition post (path : string) (body : JValue) : Request :=
  {| method := "POST"; Api.path := path; headers := getHeaders E config true;
     Api.body := body; cancelToken := None |}.

(** An optional string argument as the property value it becomes. *)
Definition optional_string (s : option string) : JValue :=
  match s with
  | Some x => JStr x
  | None => JUndefined
  end.

(** The [try]/[catch] every request method is written in: [reads] is the
    property of [response.data] the log line reads before the body is
    parsed, when there is one. *)
Definition request {A} (req : Request) (reads : option string)
    (parse : JValue -> Result A) : ApiResult A * list Request :=
  (match plain (http req) with
   | Ok data =>
       match reads with
       | Some k =>
           if nullish data then rethrow E (null_read data k)
           else match parse data with
                | Ok a => ApiOk a
                | Throw error => rethrow E error
                end
       | None =>
           match parse data with
           | Ok a => ApiOk a
           | Throw error => rethrow E error
           end
       end
   | Throw error => rethrow E error
   end, [req]).

(** [registerBrowser(userData, endpoint?)] *)
Definition registerBrowser (userData : list (string * JValue)) (endpoint : option string)
  : ApiResult Responses.RegistrationResponse * list Request :=
  request (post "/register-browser"
             (JObj [("chat_app_key", JStr (appKey config));
                    ("user_data", JObj userData);
                    ("endpoint", optional_string endpoint)]))
          (Some "browser_key") Responses.parseRegistrationResponse.

(** [updateBrowser(browserKey, userData)] *)
Definition updateBrowser (browserKey : string) (userData : list (string * JValue))
  : ApiResult Responses.RegistrationResponse * list Request :=
  request (post "/browser/update"
             (JObj [("chat_app_key", JStr (appKey config));
                    ("browser_key", JStr browserKey);
                    ("user_data", JObj userData)]))
          None Responses.parseRegistrationResponse.

(** [updateUserData(browserKey, data)] *)
Definition updateUserData (browserKey : string) (data : list (string * JValue))
  : ApiResult Responses.UpdateUserDataResponse * list Request :=
  request (post "/browser/update-data"
             (JObj [("chat_app_key", JStr (appKey config));
                    ("browser_key", JStr browserKey);
                    ("data", JObj data)]))
          None Responses.parseUpdateUserDataResponse.

(** [metadata && Object.keys(metadata).length > 0] *)
Definition has_entries (metadata : option (list (string * JValue))) : bool :=
  match metadata with
  | Some (_ :: _) => true
  | _ => false
  end.

(** [sendMessage(browserKey, message, endpoint?, metadata?)] *)
Definition sendMessage (browserKey message : string) (endpoint : option string)
    (metadata : option (list (string * JValue)))
  : ApiResult Responses.SendMessageResponse * list Request :=
  let body := [("chat_app_key", JStr (appKey config));
               ("browser_key", JStr browserKey);
               ("message", JStr message);
               ("endpoint", optional_string endpoint)] in
  let body := if has_entries metadata
              then (body ++ [("metadata", JObj (default [] metadata))])%list
              else body in
  request (post "/send-message" (JObj body))
          (Some "user_message_id") Responses.parseSendMessageResponse.

(** [editMessage(browserKey, messageId, content)] *)
Definition editMessage (browserKey : string) (messageId : Z) (content : string)
  : ApiResult Responses.EditMessageResponse * list Request :=
  request (post "/edit-message"
             (JObj [("chat_app_key", JStr (appKey config));
                    ("browser_key", JStr browserKey);
                    ("message_id", JNum messageId);
                    ("content", JStr content)]))
          None Responses.parseEditMessageResponse.

End ChatApiService.

End Requests.

(** ** src/services/socket.service.ts: channels, subscriptions, dispose *)

Module Subscriptions.

Import Socket.

(** [subscribe(channel)] *)
Definition subscribe (channel : string) (sv : SocketService) : SocketService :=
  if negb (socket_connected sv) then sv
  else {| socket := socket sv;
          currentBrowserKey := currentBrowserKey sv;
          emitted := (emitted sv ++ [("join", JStr channel)])%list |}.

(** [unsubscribe(channel)] *)
Definition unsubscribe (channel : string) (sv : SocketService) : SocketService :=
  if negb (socket_connected sv) then sv
  else {| socket := socket sv;
          currentBrowserKey := currentBrowserKey sv;
          emitted := (emitted sv ++ [("leave", JStr channel)])%list |}.

(** A callback as a [Set] holds it: the function, and the reference by
    which the set tells one function from another. *)
Record Handler (A S : Type) : Type := {
  ref : nat;
  call : Callback A S
}.

Arguments ref {A S} _.
Arguments call {A S} _.

(** [set.add(callback)]: a function the set holds already is not added
    again and keeps its place. *)
Definition Set_add {A S} (h : Handler A S) (set : list (Handler A S))
  : list (Handler A S) :=
  if existsb (fun h' => Nat.eqb (ref h') (ref h)) set then set
  else (set ++ [h])%list.

(** [set.delete(callback)] *)
Definition Set_delete {A S} (r : nat) (set : list (Handler A S)) : list (Handler A S) :=
  List.filter (fun h' => negb (Nat.eqb (ref h') r)) set.

(** The four sets of [ChatSocketService]. *)
Record Registry (S : Type) : Type := {
  connectionSet : list (Handler bool S);
  messageSet : list (Handler ChatMessage S);
  typingSet : list (Handler bool S);
  browserKeySet : list (Handler string S)
}.

Arguments connectionSet {S} _.
Arguments messageSet {S} _.
Arguments typingSet {S} _.
Arguments browserKeySet {S} _.

Definition Registry_empty {S} : Registry S :=
  {| connectionSet := []; messageSet := []; typingSet := []; browserKeySet := [] |}.

(** The callbacks a dispatch runs through, in the order of the sets. *)
Definition subscribers {S} (reg : Registry S) : Subscribers S :=
  {| connectionCallbacks := map call (connectionSet reg);
     messageCallbacks := map call (messageSet reg);
     typingCallbacks := map call (typingSet reg);
     browserKeyCallbacks := map call (browserKeySet reg) |}.

(** [onConnectionChange(callback)]: the registry with the callback added;
    the closure it returns is [offConnectionChange] at the same reference. *)
Definition onConnectionChange {S} (h : Handler bool S) (reg : Registry S) : Registry S :=
  {| connectionSet := Set_add h (connectionSet reg);
     messageSet := messageSet reg;
     typingSet := typingSet reg;
     browserKeySet := browserKeySet reg |}.

Definition offConnectionChange {S} (r : nat) (reg : Registry S) : Registry S :=
  {| connectionSet := Set_delete r (connectionSet reg);
     messageSet := messageSet reg;
     typingSet := typingSet reg;
     browserKeySet := browserKeySet reg |}.

(** [onMessage(callback)] and the closure it returns. *)
Definition onMessage {S} (h : Handler ChatMessage S) (reg : Registry S) : Registry S :=
  {| connectionSet := connectionSet reg;
     messageSet := Set_add h (messageSet reg);
     typingSet := typingSet reg;
     browserKeySet := browserKeySet reg |}.

Definition offMessage {S} (r : nat) (reg : Registry S) : Registry S :=
  {| connectionSet := connectionSet reg;
     messageSet := Set_delete r (messageSet reg);
     typingSet := typingSet reg;
     browserKeySet := browserKeySet reg |}.

(** [onTyping(callback)] and the closure it returns. *)
Definition onTyping {S} (h : Handler bool S) (reg : Registry S) : Registry S :=
  {| connectionSet := connectionSet reg;
     messageSet := messageSet reg;
     typingSet := Set_add h (typingSet reg);
     browserKeySet := browserKeySet reg |}.

Definition offTyping {S} (r : nat) (reg : Registry S) : Registry S :=
  {| connectionSet := connectionSet reg;
     messageSet := messageSet reg;
     typingSet := Set_delete r (typingSet reg);
     browserKeySet := browserKeySet reg |}.

(** [onBrowserKeyUpdate(callback)] and the closure it returns. *)
Definition onBrowserKeyUpdate {S} (h : Handler string S) (reg : Registry S) : Registry S :=
  {| connectionSet := connectionSet reg;
     messageSet := messageSet reg;
     typingSet := typingSet reg;
     browserKeySet := Set_add h (browserKeySet reg) |}.

Definition offBrowserKeyUpdate {S} (r : nat) (reg : Registry S) : Registry S :=
  {| connectionSet := connectionSet reg;
     messageSet := messageSet reg;
     typingSet := typingSet reg;
     browserKeySet := Set_delete r (browserKeySet reg) |}.

(** [dispose()]: the service is disconnected, which notifies the
    connection subscribers when there was a socket, and the four sets are
    cleared; an exception of that notification leaves them as they are. *)
Definition dispose {S} (sv : SocketService) (reg : Registry S) (s : S)
  : SocketService * Registry S * S * Result unit :=
  match disconnect (subscribers reg) sv s with
  | (sv', s', Ok _) => (sv', Registry_empty, s', Ok tt)
  | (sv', s', Throw e) => (sv', reg, s', Throw e)
  end.

End Subscriptions.

(** ** src/context/FcrmChatContext.tsx: the operations of a registered device *)

Module Session.

Import Storage Socket Context.

Definition NotRegistered : Thrown :=
  ChatException "Not registered. Call register() first.".

(** The other methods of the [ChatApiService] the provider holds, as what
    each answers when called. *)
Record RemoteAPI_rest : Type := {
  api_updateBrowser :
    string -> list (string * JValue) -> Api.ApiResult RegistrationResponse;
  api_updateUserData :
    string -> list (string * JValue) -> Api.ApiResult Responses.UpdateUserDataResponse;
  api_sendMessage :
    string -> string -> option string -> option (list (string * JValue)) ->
    Api.ApiResult Responses.SendMessageResponse;
  api_editMessage :
    string -> Z -> string -> Api.ApiResult Responses.EditMessageResponse;
  api_uploadImage :
    string -> string -> option string -> option Api.CancelToken -> Result JValue;
  api_uploadFile :
    string -> string -> option string -> option Api.CancelToken -> Result JValue
}.

(** The two tests every operation of a registered device starts with:
    the exception to throw, or the identity to go on with. *)
Definition identity_guard (w : World) : Thrown + string :=
  if negb (isInitialized (state w)) then inl NotInitialized
  else
    match browserKey (state w) with
    | Some key => if truthy (JStr key) then inr key else inl NotRegistered
    | None => inl NotRegistered
    end.

(** The parsing loop of [updateBrowser]: the entries that are objects,
    each through [parseChatMessage]. *)
Definition parse_lastMessages (lastMessages : option (list JValue))
  : Result (list ChatMessage) :=
  match lastMessages with
  | Some items =>
      mapM parseChatMessage
           (List.filter (fun m => typeof_object m && negb (nullish m)) items)
  | None => Ok []
  end.

Section Provider.
Context (E : Engine) (config : Api.ChatConfigWithDefaults).

Let appKey : string := Api.appKey config.

(** [updateBrowser(userData)] *)
Definition updateBrowser (api : RemoteAPI_rest) (userData : list (string * JValue))
    (w : World) : World * Result (list ChatMessage) :=
  match identity_guard w with
  | inl e => (w, Throw e)
  | inr key =>
      if negb (mounted w) then (w, Throw ServicesNotInitialized)
      else
        match api_updateBrowser api key userData with
        | Api.ApiFail message statusCode =>
            (w, Throw (ChatApiException message statusCode))
        | Api.ApiOk response =>
            match parse_lastMessages (lastMessages response) with
            | Throw e => (w, Throw e)
            | Ok messages =>
                let st := state w in
                ({| state := {| isInitialized := isInitialized st;
                                isConnected := isConnected st;
                                isRegistered := isRegistered st;
                                remoteConfig := remoteConfig st;
                                browserKey := browserKey st;
                                chatId := match response_chatId response with
                                          | Some c => Some c
                                          | None => chatId st
                                          end;
                                error := error st |};
                    storage := saveUserData E appKey (JObj userData) (storage w);
                    socketService := socketService w;
                    mounted := mounted w; clients := clients w |}, Ok messages)
            end
        end
  end.

(** [updateUserData(data)] *)
Definition updateUserData (api : RemoteAPI_rest) (data : list (string * JValue))
    (w : World) : World * Result JValue :=
  match identity_guard w with
  | inl e => (w, Throw e)
  | inr key =>
      if negb (mounted w) then (w, Throw ServicesNotInitialized)
      else
        match api_updateUserData api key data with
        | Api.ApiFail message statusCode =>
            (w, Throw (ChatApiException message statusCode))
        | Api.ApiOk response =>
            ({| state := state w;
                storage := saveUserData E appKey (Responses.userData response)
                                        (storage w);
                socketService := socketService w;
                mounted := mounted w; clients := clients w |}, Ok (Responses.userData response))
        end
  end.

(** [updateName(name)], [updatePhone(phone)], [updateEmail(email)] *)
Definition updateName (api : RemoteAPI_rest) (name : string) : World -> World * Result JValue :=
  updateUserData api [("name", JStr name)].

Definition updatePhone (api : RemoteAPI_rest) (phone : string) : World -> World * Result JValue :=
  updateUserData api [("phone", JStr phone)].

Definition updateEmail (api : RemoteAPI_rest) (email : string) : World -> World * Result JValue :=
  updateUserData api [("email", JStr email)].

(** [sendMessage(message, endpoint?, metadata?)] *)
Definition sendMessage (api : RemoteAPI_rest) (message : string) (endpoint : option string)
    (metadata : option (list (string * JValue))) (w : World)
  : Result Responses.SendMessageResponse :=
  match identity_guard w with
  | inl e => Throw e
  | inr key =>
      if negb (mounted w) then Throw ServicesNotInitialized
      else Api.thrown_by (api_sendMessage api key message endpoint metadata)
  end.

(** [editMessage(messageId, content)] *)
Definition editMessage (api : RemoteAPI_rest) (messageId : Z) (content : string)
    (w : World) : Result Responses.EditMessageResponse :=
  match identity_guard w with
  | inl e => Throw e
  | inr key =>
      if negb (mounted w) then Throw ServicesNotInitialized
      else Api.thrown_by (api_editMessage api key messageId content)
  end.

(** [sendImage(imageUri, endpoint?, onProgress?, cancelToken?)] *)
Definition sendImage (api : RemoteAPI_rest) (imageUri : string) (endpoint : option string)
    (cancelToken : option Api.CancelToken) (w : World) : Result JValue :=
  match identity_guard w with
  | inl e => Throw e
  | inr key =>
      if negb (mounted w) then Throw ServicesNotInitialized
      else api_uploadImage api key imageUri endpoint cancelToken
  end.

(** [sendFile(fileUri, endpoint?, onProgress?, cancelToken?)] *)
Definition sendFile (api : RemoteAPI_rest) (fileUri : string) (endpoint : option string)
    (cancelToken : option Api.CancelToken) (w : World) : Result JValue :=
  match identity_guard w with
  | inl e => Throw e
  | inr key =>
      if negb (mounted w) then Throw ServicesNotInitialized
      else api_uploadFile api key fileUri endpoint cancelToken
  end.

(** [getMessages(page = 1, perPage = 20)] *)
Definition getMessages (api : RemoteAPI) (page perPage : option Z) (w : World)
  : Result PaginatedMessages :=
  match identity_guard w with
  | inl e => Throw e
  | inr key =>
      if negb (mounted w) then Throw ServicesNotInitialized
      else Api.thrown_by (api_getMessages api key (default 1 page) (default 20 perPage))
  end.

(** [sendTyping(isTyping)] *)
Definition sendTyping (isTyping : bool) (w : World) : World :=
  match browserKey (state w) with
  | Some key =>
      if truthy (JStr key) && mounted w then
        {| state := state w; storage := storage w;
           socketService := Socket.sendTyping key isTyping (socketService w);
           mounted := mounted w; clients := clients w |}
      else w
  | None => w
  end.

(** [getUserData()] *)
Definition getUserData (w : World) : JValue :=
  if mounted w then Storage.getUserData E appKey (storage w) else JNull.

(** [checkIsRegistered()] *)
Definition checkIsRegistered (w : World) : bool :=
  if mounted w then Storage.isRegistered appKey (storage w) else false.

(** [isActive: state.remoteConfig?.isActive ?? false] *)
Definition isActive_ (w : World) : JValue :=
  match remoteConfig (state w) with
  | Some c => isActive c ?? JBool false
  | None => JBool false
  end.

End Provider.

End Session.

(** ** The hooks: src/hooks/useChatMessages.ts, src/hooks/useChatTyping.ts *)

Module Hooks.

(** [a === b] on message ids.  An array or an object is equal to itself
    alone, and the ids of two messages read from the wire are never one
    and the same object. *)
Definition strict_eq (a b : JValue) : bool :=
  match a, b with
  | JUndefined, JUndefined => true
  | JNull, JNull => true
  | JBool x, JBool y => Bool.eqb x y
  | JNum x, JNum y => x =? y
  | JStr x, JStr y => String.eqb x y
  | _, _ => false
  end.

(** The update [useChatMessages] makes of its list when a message
    arrives: an id it holds is replaced where it is, a new one goes first. *)
Definition receive (newMessage : ChatMessage) (prev : list ChatMessage)
  : list ChatMessage :=
  if existsb (fun m => strict_eq (id m) (id newMessage)) prev
  then map (fun m => if strict_eq (id m) (id newMessage) then newMessage else m) prev
  else newMessage :: prev.

(** The update [loadMore] makes of the list with the page it loaded. *)
Definition appendPage (page prev : list ChatMessage) : list ChatMessage :=
  let existingIds := map id prev in
  let newMessages :=
    List.filter (fun m => negb (existsb (fun i => strict_eq i (id m)) existingIds)) page in
  (prev ++ newMessages)%list.

(** [useChatTyping]: whether a timeout is pending, the flag of the ref,
    and the calls made to the context's [sendTyping], oldest first. *)
Record TypingState : Type := {
  typingTimeout : bool;
  isCurrentlyTyping : bool;
  sent : list bool
}.

Definition TypingState_initial : TypingState :=
  {| typingTimeout := false; isCurrentlyTyping := false; sent := [] |}.

(** [setTyping(text)] *)
Definition setTyping (text : string) (st : TypingState) : TypingState :=
  if (0 <? Z.of_nat (String.length text)) then
    {| typingTimeout := true;
       isCurrentlyTyping := true;
       sent := if isCurrentlyTyping st then sent st else (sent st ++ [true])%list |}
  else
    {| typingTimeout := false;
       isCurrentlyTyping := false;
       sent := if isCurrentlyTyping st then (sent st ++ [false])%list else sent st |}.

(** The pending timeout elapses. *)
Definition timeout_elapses (st : TypingState) : TypingState :=
  if typingTimeout st then
    {| typingTimeout := false; isCurrentlyTyping := false;
       sent := (sent st ++ [false])%list |}
  else st.

(** The manual [sendTyping(isTyping)] of the hook. *)
Definition hook_sendTyping (isTyping : bool) (st : TypingState) : TypingState :=
  {| typingTimeout := false; isCurrentlyTyping := isTyping;
     sent := (sent st ++ [isTyping])%list |}.

Inductive TypingEvent : Type :=
| Keystroke (text : string)
| Elapsed
| Manual (isTyping : bool).

Definition typing_step (st : TypingState) (ev : TypingEvent) : TypingState :=
  match ev with
  | Keystroke text => setTyping text st
  | Elapsed => timeout_elapses st
  | Manual isTyping => hook_sendTyping isTyping st
  end.

End Hooks.

(* ===================================================================== *)
(** * Vocabulary of the further properties *)
(* ===================================================================== *)

(** [sub] occurs in [s]. *)
Definition occurs_in (sub s : string) : Prop :=
  exists pre post, s = pre +:+ sub +:+ post.

(** A property of what each of the seven request methods returns,
    whatever its arguments. *)
Definition every_request_method (E : Engine) (config : ChatConfigWithDefaults)
    (http : Request -> HttpOutcome)
    (P : forall A, ApiResult A * list Request -> Prop) : Prop :=
  P _ (getConfig E config http) /\
  (forall browserKey page perPage,
     P _ (getMessages E config http browserKey page perPage)) /\
  (forall userData endpoint,
     P _ (Requests.registerBrowser E config http userData endpoint)) /\
  (forall browserKey userData,
     P _ (Requests.updateBrowser E config http browserKey userData)) /\
  (forall browserKey data,
     P _ (Requests.updateUserData E config http browserKey data)) /\
  (forall browserKey message endpoint metadata,
     P _ (Requests.sendMessage E config http browserKey message endpoint metadata)) /\
  (forall browserKey messageId content,
     P _ (Requests.editMessage E config http browserKey messageId content)).

(** One request was issued and a [ChatApiException] with this message and
    status code thrown. *)
Definition throws_api (message : string) (statusCode : Z)
    (A : Type) (r : ApiResult A * list Request) : Prop :=
  fst r = ApiFail message statusCode /\ length (snd r) = 1%nat.

(** One of the four subscriber sets of the socket service: the set it is,
    its subscription method, the closure that method returns (at the
    reference of the callback subscribed), and the registry without the
    set. *)
Record Category (S A : Type) : Type := {
  members : Subscriptions.Registry S -> list (Subscriptions.Handler A S);
  on : Subscriptions.Handler A S -> Subscriptions.Registry S -> Subscriptions.Registry S;
  unsubscribe : nat -> Subscriptions.Registry S -> Subscriptions.Registry S;
  others : Subscriptions.Registry S -> Subscriptions.Registry S;
  dispatch : Subscribers S -> list (Callback A S)
}.

Arguments members {S A} _ _.
Arguments on {S A} _ _ _.
Arguments unsubscribe {S A} _ _ _.
Arguments others {S A} _ _.
Arguments dispatch {S A} _ _.

Definition connection_category {S} : Category S bool :=
  {| members := Subscriptions.connectionSet;
     on := Subscriptions.onConnectionChange;
     unsubscribe := Subscriptions.offConnectionChange;
     others := fun reg =>
       {| Subscriptions.connectionSet := [];
          Subscriptions.messageSet := Subscriptions.messageSet reg;
          Subscriptions.typingSet := Subscriptions.typingSet reg;
          Subscriptions.browserKeySet := Subscriptions.browserKeySet reg |};
     dispatch := connectionCallbacks |}.

Definition message_category {S} : Category S ChatMessage :=
  {| members := Subscriptions.messageSet;
     on := Subscriptions.onMessage;
     unsubscribe := Subscriptions.offMessage;
     others := fun reg =>
       {| Subscriptions.connectionSet := Subscriptions.connectionSet reg;
          Subscriptions.messageSet := [];
          Subscriptions.typingSet := Subscriptions.typingSet reg;
          Subscriptions.browserKeySet := Subscriptions.browserKeySet reg |};
     dispatch := messageCallbacks |}.

Definition typing_category {S} : Category S bool :=
  {| members := Subscriptions.typingSet;
     on := Subscriptions.onTyping;
     unsubscribe := Subscriptions.offTyping;
     others := fun reg =>
       {| Subscriptions.connectionSet := Subscriptions.connectionSet reg;
          Subscriptions.messageSet := Subscriptions.messageSet reg;
          Subscriptions.typingSet := [];
          Subscriptions.browserKeySet := Subscriptions.browserKeySet reg |};
     dispatch := typingCallbacks |}.

Definition browserKey_category {S} : Category S string :=
  {| members := Subscriptions.browserKeySet;
     on := Subscriptions.onBrowserKeyUpdate;
     unsubscribe := Subscriptions.offBrowserKeyUpdate;
     others := fun reg =>
       {| Subscriptions.connectionSet := Subscriptions.connectionSet reg;
          Subscriptions.messageSet := Subscriptions.messageSet reg;
          Subscriptions.typingSet := Subscriptions.typingSet reg;
          Subscriptions.browserKeySet := [] |};
     dispatch := browserKeyCallbacks |}.

(** The references of the callbacks a set holds. *)
Definition refs {A S} (set : list (Subscriptions.Handler A S)) : list nat :=
  map Subscriptions.ref set.

(** What makes the subscriptions of a category those of a [Set]. *)
Definition subscribes_as_a_set {S A} (c : Category S A) : Prop :=
  forall (h : Subscriptions.Handler A S) (reg : Subscriptions.Registry S),
    (* a dispatch calls the callbacks of the set, in its order *)
    dispatch c (Subscriptions.subscribers reg) = map Subscriptions.call (members c reg) /\
    (* a callback the set holds is not added again and keeps its place *)
    (In (Subscriptions.ref h) (refs (members c reg)) -> on c h reg = reg) /\
    (* a new callback goes last, and is called last *)
    (~ In (Subscriptions.ref h) (refs (members c reg)) ->
       members c (on c h reg) = (members c reg ++ [h])%list /\
       dispatch c (Subscriptions.subscribers (on c h reg))
       = (dispatch c (Subscriptions.subscribers reg) ++ [Subscriptions.call h])%list) /\
    on c h (on c h reg) = on c h reg /\
    (* the closure removes the callback and keeps the others in order *)
    (forall pre post,
       members c reg = (pre ++ h :: post)%list ->
       ~ In (Subscriptions.ref h) (refs pre) ->
       ~ In (Subscriptions.ref h) (refs post) ->
       members c (unsubscribe c (Subscriptions.ref h) reg) = (pre ++ post)%list) /\
    (* on a callback the set does not hold, it does nothing *)
    (~ In (Subscriptions.ref h) (refs (members c reg)) ->
       unsubscribe c (Subscriptions.ref h) reg = reg /\
       unsubscribe c (Subscriptions.ref h) (on c h reg) = reg) /\
    unsubscribe c (Subscriptions.ref h) (unsubscribe c (Subscriptions.ref h) reg)
    = unsubscribe c (Subscriptions.ref h) reg /\
    (* the three other sets are not touched *)
    others c (on c h reg) = others c reg /\
    others c (unsubscribe c (Subscriptions.ref h) reg) = others c reg.

(** A capital letter of the Latin alphabet, and a string without any. *)
Definition is_capital (c : ascii) : bool :=
  ((65 <=? code c) && (code c <=? 90))%N.

Fixpoint no_capital (s : string) : bool :=
  match s with
  | EmptyString => true
  | String c rest => negb (is_capital c) && no_capital rest
  end.

(** The multipart part of an upload request that holds the file. *)
Definition image_part (req : Request) : JValue := get (body req) "image".

(** The identity in the React state is the persisted one. *)
Definition identity_in_step (config : ChatConfigWithDefaults) (w : World) : Prop :=
  isInitialized (state w) = true ->
  browserKey (state w) = getBrowserKey (Api.appKey config) (storage w).

(** A new provider on the device whose store is [persisted]: mounted and
    initialized against [api]. *)
Definition restart (E : Engine) (config : ChatConfigWithDefaults) (api : RemoteAPI)
    (persisted : AsyncStorage) : World :=
  run E config [OpMount; OpInitialize api] (World_initial persisted).

(** An operation refused with [e]: it throws [e] and changes nothing. *)
Definition refused {A} (e : Thrown) (w : World) (out : World * Result A) : Prop :=
  out = (w, Throw e).

(** Every operation of a registered device refuses with [e] in [w]. *)
Definition all_refuse (E : Engine) (config : ChatConfigWithDefaults)
    (api : RemoteAPI) (rest : Session.RemoteAPI_rest) (e : Thrown) (w : World) : Prop :=
  (forall userData, refused e w (Session.updateBrowser E config rest userData w)) /\
  (forall data, refused e w (Session.updateUserData E config rest data w)) /\
  (forall message endpoint metadata,
     Session.sendMessage rest message endpoint metadata w = Throw e) /\
  (forall messageId content, Session.editMessage rest messageId content w = Throw e) /\
  (forall uri endpoint token, Session.sendImage rest uri endpoint token w = Throw e) /\
  (forall uri endpoint token, Session.sendFile rest uri endpoint token w = Throw e) /\
  (forall page perPage, Session.getMessages api page perPage w = Throw e).

(** [typeof v === 'object' && v !== null] *)
Definition is_object (v : JValue) : bool := typeof_object v && negb (nullish v).

(** The [type] of a wire object is one [parseMessageType] returns on:
    absent, [null] or a string. *)
Definition type_readable (v : JValue) : Prop :=
  exists t, parseMessageType (get v "type") = Ok t.

(** A value [===] tells from every other and equates with itself: not an
    array or an object. *)
Definition primitive (v : JValue) : Prop := Hooks.strict_eq v v = true.

(** The ids of a list of messages, and that no two of them are equal. *)
Definition ids (l : list ChatMessage) : list JValue := map id l.

Definition distinct_ids (l : list ChatMessage) : Prop := List.NoDup (ids l).

(** The hook driven by keystrokes and timeouts only. *)
Definition typed_only (evs : list Hooks.TypingEvent) : Prop :=
  Forall (fun ev => match ev with Hooks.Manual _ => False | _ => True end) evs.

(** [true, false, true, ...]: the entry at position [i] is [true] exactly
    when [i] is even. *)
Definition alternating (l : list bool) : Prop :=
  forall i b, nth_error l i = Some b -> b = Nat.even i.

(* ===================================================================== *)
(** * Properties *)
(* ===================================================================== *)

(** ** Message categories *)

Lemma messageType_switch_literal (c : MessageType) :
  messageType_switch (MessageType_literal c) = c.
Proof. destruct c; reflexivity. Qed.

Lemma messageType_switch_other (l : string) :
  (forall c, l <> MessageType_literal c) -> messageType_switch l = MsgUser.
Proof.
  intros Hne. unfold messageType_switch.
  destruct (String.eqb_spec l "user"); [reflexivity|].
  destruct (String.eqb_spec l "admin") as [->|_]; [destruct (Hne MsgAdmin); reflexivity|].
  destruct (String.eqb_spec l "ai") as [->|_]; [destruct (Hne MsgAi); reflexivity|].
  destruct (String.eqb_spec l "system") as [->|_]; [destruct (Hne MsgSystem); reflexivity|].
  reflexivity.
Qed.

Lemma MessageType_four (t : MessageType) :
  In t [MsgUser; MsgAdmin; MsgAi; MsgSystem].
Proof. destruct t; simpl; auto. Qed.

Lemma parseChatMessage_type (json : JValue) (m : ChatMessage) :
  parseChatMessage json = Ok m ->
  parseMessageType (get json "type") = Ok (type m).
Proof.
  unfold parseChatMessage. destruct (nullish json); [discriminate|].
  destruct (parseMessageType (get json "type")) as [t|e]; simpl; [|discriminate].
  intros [= <-]. reflexivity.
Qed.

Lemma parseChatMessage_returns (json : JValue) (t : MessageType) :
  nullish json = false ->
  parseMessageType (get json "type") = Ok t ->
  exists m, parseChatMessage json = Ok m /\ type m = t.
Proof.
  intros Hn Ht. unfold parseChatMessage. rewrite Hn, Ht. simpl.
  eexists. split; reflexivity.
Qed.

(** C10.  [parseMessageType] returns on every string and on [undefined],
    and what it returns is one of the four categories: the category whose
    literal the lower-cased input is, and ['user'] for every other string
    and for [undefined]; two strings that agree once lower-cased get the
    same category.  [parseChatMessage] gives its message the category of
    the wire object's [type], so a message built from an object whose
    [type] is a string or is missing has one of the four, ['user'] when
    the string is none of the literals. *)
Theorem parseMessageType_total (value : option string) :
  exists t,
    parseMessageType (string_or_undefined value) = Ok t /\
    In t [MsgUser; MsgAdmin; MsgAi; MsgSystem] /\
    (value = None -> t = MsgUser) /\
    (forall s c, value = Some s -> toLowerCase s = MessageType_literal c -> t = c) /\
    (forall s, value = Some s ->
       (forall c, toLowerCase s <> MessageType_literal c) -> t = MsgUser) /\
    (forall s s', value = Some s -> toLowerCase s' = toLowerCase s ->
       parseMessageType (JStr s') = Ok t) /\
    (forall json, nullish json = false ->
       get json "type" = string_or_undefined value ->
       exists m, parseChatMessage json = Ok m /\ type m = t).
Proof.
  assert (exists t, parseMessageType (string_or_undefined value) = Ok t) as [t Ht].
  { destruct value; simpl; eauto. }
  exists t. split; [exact Ht|]. split; [apply MessageType_four|].
  repeat split.
  - intros ->. simpl in Ht. congruence.
  - intros s c -> Hl. simpl in Ht. rewrite Hl, messageType_switch_literal in Ht.
    congruence.
  - intros s -> Hne. simpl in Ht.
    rewrite (messageType_switch_other _ Hne) in Ht. congruence.
  - intros s s' -> Hl. simpl in *. rewrite Hl. exact Ht.
  - intros json Hn Hty. apply parseChatMessage_returns; [exact Hn|].
    rewrite Hty. exact Ht.
Qed.

Lemma parseMessageType_total_witness :
  parseMessageType (JStr "AdMiN") = Ok MsgAdmin /\
  exists m, parseChatMessage (JObj [("id", JNum 7); ("type", JStr "AdMiN")]) = Ok m /\
            type m = MsgAdmin.
Proof.
  destruct (parseMessageType_total (Some "AdMiN"))
    as (t & Ht & _ & _ & Hlit & _ & _ & Hjson).
  assert (t = MsgAdmin) as -> by (apply (Hlit "AdMiN" MsgAdmin); reflexivity).
  split; [exact Ht|].
  apply (Hjson (JObj [("id", JNum 7); ("type", JStr "AdMiN")])); reflexivity.
Defined.

(** Whatever the wire object, a message that is built has one of the four
    categories. *)
Lemma parseChatMessage_category (json : JValue) (m : ChatMessage) :
  parseChatMessage json = Ok m -> In (type m) [MsgUser; MsgAdmin; MsgAi; MsgSystem].
Proof. intros _. apply MessageType_four. Qed.

Example parseMessageType_null : parseMessageType JNull = Ok MsgUser.
Proof. reflexivity. Qed.

Example parseMessageType_upper : parseMessageType (JStr "SYSTEM") = Ok MsgSystem.
Proof. reflexivity. Qed.

Example parseMessageType_unknown : parseMessageType (JStr "robot") = Ok MsgUser.
Proof. reflexivity. Qed.

Example parseMessageType_number :
  parseMessageType (JNum 5) = Throw (TypeError "value?.toLowerCase is not a function").
Proof. reflexivity. Qed.

(** ** Pages *)

Lemma mapM_parseChatMessage_objects (items : list JValue) :
  Forall (fun v => nullish v = false /\
                   exists t, parseMessageType (get v "type") = Ok t) items ->
  exists ms, mapM parseChatMessage items = Ok ms /\ length ms = length items.
Proof.
  induction 1 as [|v rest [Hn [t Ht]] _ [ms [IH Hlen]]]; simpl.
  - exists []. split; reflexivity.
  - destruct (parseChatMessage_returns v t Hn Ht) as [m [Hm _]].
    rewrite Hm, IH. simpl. exists (m :: ms). split; [reflexivity|].
    simpl. rewrite Hlen. reflexivity.
Qed.

(** A response body that is an object whose [messages] are objects with a
    well-typed [type] is parsed, whatever else it holds. *)
Lemma parsePaginatedMessages_returns (E : Engine) (json : JValue)
    (items : list JValue) :
  nullish json = false ->
  get json "messages" = JArr items ->
  Forall (fun v => nullish v = false /\
                   exists t, parseMessageType (get v "type") = Ok t) items ->
  exists p, parsePaginatedMessages E json = Ok p.
Proof.
  intros Hn Hm Hitems. unfold parsePaginatedMessages. rewrite Hn, Hm. simpl.
  destruct (mapM_parseChatMessage_objects items Hitems) as [ms [-> _]].
  simpl. eexists. reflexivity.
Qed.

(** C5.  On every constructed page [hasMore] is [currentPage < lastPage]:
    the comparison of the two fields as the engine makes it, which on
    numbers is the order of the integers; in particular it is false when
    both are 1. *)
Theorem hasMore_currentPage_lt_lastPage (E : Engine) (p : PaginatedMessages) :
  constructed E p ->
  hasMore p = js_lt E (currentPage p) (lastPage p) /\
  (forall c l, currentPage p = JNum c -> lastPage p = JNum l ->
     hasMore p = (c <? l)) /\
  (currentPage p = JNum 1 -> lastPage p = JNum 1 -> hasMore p = false).
Proof.
  intros Hc.
  assert (hasMore p = js_lt E (currentPage p) (lastPage p)) as Hlt.
  { destruct Hc as [json p Hp | perPage]; [|reflexivity].
    unfold parsePaginatedMessages in Hp.
    destruct (nullish json); [discriminate|].
    destruct (map_parseChatMessage _) as [ms|e]; simpl in Hp; [|discriminate].
    injection Hp as <-. reflexivity. }
  split; [exact Hlt|]. split.
  - intros c l Hcp Hlp. rewrite Hlt, Hcp, Hlp. reflexivity.
  - intros Hcp Hlp. rewrite Hlt, Hcp, Hlp. reflexivity.
Qed.

Lemma hasMore_currentPage_lt_lastPage_witness :
  exists p, parsePaginatedMessages sample_engine sample_page_json = Ok p /\
    hasMore p = js_lt sample_engine (currentPage p) (lastPage p) /\
    (forall c l, currentPage p = JNum c -> lastPage p = JNum l ->
       hasMore p = (c <? l)) /\
    (currentPage p = JNum 1 -> lastPage p = JNum 1 -> hasMore p = false).
Proof.
  eexists. split; [reflexivity|].
  apply (hasMore_currentPage_lt_lastPage sample_engine).
  apply (constructed_parsed sample_engine sample_page_json). reflexivity.
Defined.

Example hasMore_page_2_of_5 :
  hasMore <$> (match parsePaginatedMessages sample_engine
                       (JObj [("current_page", JNum 2); ("last_page", JNum 5)]) with
               | Ok p => Some p | Throw _ => None end) = Some true.
Proof. reflexivity. Qed.

Example hasMore_defaults :
  hasMore <$> (match parsePaginatedMessages sample_engine (JObj []) with
               | Ok p => Some p | Throw _ => None end) = Some false.
Proof. reflexivity. Qed.

(** ** Error messages of failed requests *)

Lemma join_JStr (sep : string) (l : list string) :
  join sep (map JStr l) = join_strings sep l.
Proof.
  induction l as [|x [|y rest] IH]; try reflexivity.
  change (join sep (map JStr (x :: y :: rest)))
    with (x +:+ sep +:+ join sep (map JStr (y :: rest))).
  rewrite IH. reflexivity.
Qed.

Lemma flat_errors_map (fields : list (string * list string)) :
  flat (Object_values (errors_map fields)) = map JStr (concat (map snd fields)).
Proof.
  unfold flat, errors_map, Object_values.
  induction fields as [|[f msgs] rest IH]; [reflexivity|].
  simpl in *. rewrite IH, map_app. reflexivity.
Qed.

(** C9.  The message read from a failed response with status [status] and
    body [data].  A body is searched when it is truthy; a field counts
    when it is truthy.  First [error]; then [errors], when it is an
    object, its values flattened one level and joined with [", "] (for a
    map from field names to lists of strings: all the strings, in order);
    then [message]; and when none of them counts, or the body is falsy,
    ["Request failed with status N"]. *)
Theorem parseError_precedence (E : Engine) (status : Z) (data : JValue) (text : string) :
  let error := AxiosError (Some (status, data)) text in
  let fallback := "Request failed with status " +:+ pretty status in
  (truthy data = true -> truthy (get data "error") = true ->
     parseError E error = ToString (get data "error")) /\
  (truthy data = true -> truthy (get data "error") = false ->
     truthy (get data "errors") = true -> typeof_object (get data "errors") = true ->
     parseError E error = join ", " (flat (Object_values (get data "errors")))) /\
  (forall fields, truthy data = true -> truthy (get data "error") = false ->
     get data "errors" = errors_map fields ->
     parseError E error = join_strings ", " (concat (map snd fields))) /\
  (truthy data = true -> truthy (get data "error") = false ->
     truthy (get data "errors") && typeof_object (get data "errors") = false ->
     truthy (get data "message") = true ->
     parseError E error = ToString (get data "message")) /\
  (truthy data = true -> truthy (get data "error") = false ->
     truthy (get data "errors") && typeof_object (get data "errors") = false ->
     truthy (get data "message") = false ->
     parseError E error = fallback) /\
  (truthy data = false -> parseError E error = fallback).
Proof.
  simpl. repeat split.
  - intros -> ->. reflexivity.
  - intros -> -> -> ->. reflexivity.
  - intros fields -> -> Hf. rewrite Hf.
    change (truthy (errors_map fields) && typeof_object (errors_map fields))
      with true.
    cbv iota. rewrite flat_errors_map, join_JStr. reflexivity.
  - intros -> -> -> ->. reflexivity.
  - intros -> -> -> ->. reflexivity.
  - intros ->. reflexivity.
Qed.

Lemma parseError_precedence_witness :
  parseError sample_engine (AxiosError (Some (422, sample_validation_body)) "Request failed")
  = "Email is required, Email is invalid, Name is too short".
Proof.
  destruct (parseError_precedence sample_engine 422 sample_validation_body "Request failed")
    as (_ & _ & H & _).
  apply (H [("email", ["Email is required"; "Email is invalid"]);
            ("name", ["Name is too short"])]); reflexivity.
Defined.

Example parseError_error_wins :
  parseError sample_engine (AxiosError (Some (400, JObj [("message", JStr "m"); ("error", JStr "e");
                                           ("errors", errors_map [("f", ["x"])])])) "")
  = "e".
Proof. reflexivity. Qed.

Example parseError_message :
  parseError sample_engine (AxiosError (Some (404, JObj [("message", JStr "Not found")])) "") = "Not found".
Proof. reflexivity. Qed.

Example parseError_fallback :
  parseError sample_engine (AxiosError (Some (500, JObj [("ok", JBool false)])) "")
  = "Request failed with status 500".
Proof. reflexivity. Qed.

Example parseError_empty_error_field :
  parseError sample_engine (AxiosError (Some (400, JObj [("error", JStr ""); ("message", JStr "m")])) "")
  = "m".
Proof. reflexivity. Qed.

(** ** Upload cancellation *)

Lemma cancel_idempotent (t : CancelToken) : cancel (cancel t) = cancel t.
Proof. unfold cancel. destruct (_isCancelled t) eqn:Hc; simpl; [rewrite Hc|]; reflexivity. Qed.

Lemma cancel_isCancelled (t : CancelToken) : isCancelled (cancel t) = true.
Proof. unfold cancel, isCancelled. destruct (_isCancelled t) eqn:Hc; simpl; auto. Qed.

(** C8.  An upload given a handle that is already cancelled throws
    [UploadCancelledException] and issues no request, for images and for
    files; and [cancel()] on such a handle changes nothing, so the source
    receives no further cancel call.  A handle is in that state after its
    first [cancel()]. *)
Theorem upload_already_cancelled (E : Engine) (config : ChatConfigWithDefaults)
    (http : Request -> HttpOutcome) (browserKey uri : string)
    (endpoint : option string) (t : CancelToken) :
  isCancelled t = true ->
  uploadImage E config http browserKey uri endpoint (Some t)
    = (Throw (UploadCancelledException "Upload was cancelled"), []) /\
  uploadFile E config http browserKey uri endpoint (Some t)
    = (Throw (UploadCancelledException "Upload was cancelled"), []) /\
  cancel t = t /\
  _source (cancel t) = _source t /\
  (forall t0, t = cancel t0 -> _isCancelled t0 = false ->
     _source (cancel t) = (_source t0 ++ ["Upload cancelled"])%list).
Proof.
  intros Hc. unfold uploadFile, uploadImage. rewrite Hc.
  assert (cancel t = t) as Hid.
  { unfold cancel. unfold isCancelled in Hc. rewrite Hc. reflexivity. }
  repeat split; try rewrite Hid; try reflexivity.
  intros t0 -> Hf. unfold cancel. rewrite Hf. reflexivity.
Qed.

Lemma upload_already_cancelled_witness :
  let t := cancel CancelToken_new in
  let http := fun _ : Request => HttpResponse (JObj [("image_url", JStr "u")]) in
  isCancelled t = true /\
  uploadImage sample_engine sample_config http "bk" "file:///a/b.png" None (Some t)
    = (Throw (UploadCancelledException "Upload was cancelled"), []) /\
  cancel t = t /\
  _source (cancel t) = ["Upload cancelled"].
Proof.
  pose proof (upload_already_cancelled sample_engine sample_config
                (fun _ => HttpResponse (JObj [("image_url", JStr "u")]))
                "bk" "file:///a/b.png" None (cancel CancelToken_new) eq_refl)
    as (H1 & _ & H3 & H4 & _).
  intros t http. split; [reflexivity|]. split; [exact H1|]. split; [exact H3|].
  exact (eq_trans H4 eq_refl).
Defined.

(** A live handle does reach the network: one request is issued. *)
Example upload_live_token :
  let http := fun _ : Request => HttpResponse (JObj [("image_url", JStr "u")]) in
  let r := uploadImage sample_engine sample_config http "bk" "file:///a/b.PNG" None
                       (Some CancelToken_new) in
  fst r = Ok (JObj [("image_url", JStr "u")]) /\
  map path (snd r) = ["/upload-image"] /\
  map (fun q => get (get (body q) "image") "type") (snd r) = [JStr "image/png"].
Proof. repeat split. Qed.

(** ** Dispatch to subscribers *)

(** C7, as stated, fails: with a throwing callback registered before a
    recording one, no dispatch of any of the four categories reaches the
    recording callback, which an isolated dispatch would. *)
Lemma notify_not_isolated :
  notifyConnectionChange sample_subscribers true [] = ([1%nat], Throw (PlainError "boom")) /\
  notifyMessage sample_subscribers sample_message [] = ([1%nat], Throw (PlainError "boom")) /\
  notifyTyping sample_subscribers true [] = ([1%nat], Throw (PlainError "boom")) /\
  notifyBrowserKeyUpdate sample_subscribers "k" [] = ([1%nat], Throw (PlainError "boom")) /\
  forEach_isolated (connectionCallbacks sample_subscribers) true [] = [1%nat; 2%nat] /\
  ~ (forall (cbs : list (Callback bool (list nat))) x s,
       fst (forEach cbs x s) = forEach_isolated cbs x s).
Proof.
  repeat split.
  intros H. specialize (H [thrower; recorder] true []). discriminate H.
Qed.

Lemma forEach_app_throw {A S} (pre post : list (Callback A S)) (cb : Callback A S)
    (x : A) (s s1 s2 : S) (e : Thrown) :
  forEach pre x s = (s1, Ok tt) ->
  cb x s1 = (s2, Throw e) ->
  forEach (pre ++ cb :: post) x s = (s2, Throw e).
Proof.
  revert s. induction pre as [|c pre IH]; intros s Hpre Hcb; simpl in *.
  - injection Hpre as ->. rewrite Hcb. reflexivity.
  - destruct (c x s) as [s' [[]|e']]; [|discriminate].
    apply IH; assumption.
Qed.

Lemma forEach_returns_all {A S} (callbacks : list (Callback A S)) (x : A) (s s' : S) :
  forEach callbacks x s = (s', Ok tt) -> s' = forEach_isolated callbacks x s.
Proof.
  revert s. induction callbacks as [|c rest IH]; intros s H; simpl in *.
  - congruence.
  - destruct (c x s) as [s1 [[]|e]] eqn:Hc; [|discriminate].
    simpl. apply IH. exact H.
Qed.

(** C7, amended.  A dispatch of any of the four categories invokes the
    callbacks in insertion order and ends at the first one that throws:
    the callbacks before it have run, those after it are not invoked
    (the result does not depend on them), and the exception goes to the
    caller of the notify function.  A dispatch that returns has invoked
    every callback. *)
Theorem notify_ends_at_first_throw {S : Type} (subs : Subscribers S) (e : Thrown) :
  (forall pre cb post connected s s1 s2,
     connectionCallbacks subs = (pre ++ cb :: post)%list ->
     forEach pre connected s = (s1, Ok tt) -> cb connected s1 = (s2, Throw e) ->
     notifyConnectionChange subs connected s = (s2, Throw e)) /\
  (forall pre cb post message s s1 s2,
     messageCallbacks subs = (pre ++ cb :: post)%list ->
     forEach pre message s = (s1, Ok tt) -> cb message s1 = (s2, Throw e) ->
     notifyMessage subs message s = (s2, Throw e)) /\
  (forall pre cb post isTyping s s1 s2,
     typingCallbacks subs = (pre ++ cb :: post)%list ->
     forEach pre isTyping s = (s1, Ok tt) -> cb isTyping s1 = (s2, Throw e) ->
     notifyTyping subs isTyping s = (s2, Throw e)) /\
  (forall pre cb post browserKey s s1 s2,
     browserKeyCallbacks subs = (pre ++ cb :: post)%list ->
     forEach pre browserKey s = (s1, Ok tt) -> cb browserKey s1 = (s2, Throw e) ->
     notifyBrowserKeyUpdate subs browserKey s = (s2, Throw e)) /\
  (forall connected s s',
     notifyConnectionChange subs connected s = (s', Ok tt) ->
     s' = forEach_isolated (connectionCallbacks subs) connected s) /\
  (forall message s s',
     notifyMessage subs message s = (s', Ok tt) ->
     s' = forEach_isolated (messageCallbacks subs) message s) /\
  (forall isTyping s s',
     notifyTyping subs isTyping s = (s', Ok tt) ->
     s' = forEach_isolated (typingCallbacks subs) isTyping s) /\
  (forall browserKey s s',
     notifyBrowserKeyUpdate subs browserKey s = (s', Ok tt) ->
     s' = forEach_isolated (browserKeyCallbacks subs) browserKey s).
Proof.
  unfold notifyConnectionChange, notifyMessage, notifyTyping, notifyBrowserKeyUpdate.
  repeat split;
    try (intros pre cb post x s s1 s2 -> Hpre Hcb;
         exact (forEach_app_throw pre post cb x s s1 s2 e Hpre Hcb));
    intros x s s' H; exact (forEach_returns_all _ x s s' H).
Qed.

Lemma notify_ends_at_first_throw_witness :
  notifyTyping
    {| connectionCallbacks := []; messageCallbacks := [];
       typingCallbacks := [recorder; thrower; recorder];
       browserKeyCallbacks := [] |} true []
  = ([2%nat; 1%nat], Throw (PlainError "boom")).
Proof.
  destruct (notify_ends_at_first_throw
              {| connectionCallbacks := []; messageCallbacks := [];
                 typingCallbacks := [recorder; thrower; recorder];
                 browserKeyCallbacks := [] |} (PlainError "boom"))
    as (_ & _ & H & _).
  apply (H [recorder] thrower [recorder] true [] [2%nat]); reflexivity.
Defined.

(** ** The session *)

Section SessionFacts.
Context (E : Engine) (config : ChatConfigWithDefaults).

Lemma notified_refl (st : ChatState) : notified st st.
Proof. unfold notified. auto 10. Qed.

Lemma notified_trans (st st' st'' : ChatState) :
  notified st st' -> notified st' st'' -> notified st st''.
Proof.
  unfold notified. intros (A1 & A2 & A3 & A4 & A5 & A6) (B1 & B2 & B3 & B4 & B5 & B6).
  repeat split; try congruence.
  destruct B6 as [B6 | [k B6]]; [|right; eauto].
  destruct A6 as [A6 | [k A6]]; [left; congruence | right; exists k; congruence].
Qed.

Lemma notified_set_isConnected (b : bool) (st : ChatState) :
  notified st (set_isConnected b st).
Proof. unfold notified. simpl. auto 10. Qed.

(** Client callbacks change nothing of the provider; the dispatch ends
    with the first exception one of them throws. *)
Lemma forEach_clients {A} (cs : list (ClientCallback A)) (x : A)
    (s : ChatState * AsyncStorage) :
  exists r, forEach (map client cs) x s = (s, r) /\
            (Forall (fun callback => callback x = Ok tt) cs -> r = Ok tt).
Proof.
  induction cs as [|c cs (r & IH & Hall)]; simpl.
  - exists (Ok tt). split; [reflexivity|auto].
  - unfold client at 1. destruct (c x) as [[]|e] eqn:Hc.
    + exists r. split; [exact IH|]. intros H. inversion H; subst. auto.
    + exists (Throw e). split; [reflexivity|]. intros H. inversion H; subst. congruence.
Qed.

Lemma notifyConnectionChange_subscribers (c : Clients) (b : bool) (st : ChatState)
    (store : AsyncStorage) :
  exists r,
    notifyConnectionChange (subscribers config c) b (st, store)
      = ((set_isConnected b st, store), r) /\
    (Forall (fun callback => callback b = Ok tt) (connectionClients c) -> r = Ok tt).
Proof.
  unfold notifyConnectionChange.
  cbn [subscribers connectionCallbacks providerSubscribers app forEach].
  apply forEach_clients.
Qed.

(** [disconnect()] on the sets of a provider: the state changes as a
    notification changes it, the store not at all; and when every client
    callback of the connection set returns on [false], so does it, with
    the socket and the tracked identity dropped. *)
Lemma disconnect_subscribers (c : Clients) (sv : SocketService) (st : ChatState)
    (store : AsyncStorage) :
  exists sv' st' r,
    disconnect (subscribers config c) sv (st, store) = (sv', (st', store), r) /\
    notified st st' /\
    browserKey st' = browserKey st /\
    emitted sv' = emitted sv /\
    (socket sv = None -> sv' = sv /\ st' = st /\ r = Ok tt) /\
    (Forall (fun callback => callback false = Ok tt) (connectionClients c) ->
     r = Ok tt /\
     sv' = {| socket := None;
              currentBrowserKey := match socket sv with
                                   | Some _ => None
                                   | None => currentBrowserKey sv
                                   end;
              emitted := emitted sv |} /\
     (forall io, socket sv = Some io -> st' = set_isConnected false st)).
Proof.
  unfold disconnect. destruct (socket sv) as [io|] eqn:Hs.
  - destruct (notifyConnectionChange_subscribers c false st store) as (r1 & H1 & Hr1).
    destruct (notifyConnectionChange_subscribers c false (set_isConnected false st) store)
      as (r2 & H2 & Hr2).
    destruct (notifyConnectionChange_subscribers c false st store) as (r3 & H3 & Hr3).
    destruct (connected io).
    + rewrite H1. destruct r1 as [[]|e].
      * rewrite H2. eexists _, _, r2. split; [reflexivity|].
        split; [exact (notified_set_isConnected false st)|]. split; [reflexivity|].
        split; [reflexivity|]. split; [discriminate|].
        intros Hall. split; [auto|]. split; [reflexivity|]. intros io' _. reflexivity.
      * eexists _, _, (Throw e). split; [reflexivity|].
        split; [apply notified_set_isConnected|]. split; [reflexivity|].
        split; [reflexivity|]. split; [discriminate|].
        intros Hall. specialize (Hr1 Hall). discriminate.
    + rewrite H3. eexists _, _, r3. split; [reflexivity|].
      split; [apply notified_set_isConnected|]. split; [reflexivity|].
      split; [reflexivity|]. split; [discriminate|].
      intros Hall. split; [auto|]. split; [reflexivity|]. intros io' _. reflexivity.
  - exists sv, st, (Ok tt). split; [reflexivity|]. split; [apply notified_refl|].
    split; [reflexivity|]. split; [reflexivity|]. split; [auto|].
    intros _. split; [reflexivity|]. split; [|discriminate].
    destruct sv as [so cur em]. simpl in Hs. subst so. reflexivity.
Qed.

(** A socket event on the sets of a provider: the state changes as a
    notification changes it; the identity and the store stay as they are,
    or both take the identity of an identity update. *)
Lemma deliver_subscribers (c : Clients) (ev : SocketEvent) (sv : SocketService)
    (st : ChatState) (store : AsyncStorage) :
  exists sv' st' store' r,
    deliver (subscribers config c) ev sv (st, store) = (sv', (st', store'), r) /\
    notified st st' /\
    ((browserKey st' = browserKey st /\ store' = store) \/
     (exists k, browserKey st' = Some k /\
                store' = saveBrowserKey (Api.appKey config) k store)).
Proof.
  unfold deliver. destruct (socket sv) as [io|].
  2: { exists sv, st, store, (Ok tt). split; [reflexivity|].
       split; [apply notified_refl|]. left. split; reflexivity. }
  destruct ev.
  - destruct (notifyConnectionChange_subscribers c true st store) as (r & -> & _).
    destruct r as [[]|e]; eexists _, _, _, _; (split; [reflexivity|]);
      (split; [apply notified_set_isConnected|]); left; split; reflexivity.
  - destruct (notifyConnectionChange_subscribers c false st store) as (r & -> & _).
    eexists _, _, _, _. split; [reflexivity|].
    split; [apply notified_set_isConnected|]. left; split; reflexivity.
  - destruct (notifyConnectionChange_subscribers c false st store) as (r & -> & _).
    eexists _, _, _, _. split; [reflexivity|].
    split; [apply notified_set_isConnected|]. left; split; reflexivity.
  - destruct (notifyConnectionChange_subscribers c true st store) as (r & -> & _).
    destruct r as [[]|e]; eexists _, _, _, _; (split; [reflexivity|]);
      (split; [apply notified_set_isConnected|]); left; split; reflexivity.
  - unfold handleMessage.
    destruct (parseSocketMessage _) as [message|e].
    + unfold notifyMessage. cbn [subscribers messageCallbacks providerSubscribers app].
      destruct (forEach_clients (messageClients c) message (st, store)) as (r & -> & _).
      exists sv, st, store, (Ok tt). split; [reflexivity|].
      split; [apply notified_refl|]. left; split; reflexivity.
    + exists sv, st, store, (Ok tt). split; [reflexivity|].
      split; [apply notified_refl|]. left; split; reflexivity.
  - unfold notifyTyping. cbn [subscribers typingCallbacks providerSubscribers app].
    match goal with |- context [forEach _ ?x _] =>
      destruct (forEach_clients (typingClients c) x (st, store)) as (r & -> & _) end.
    exists sv, st, store, r. split; [reflexivity|].
    split; [apply notified_refl|]. left; split; reflexivity.
  - destruct (get data "browser_key") as [| |b|n|k|l|o|f];
      try (exists sv, st, store, (Ok tt); split; [reflexivity|];
           split; [apply notified_refl|]; left; split; reflexivity).
    eexists _, _, _, _. split; [reflexivity|]. split.
    + unfold notified; simpl. repeat split; eauto.
    + right. exists k. split; reflexivity.
Qed.

Lemma invariant_notified (w : World) (st' : ChatState) (store : AsyncStorage)
    (sv : SocketService) :
  invariant w -> notified (state w) st' ->
  invariant {| state := st'; storage := store; socketService := sv;
               mounted := mounted w; clients := clients w |}.
Proof.
  intros (Hr & Hi & Hc) (Ei & Er & Ec & _ & _ & Hk). unfold invariant. simpl.
  rewrite Ei, Er, Ec. repeat split; auto.
  intros Hreg. destruct Hk as [-> | [k ->]]; [auto | discriminate].
Qed.

Lemma isRegistered_getBrowserKey (appKey : string) (store : AsyncStorage) :
  Storage.isRegistered appKey store = true -> getBrowserKey appKey store <> None.
Proof.
  unfold Storage.isRegistered. destruct (getBrowserKey appKey store); [discriminate|].
  discriminate.
Qed.

Lemma invariant_initial (persisted : AsyncStorage) :
  invariant (World_initial persisted).
Proof. unfold invariant. simpl. repeat split; intros; congruence. Qed.

Lemma invariant_step (w : World) (op : Op) :
  invariant w -> invariant (step E config w op).
Proof.
  intros Hinv. pose proof Hinv as (Hr & Hi & Hc). destruct op; simpl.
  - (* mount *)
    unfold invariant, mount. simpl. repeat split; auto; try discriminate; try congruence.
  - (* initialize *)
    unfold initialize.
    destruct (isInitialized (state w)) eqn:Hini; [exact Hinv|].
    destruct (mounted w) eqn:Hm; simpl; [|exact Hinv].
    destruct (api_getConfig api) as [rc|msg sc]; simpl.
    + destruct (truthy (isActive rc)); simpl.
      * unfold invariant. simpl. repeat split; auto; try discriminate; try congruence.
        apply isRegistered_getBrowserKey.
      * unfold invariant. simpl. rewrite ?Hini. repeat split; auto; try discriminate; try congruence.
    + unfold invariant. simpl. rewrite ?Hini. repeat split; auto; try discriminate; try congruence.
  - (* register *)
    unfold register.
    destruct (isInitialized (state w)) eqn:Hini; simpl; [|exact Hinv].
    destruct (mounted w) eqn:Hm; simpl; [|exact Hinv].
    destruct (first_missing _ _) as [[key label]|]; simpl; [exact Hinv|].
    destruct (api_registerBrowser _ _ _) as [resp|msg sc]; simpl; [|exact Hinv].
    unfold invariant. simpl. rewrite ?Hini. repeat split; auto; try discriminate; try congruence.
  - (* loadMessages *)
    exact Hinv.
  - (* reset *)
    unfold reset. destruct (mounted w) eqn:Hm.
    + destruct (disconnect_subscribers (clients w) (socketService w) (state w)
                  (clearAll (Api.appKey config) (storage w)))
        as (sv' & st' & r & -> & Hn & _).
      destruct r as [[]|e].
      * pose proof Hn as (Ei & Er & Ec & _).
        unfold invariant. simpl. rewrite ?Ei, ?Ec, ?Hm.
        repeat split; auto; try discriminate; try congruence.
      * rewrite <- Hm. apply invariant_notified; assumption.
    + unfold invariant. simpl. rewrite ?Hm. repeat split; auto; try discriminate; try congruence.
  - (* disconnect *)
    unfold disconnect_. destruct (mounted w) eqn:Hm; [|exact Hinv].
    destruct (disconnect_subscribers (clients w) (socketService w) (state w) (storage w))
      as (sv' & st' & r & -> & Hn & _).
    simpl. rewrite <- Hm. apply invariant_notified; assumption.
  - (* reconnect *)
    unfold reconnect. destruct (mounted w) eqn:Hm; [|exact Hinv].
    destruct (remoteConfig (state w)) eqn:Hrc; [|exact Hinv].
    unfold invariant. simpl. rewrite ?Hrc, ?Hm.
    repeat split; auto; try discriminate; try congruence.
  - (* socket event *)
    unfold on_event. destruct (mounted w) eqn:Hm; [|exact Hinv].
    destruct (deliver_subscribers (clients w) ev (socketService w) (state w) (storage w))
      as (sv' & st' & store' & r & -> & Hn & _).
    simpl. rewrite <- Hm. apply invariant_notified; assumption.
Qed.

Lemma invariant_run (ops : list Op) (w : World) :
  invariant w -> invariant (run E config ops w).
Proof.
  revert w. induction ops as [|op ops IH]; intros w Hinv; simpl; [exact Hinv|].
  apply IH. apply invariant_step. exact Hinv.
Qed.

Lemma invariant_reachable (w : World) :
  reachable E config w -> invariant w.
Proof.
  intros (persisted & ops & ->). apply invariant_run, invariant_initial.
Qed.

(** No operation of a session subscribes a client callback. *)
Lemma step_clients (w : World) (op : Op) :
  clients w = no_clients -> clients (step E config w op) = no_clients.
Proof.
  intros Hc. destruct op; simpl; try exact Hc.
  - reflexivity.
  - unfold initialize. destruct (isInitialized (state w)); [exact Hc|].
    destruct (mounted w); simpl; [|exact Hc].
    destruct (api_getConfig api); simpl; [|exact Hc].
    destruct (truthy (isActive a)); exact Hc.
  - unfold register. destruct (isInitialized (state w)); simpl; [|exact Hc].
    destruct (mounted w); simpl; [|exact Hc].
    destruct (first_missing _ _) as [[key label]|]; [exact Hc|].
    destruct (api_registerBrowser _ _ _); exact Hc.
  - unfold reset.
    destruct (if mounted w then _ else _) as [[sv [st store]] [[]|e]]; exact Hc.
  - unfold disconnect_. destruct (mounted w); [|exact Hc].
    destruct (disconnect _ _ _) as [[sv [st store]] r]. exact Hc.
  - unfold reconnect. destruct (mounted w); [|exact Hc].
    destruct (remoteConfig (state w)); exact Hc.
  - unfold on_event. destruct (mounted w); [|exact Hc].
    destruct (deliver _ _ _ _) as [[sv [st store]] r]. exact Hc.
Qed.

Lemma clients_reachable (w : World) :
  reachable E config w -> clients w = no_clients.
Proof.
  intros (persisted & ops & ->).
  assert (forall ops w0, clients w0 = no_clients ->
            clients (run E config ops w0) = no_clients) as Hrun.
  { clear. induction ops as [|op ops IH]; intros w0 H; simpl; [exact H|].
    apply IH, step_clients, H. }
  apply Hrun. reflexivity.
Qed.

End SessionFacts.

Lemma sample_registered_world_reachable :
  reachable sample_engine sample_config sample_registered_world.
Proof. exists ∅. eexists. reflexivity. Qed.

(** C4.  In every world a session reaches from a fresh provider, through
    any sequence of mount, initialize, register, loadMessages, reset,
    disconnect, reconnect and socket events (the identity update among
    them), [isRegistered] implies that [browserKey] is not null. *)
Theorem registered_implies_identity (E : Engine) (config : ChatConfigWithDefaults)
    (w : World) :
  reachable E config w ->
  isRegistered (state w) = true ->
  browserKey (state w) <> None.
Proof.
  intros Hreach. apply (invariant_reachable E config w Hreach).
Qed.

Lemma registered_implies_identity_witness :
  isRegistered (state sample_registered_world) = true /\
  browserKey (state sample_registered_world) <> None.
Proof.
  split; [vm_compute; reflexivity|].
  apply (registered_implies_identity sample_engine sample_config
           sample_registered_world sample_registered_world_reachable).
  vm_compute. reflexivity.
Defined.

Example sample_registered_identity :
  browserKey (state sample_registered_world) = Some "abc123" /\
  emitted (socketService sample_registered_world) = [("join", JStr "private-chat_abc123")].
Proof. vm_compute. split; reflexivity. Qed.

Example identity_update_keeps_registered :
  let w := fst (on_event sample_config
                  (EvBrowserKeyUpdated (JObj [("browser_key", JStr "rotated")]))
                  sample_registered_world) in
  isRegistered (state w) = true /\ browserKey (state w) = Some "rotated" /\
  getBrowserKey "app" (storage w) = Some "rotated".
Proof. vm_compute. repeat split; reflexivity. Qed.

(** C3.  When the configuration fetched by [initialize()] has a falsy
    active flag, [initialize()] throws the "Chat app is not active"
    exception; the state keeps [isInitialized] false, its [error] is that
    exception, and nothing else of the provider changes. *)
Theorem initialize_inactive_app (config : ChatConfigWithDefaults) (api : RemoteAPI)
    (w : World) (fetched : ChatAppRemoteConfig) :
  isInitialized (state w) = false ->
  mounted w = true ->
  api_getConfig api = ApiOk fetched ->
  truthy (isActive fetched) = false ->
  let w' := fst (initialize config api w) in
  snd (initialize config api w) = Throw InactiveApp /\
  isInitialized (state w') = false /\
  error (state w') = Some InactiveApp /\
  isConnected (state w') = isConnected (state w) /\
  isRegistered (state w') = isRegistered (state w) /\
  remoteConfig (state w') = remoteConfig (state w) /\
  browserKey (state w') = browserKey (state w) /\
  chatId (state w') = chatId (state w) /\
  storage w' = storage w /\
  socketService w' = socketService w /\
  mounted w' = mounted w.
Proof.
  intros Hini Hm Hcfg Hact. unfold initialize.
  rewrite Hini, Hm, Hcfg, Hact. simpl. repeat split.
Qed.

Lemma initialize_inactive_app_witness :
  let w := mount (World_initial ∅) in
  let w' := fst (initialize sample_config (sample_api false) w) in
  snd (initialize sample_config (sample_api false) w) = Throw InactiveApp /\
  isInitialized (state w') = false /\
  error (state w') = Some InactiveApp.
Proof.
  destruct (initialize_inactive_app sample_config (sample_api false)
              (mount (World_initial ∅)) (sample_remote_config false)
              eq_refl eq_refl eq_refl eq_refl) as (H1 & H2 & H3 & _).
  intros w w'. split; [exact H1|]. split; [exact H2|exact H3].
Defined.

(** ** Required fields *)


Lemma has_own_false {A} (props : list (string * A)) (k : string) :
  has_own props k = false <-> ~ In k (map fst props).
Proof.
  unfold has_own. induction props as [|[k' v] rest IH]; simpl.
  - split; [auto|reflexivity].
  - rewrite orb_false_iff, IH. destruct (String.eqb_spec k' k) as [->|Hne].
    + split; [intros [H _]; discriminate H | intros H; destruct H; auto].
    + split; [intros [_ H] [H'|H']; [contradiction|auto] | auto].
Qed.

Lemma lookup_prop_absent (userData : list (string * JValue)) (key : string) :
  ~ In key (map fst userData) -> lookup_prop userData key = JUndefined.
Proof.
  induction userData as [|[k v] rest IH]; intros Habs; simpl; [reflexivity|].
  destruct (String.eqb_spec k key) as [->|Hne].
  - destruct Habs. left. reflexivity.
  - apply IH. intros Hin. apply Habs. right. exact Hin.
Qed.

(** A key that names no inherited member is read off the object itself. *)
Lemma member_own (userData : list (string * JValue)) (key : string) :
  ~ inherited key -> member userData key = lookup_prop userData key.
Proof.
  intros Hno. unfold member. destruct (has_own userData key) eqn:Hown; [reflexivity|].
  rewrite (lookup_prop_absent Object_prototype key Hno).
  symmetry. apply lookup_prop_absent, has_own_false, Hown.
Qed.












Example register_reports_first_missing :
  snd (register sample_engine sample_config (sample_api true) "t" [] None
                sample_initialized_world)
  = Throw (ChatException "Missing required field: Full name (key: name)").
Proof. vm_compute. reflexivity. Qed.

Example register_number_is_present :
  snd (register sample_engine sample_config (sample_api true) "t"
                [("name", JNum 0); ("email", JBool false)] None
                sample_initialized_world)
  = Ok tt.
Proof. vm_compute. reflexivity. Qed.

Example register_empty_array_is_blank :
  snd (register sample_engine sample_config (sample_api true) "t"
                [("name", JArr []); ("email", JStr "a@b")] None
                sample_initialized_world)
  = Throw (MissingRequiredField "name" "Full name").
Proof. vm_compute. reflexivity. Qed.

(** A required field named as a member every object inherits: the read
    [userData[key]] finds the inherited member, and the validation lets a
    submission pass that does not hold the field. *)
Example register_inherited_member_is_read :
  let api := {| api_getConfig :=
                  ApiOk {| appName := JStr "Support"; appDescription := JUndefined;
                           logoUrl := JUndefined; isActive := JBool true;
                           settings := JObj [];
                           requiredFields := [("constructor", "Builder")];
                           Types.socketUrl := JStr ""; socketApiKey := JStr "" |};
                api_registerBrowser := api_registerBrowser (sample_api true);
                api_getMessages := api_getMessages (sample_api true) |} in
  let w := run sample_engine sample_config [OpMount; OpInitialize api]
               (World_initial ∅) in
  member [] "constructor" = JFun "Object" /\
  snd (register sample_engine sample_config api "t" [] None w) = Ok tt.
Proof. vm_compute. split; reflexivity. Qed.

(** ** The resilient load *)

(** C2, as stated, fails: in an initialized session of a registered
    device whose read of the persisted profile is rejected,
    [loadMessages] throws what the read was rejected with. *)
Lemma loadMessages_raises_a_rejected_read :
  let rejected := fun key => if String.eqb key (userDataStorageKey "app")
                             then Some (PlainError "storage unavailable")
                             else None in
  reachable sample_engine sample_config sample_registered_world /\
  isInitialized (state sample_registered_world) = true /\
  loadMessages sample_engine sample_config (sample_api true) rejected None None
               sample_registered_world
  = Throw (PlainError "storage unavailable").
Proof.
  split; [exact sample_registered_world_reachable|].
  vm_compute. split; reflexivity.
Qed.

(** C2, amended.  In an initialized session [loadMessages(page, perPage)]
    returns a page, whatever the arguments and whatever the backend
    answers, provided the reads of the store it awaits are fulfilled.  The
    page is the empty one, with [perPage] as given (20 when omitted), when
    no identity is held in the state or in the store, when no profile is
    persisted (or the persisted one does not parse to a truthy value), and
    when the fetch throws; otherwise it is the fetched page.  A read that
    is rejected is not caught: the read of the identity, made when the
    state holds none, and the read of the profile, made when an identity
    is held. *)
Theorem loadMessages_raises_only_rejected_reads (E : Engine)
    (config : ChatConfigWithDefaults) (api : RemoteAPI) (rejected : Rejections)
    (page perPage : option Z) (w : World) :
  reachable E config w ->
  isInitialized (state w) = true ->
  let empty := {| messages := []; total := JNum 0; currentPage := JNum 1;
                  perPage := JNum (default 20 perPage); lastPage := JNum 1;
                  hasMore := false |} in
  let profile := getUserData E (Api.appKey config) (storage w) in
  let fetch key := api_getMessages api key (default 1 page) (default 20 perPage) in
  let out := loadMessages E config api rejected page perPage w in
  (rejected (browserStorageKey (Api.appKey config)) = None ->
   rejected (userDataStorageKey (Api.appKey config)) = None ->
   exists p,
     out = Ok p /\
     (truthy_key (held_identity config w) = false -> p = empty) /\
     (storage w !! userDataStorageKey (Api.appKey config) = None -> p = empty) /\
     (truthy profile = false -> p = empty) /\
     (forall key message statusCode,
        held_identity config w = Some key ->
        fetch key = ApiFail message statusCode -> p = empty) /\
     (forall key fetched,
        held_identity config w = Some key -> truthy (JStr key) = true ->
        truthy profile = true -> fetch key = ApiOk fetched -> p = fetched)) /\
  (forall e,
     truthy_key (browserKey (state w)) = false ->
     rejected (browserStorageKey (Api.appKey config)) = Some e ->
     out = Throw e) /\
  (forall e,
     truthy_key (browserKey (state w)) = true ->
     rejected (userDataStorageKey (Api.appKey config)) = Some e ->
     out = Throw e) /\
  (forall e,
     rejected (browserStorageKey (Api.appKey config)) = None ->
     truthy_key (held_identity config w) = true ->
     rejected (userDataStorageKey (Api.appKey config)) = Some e ->
     out = Throw e).
Proof.
  intros Hreach Hi empty profile fetch out.
  destruct (invariant_reachable E config w Hreach) as (_ & Hmount & _).
  assert (storage w !! userDataStorageKey (Api.appKey config) = None ->
          truthy profile = false) as Hblob.
  { intros Hnone. subst profile. unfold getUserData. rewrite Hnone. reflexivity. }
  assert (out =
          (identity <- (if truthy_key (browserKey (state w))
                        then Ok (browserKey (state w))
                        else match rejected (browserStorageKey (Api.appKey config)) with
                             | Some e => Throw e
                             | None => Ok (getBrowserKey (Api.appKey config) (storage w))
                             end) ;;
           match identity with
           | Some key =>
               if negb (truthy (JStr key)) then Ok empty
               else
                 match rejected (userDataStorageKey (Api.appKey config)) with
                 | Some e => Throw e
                 | None =>
                     if negb (truthy profile) then Ok empty
                     else match fetch key with
                          | ApiOk p => Ok p
                          | ApiFail _ _ => Ok empty
                          end
                 end
           | None => Ok empty
           end)) as Hout.
  { subst out. unfold loadMessages. rewrite Hi, (Hmount Hi). cbn [negb].
    unfold await_getBrowserKey, await_getUserData, getItem, getBrowserKey.
    destruct (truthy_key (browserKey (state w))); cbn [negb].
    - cbn [bind]. destruct (browserKey (state w)) as [key|]; [|reflexivity].
      destruct (truthy (JStr key)); [|reflexivity]. cbn [negb].
      destruct (rejected (userDataStorageKey (Api.appKey config))); reflexivity.
    - destruct (rejected (browserStorageKey (Api.appKey config))); [reflexivity|].
      cbn [bind]. destruct (storage w !! browserStorageKey (Api.appKey config))
        as [key|]; [|reflexivity].
      destruct (truthy (JStr key)); [|reflexivity]. cbn [negb].
      destruct (rejected (userDataStorageKey (Api.appKey config))); reflexivity. }
  rewrite Hout. clear Hout out. unfold held_identity.
  split; [|split; [|split]].
  - intros Hb Hu. rewrite Hb, Hu.
    assert ((if truthy_key (browserKey (state w))
             then Ok (browserKey (state w))
             else Ok (getBrowserKey (Api.appKey config) (storage w)))
            = Ok (if truthy_key (browserKey (state w)) then browserKey (state w)
                  else getBrowserKey (Api.appKey config) (storage w))) as ->
      by (destruct (truthy_key (browserKey (state w))); reflexivity).
    cbn [bind].
    destruct (if truthy_key (browserKey (state w)) then browserKey (state w)
              else getBrowserKey (Api.appKey config) (storage w)) as [key|] eqn:Hid.
    2: { exists empty. repeat split; auto; intros; discriminate. }
    simpl. destruct (String.eqb key "") eqn:Hkey; simpl.
    { exists empty. repeat split; auto.
      intros k f [= <-] Ht. simpl in Ht. rewrite Hkey in Ht. discriminate. }
    destruct (truthy profile) eqn:Hp; simpl.
    2: { exists empty. repeat split; auto. intros; discriminate. }
    destruct (fetch key) as [q|m s] eqn:Hf.
    + exists q. split; [reflexivity|]. repeat split.
      * discriminate.
      * intros Hnone. apply Hblob in Hnone. discriminate.
      * discriminate.
      * intros k m s [= <-] Hfail. congruence.
      * intros k f [= <-] _ _ Hok. congruence.
    + exists empty. repeat split; auto.
      intros k f [= <-] _ _ Hok. congruence.
  - intros e Hk He. rewrite Hk, He. reflexivity.
  - intros e Hk He. rewrite Hk. cbn [bind].
    destruct (browserKey (state w)) as [key|]; [|discriminate].
    simpl in Hk. change (truthy (JStr key) = true) in Hk. rewrite Hk, He. reflexivity.
  - intros e Hb Ht He. rewrite Hb.
    destruct (truthy_key (browserKey (state w))); cbn [bind].
    + destruct (browserKey (state w)) as [key|]; [|discriminate].
      change (truthy (JStr key) = true) in Ht. rewrite Ht, He. reflexivity.
    + destruct (getBrowserKey (Api.appKey config) (storage w)) as [key|]; [|discriminate].
      change (truthy (JStr key) = true) in Ht. rewrite Ht, He. reflexivity.
Qed.

Lemma loadMessages_raises_only_rejected_reads_witness :
  loadMessages sample_engine sample_config (sample_api true) none_rejected
               (Some 3) (Some 50) sample_registered_world
  = Ok {| messages := []; total := JNum 0; currentPage := JNum 1;
          perPage := JNum 50; lastPage := JNum 1; hasMore := false |}.
Proof.
  destruct (loadMessages_raises_only_rejected_reads sample_engine sample_config
              (sample_api true) none_rejected (Some 3) (Some 50)
              sample_registered_world sample_registered_world_reachable eq_refl)
    as (H & _).
  destruct (H eq_refl eq_refl) as (p & Hp & _ & _ & _ & Hfail & _).
  rewrite Hp. f_equal.
  apply (Hfail "abc123" "Network Error" 0); reflexivity.
Defined.

Example loadMessages_unregistered :
  loadMessages sample_engine sample_config (sample_api true) none_rejected None None
               sample_initialized_world
  = Ok (createEmptyPaginatedMessages None).
Proof. vm_compute. reflexivity. Qed.

Example loadMessages_uninitialized :
  loadMessages sample_engine sample_config (sample_api true) none_rejected None None
               (mount (World_initial ∅))
  = Throw NotInitialized.
Proof. vm_compute. reflexivity. Qed.

(** ** Reset *)


Lemma clearAll_cleared (appKey : string) (st : AsyncStorage) :
  getBrowserKey appKey (clearAll appKey st) = None /\
  clearAll appKey st !! userDataStorageKey appKey = None.
Proof.
  unfold getBrowserKey, clearAll, clearUserData, clearBrowserKey.
  rewrite !lookup_delete. split; repeat case_decide; congruence.
Qed.




Example reset_clears_store :
  storage (fst (reset sample_config sample_registered_world)) = ∅.
Proof. vm_compute. reflexivity. Qed.

(** ** The request methods and the pages they return *)

(** A page [getMessages] returns was parsed from the response body; any
    failure, of the request or of the parsing, is a [ChatApiException]. *)
Lemma getMessages_constructed (E : Engine) (config : ChatConfigWithDefaults)
    (http : Request -> HttpOutcome) (browserKey : string) (page perPage : option Z)
    (p : PaginatedMessages) :
  fst (getMessages E config http browserKey page perPage) = ApiOk p ->
  constructed E p.
Proof.
  unfold getMessages. simpl.
  destruct (plain (http _)) as [data|e]; [|discriminate].
  destruct (parsePaginatedMessages E data) as [q|e] eqn:Hq; [|discriminate].
  intros [= <-]. exact (constructed_parsed E data q Hq).
Qed.

Example getMessages_malformed_body :
  fst (getMessages sample_engine sample_config
         (fun _ => HttpResponse (JObj [("messages", JStr "none")])) "abc123" None None)
  = ApiFail "TypeError: messagesData.map is not a function" 0.
Proof. reflexivity. Qed.

Example getMessages_server_error :
  fst (getMessages sample_engine sample_config
         (fun _ => HttpError (AxiosError (Some (503, JStr "")) "Request failed"))
         "abc123" None None)
  = ApiFail "Request failed with status 503" 503.
Proof. reflexivity. Qed.

(** A message subscriber that throws: [handleMessage] catches what the
    dispatch throws, and the subscribers after it were still not reached. *)
Example handleMessage_catches_the_dispatch :
  handleMessage sample_subscribers (JObj [("message", JObj [("id", JNum 1)])]) []
  = [1%nat].
Proof. reflexivity. Qed.

(* ===================================================================== *)
(** * Further properties *)
(* ===================================================================== *)

(** ** The store *)

Lemma storage_keys_differ (a b : string) :
  browserStorageKey a <> userDataStorageKey b.
Proof. unfold browserStorageKey, userDataStorageKey. simpl. discriminate. Qed.

Lemma prefix_injective (p a b : string) : p +:+ a = p +:+ b -> a = b.
Proof. induction p as [|c p IH]; simpl; [auto|]. intros [= H]. auto. Qed.

Lemma browserStorageKey_injective (a b : string) :
  browserStorageKey a = browserStorageKey b -> a = b.
Proof. apply prefix_injective. Qed.

Lemma userDataStorageKey_injective (a b : string) :
  userDataStorageKey a = userDataStorageKey b -> a = b.
Proof. apply prefix_injective. Qed.

Lemma getUserData_lookup (E : Engine) (appKey : string) (st st' : AsyncStorage) :
  st' !! userDataStorageKey appKey = st !! userDataStorageKey appKey ->
  getUserData E appKey st' = getUserData E appKey st.
Proof. unfold getUserData. intros ->. reflexivity. Qed.

(** X1.  The identity record: what is saved is what is read, the device counts
    as registered exactly when the saved identity is not the empty
    string, clearing it removes it, and neither saving nor clearing the
    profile record touches it. *)
Theorem storage_identity_round_trip (E : Engine) (appKey k : string) (v : JValue)
    (st : AsyncStorage) :
  getBrowserKey appKey (saveBrowserKey appKey k st) = Some k /\
  Storage.isRegistered appKey (saveBrowserKey appKey k st) = negb (String.eqb k "") /\
  getBrowserKey appKey (clearBrowserKey appKey (saveBrowserKey appKey k st)) = None /\
  Storage.isRegistered appKey (clearBrowserKey appKey st) = false /\
  getBrowserKey appKey (saveUserData E appKey v st) = getBrowserKey appKey st /\
  getBrowserKey appKey (clearUserData appKey st) = getBrowserKey appKey st /\
  getUserData E appKey (saveBrowserKey appKey k st) = getUserData E appKey st /\
  getUserData E appKey (clearBrowserKey appKey st) = getUserData E appKey st.
Proof.
  pose proof (storage_keys_differ appKey appKey) as Hne.
  unfold Storage.isRegistered, getBrowserKey, saveBrowserKey, clearBrowserKey,
    saveUserData, clearUserData.
  repeat split.
  - apply lookup_insert_eq.
  - rewrite lookup_insert_eq. destruct k; reflexivity.
  - apply lookup_delete_eq.
  - rewrite lookup_delete_eq. reflexivity.
  - apply lookup_insert_ne. congruence.
  - apply lookup_delete_ne. congruence.
  - apply getUserData_lookup. apply lookup_insert_ne. exact Hne.
  - apply getUserData_lookup. apply lookup_delete_ne. exact Hne.
Qed.

(** X2.  Two application keys never share a record: whatever is saved or
    cleared under one key, the identity and the profile read under another
    key are what they were. *)
Theorem storage_scoped_by_appKey (E : Engine) (a b k : string) (v : JValue)
    (st : AsyncStorage) :
  a <> b ->
  getBrowserKey b (saveBrowserKey a k st) = getBrowserKey b st /\
  getBrowserKey b (saveUserData E a v st) = getBrowserKey b st /\
  getBrowserKey b (clearAll a st) = getBrowserKey b st /\
  Storage.isRegistered b (clearAll a st) = Storage.isRegistered b st /\
  getUserData E b (saveBrowserKey a k st) = getUserData E b st /\
  getUserData E b (saveUserData E a v st) = getUserData E b st /\
  getUserData E b (clearAll a st) = getUserData E b st.
Proof.
  intros Hab.
  assert (browserStorageKey a <> browserStorageKey b) as Hbb
    by (intros H; apply Hab, browserStorageKey_injective, H).
  assert (userDataStorageKey a <> userDataStorageKey b) as Huu
    by (intros H; apply Hab, userDataStorageKey_injective, H).
  pose proof (storage_keys_differ a b) as Hbu.
  pose proof (storage_keys_differ b a) as Hub.
  assert (getBrowserKey b (clearAll a st) = getBrowserKey b st) as Hclear.
  { unfold getBrowserKey, clearAll, clearUserData, clearBrowserKey.
    rewrite !lookup_delete_ne by congruence. reflexivity. }
  repeat split.
  - unfold getBrowserKey, saveBrowserKey. apply lookup_insert_ne. exact Hbb.
  - unfold getBrowserKey, saveUserData. apply lookup_insert_ne. congruence.
  - exact Hclear.
  - unfold Storage.isRegistered. rewrite Hclear. reflexivity.
  - apply getUserData_lookup. unfold saveBrowserKey. apply lookup_insert_ne. exact Hbu.
  - apply getUserData_lookup. unfold saveUserData. apply lookup_insert_ne. exact Huu.
  - apply getUserData_lookup. unfold clearAll, clearUserData, clearBrowserKey.
    rewrite !lookup_delete_ne by congruence. reflexivity.
Qed.

Lemma storage_scoped_by_appKey_witness :
  getBrowserKey "shop" (saveBrowserKey "support" "abc123" ∅) = None /\
  getBrowserKey "shop" (clearAll "support" (saveBrowserKey "shop" "k" ∅)) = Some "k".
Proof.
  destruct (storage_scoped_by_appKey sample_engine "support" "shop" "abc123" JNull ∅)
    as (H1 & _); [discriminate|].
  destruct (storage_scoped_by_appKey sample_engine "support" "shop" "abc123" JNull
              (saveBrowserKey "shop" "k" ∅)) as (_ & _ & H3 & _); [discriminate|].
  split.
  - exact (eq_trans H1 eq_refl).
  - exact (eq_trans H3 (lookup_insert_eq _ _ _)).
Defined.

(** X3.  [clearAll] removes the two records of its application key and keeps
    every other entry of the store. *)
Theorem clearAll_removes_only_own_records (appKey : string) (st : AsyncStorage) :
  clearAll appKey st !! browserStorageKey appKey = None /\
  clearAll appKey st !! userDataStorageKey appKey = None /\
  (forall key, key <> browserStorageKey appKey -> key <> userDataStorageKey appKey ->
     clearAll appKey st !! key = st !! key).
Proof.
  unfold clearAll, clearUserData, clearBrowserKey. repeat split.
  - rewrite lookup_delete_ne by (apply not_eq_sym, storage_keys_differ).
    apply lookup_delete_eq.
  - apply lookup_delete_eq.
  - intros key Hb Hu. rewrite !lookup_delete_ne by congruence. reflexivity.
Qed.

Lemma clearAll_removes_only_own_records_witness :
  clearAll "app" (<["other" := "x"]> (saveBrowserKey "app" "k" ∅)) !! "other" = Some "x".
Proof.
  destruct (clearAll_removes_only_own_records "app"
              (<["other" := "x"]> (saveBrowserKey "app" "k" ∅))) as (_ & _ & H).
  rewrite (H "other"); [reflexivity | discriminate | discriminate].
Defined.

(** X4.  The profile record: with a JSON codec that reads back what it wrote,
    the profile saved is the profile read; a stored text that does not
    parse, or is empty, reads as [null]. *)
Theorem storage_profile_round_trip (E : Engine) (appKey : string) (v : JValue)
    (st : AsyncStorage) :
  (JSON_parse E (JSON_stringify E v) = Some v -> JSON_stringify E v <> "" ->
     getUserData E appKey (saveUserData E appKey v st) = v) /\
  (forall text, st !! userDataStorageKey appKey = Some text ->
     JSON_parse E text = None -> getUserData E appKey st = JNull) /\
  (st !! userDataStorageKey appKey = Some "" -> getUserData E appKey st = JNull) /\
  getUserData E appKey (clearUserData appKey st) = JNull.
Proof.
  unfold getUserData, saveUserData, clearUserData. repeat split.
  - intros Hrt Hne. rewrite lookup_insert_eq. simpl.
    destruct (String.eqb_spec (JSON_stringify E v) ""); [contradiction|].
    simpl. rewrite Hrt. reflexivity.
  - intros text -> Hp. rewrite Hp. destruct (truthy (JStr text)); reflexivity.
  - intros ->. reflexivity.
  - rewrite lookup_delete_eq. reflexivity.
Qed.

Lemma storage_profile_round_trip_witness :
  getUserData sample_engine "app" (saveUserData sample_engine "app" (JStr "Ada") ∅)
  = JStr "Ada".
Proof.
  destruct (storage_profile_round_trip sample_engine "app" (JStr "Ada") ∅) as (H & _).
  apply H; [reflexivity | discriminate].
Defined.

(** ** Image contents *)

Lemma startsWith_spec (s p : string) :
  Text.startsWith s p = true <-> exists post, s = p +:+ post.
Proof.
  revert s. induction p as [|c p IH]; intros s; simpl.
  - split; [eauto|reflexivity].
  - destruct s as [|d s].
    + split; [discriminate|]. intros [post H]. discriminate.
    + rewrite andb_true_iff, Ascii.eqb_eq, IH. split.
      * intros [-> [post ->]]. eauto.
      * intros [post [= -> ->]]. eauto.
Qed.

Lemma includes_spec (s sub : string) :
  Text.includes s sub = true <-> occurs_in sub s.
Proof.
  unfold occurs_in. induction s as [|d s IH].
  - simpl. rewrite orb_false_r, startsWith_spec. split.
    + intros [post H]. exists "", post. exact H.
    + intros (pre & post & H). destruct pre; [eauto|discriminate].
  - cbn [Text.includes]. rewrite orb_true_iff, startsWith_spec, IH. split.
    + intros [[post H] | (pre & post & H)].
      * exists "", post. exact H.
      * exists (String d pre), post. simpl. rewrite H. reflexivity.
    + intros (pre & post & H). destruct pre as [|c pre].
      * left. eauto.
      * right. simpl in H. injection H as _ H. eauto.
Qed.

(** X5.  [isImageContent] answers yes exactly when the lower-cased content
    holds one of the six image extensions somewhere and, besides, holds
    ["/storage/"] somewhere or begins with ["http"]. *)
Theorem isImageContent_spec (content : string) :
  MessageView.isImageContent content = true <->
  (exists ext, In ext MessageView.imageExtensions /\
               occurs_in ext (toLowerCase content)) /\
  (occurs_in "/storage/" (toLowerCase content) \/
   exists rest, toLowerCase content = "http" +:+ rest).
Proof.
  unfold MessageView.isImageContent.
  rewrite andb_true_iff, orb_true_iff, existsb_exists, includes_spec, startsWith_spec.
  split.
  - intros [(ext & Hin & Hinc) H]. split; [|exact H].
    exists ext. split; [exact Hin|]. apply includes_spec. exact Hinc.
  - intros [(ext & Hin & Hocc) H]. split; [|exact H].
    exists ext. split; [exact Hin|]. apply includes_spec. exact Hocc.
Qed.

Example isImageContent_upload :
  MessageView.isImageContent "https://cdn.example.com/a/Photo.JPG" = true /\
  MessageView.isImageContent "/storage/chat/7.webp" = true /\
  MessageView.isImageContent "see photo.png" = false /\
  MessageView.isImageContent "http://example.com/page" = false.
Proof. repeat split. Qed.

(** X6.  For a message read from the wire, [isMessageImage] is true when the
    metadata carry [is_image: true], whatever the content; otherwise it
    is [isImageContent] of the content, the empty string when the wire
    object has none; and it throws when the flag is not set and the
    content is not a string. *)
Theorem isMessageImage_of_wire (json : JValue) (m : ChatMessage) :
  parseChatMessage json = Ok m ->
  let flag := MessageView.is_true
                (MessageView.optional_get (get json "metadata") "is_image") in
  (flag = true -> MessageView.isMessageImage m = Ok true) /\
  (forall s, flag = false -> get json "content" = JStr s ->
     MessageView.isMessageImage m = Ok (MessageView.isImageContent s)) /\
  (flag = false -> nullish (get json "content") = true ->
     MessageView.isMessageImage m = Ok false) /\
  (flag = false -> nullish (get json "content") = false ->
     (forall s, get json "content" <> JStr s) ->
     exists e, MessageView.isMessageImage m = Throw e).
Proof.
  unfold parseChatMessage. destruct (nullish json); [discriminate|].
  destruct (parseMessageType _); simpl; [|discriminate].
  intros [= <-]. unfold MessageView.isMessageImage. simpl. repeat split.
  - intros ->. reflexivity.
  - intros s -> ->. reflexivity.
  - intros -> Hn. unfold coalesce. rewrite Hn. reflexivity.
  - intros -> Hn Hns. unfold coalesce. rewrite Hn.
    destruct (get json "content"); try (eexists; reflexivity).
    destruct (Hns s). reflexivity.
Qed.

Lemma isMessageImage_of_wire_witness :
  exists m,
    parseChatMessage (JObj [("id", JNum 3); ("content", JStr "photo");
                            ("metadata", JObj [("is_image", JBool true)])]) = Ok m /\
    MessageView.isMessageImage m = Ok true.
Proof.
  eexists. split; [reflexivity|].
  apply (isMessageImage_of_wire
           (JObj [("id", JNum 3); ("content", JStr "photo");
                  ("metadata", JObj [("is_image", JBool true)])]));
    reflexivity.
Defined.

(** ** The request methods *)




(** X8.  A 2xx response whose body is [null] or [undefined] is a failure
    too: every method issues its one request and throws a
    [ChatApiException] with status 0, whose message is the text of the
    TypeError the engine raises for the first property read off the body,
    with the message the engine gives it. *)
Theorem request_empty_body_fails (E : Engine) (config : ChatConfigWithDefaults)
    (http : Request -> HttpOutcome) (body : JValue) :
  (forall req, http req = HttpResponse body) ->
  nullish body = true ->
  every_request_method E config http
    (fun A r => exists k, throws_api (Thrown_toString E (null_read body k)) 0 A r).
Proof.
  intros Hhttp Hnull. unfold every_request_method, throws_api.
  unfold getConfig, getMessages, Requests.registerBrowser, Requests.updateBrowser,
    Requests.updateUserData, Requests.sendMessage, Requests.editMessage,
    Requests.request.
  repeat split; intros; simpl; rewrite Hhttp; simpl;
    unfold parseChatAppRemoteConfig, parsePaginatedMessages,
      Responses.parseRegistrationResponse, Responses.parseUpdateUserDataResponse,
      Responses.parseSendMessageResponse, Responses.parseEditMessageResponse;
    rewrite ?Hnull; eexists; split; reflexivity.
Qed.

Lemma request_empty_body_fails_witness :
  fst (Requests.editMessage sample_engine sample_config
         (fun _ => HttpResponse JNull) "abc123" 7 "fixed")
  = ApiFail "TypeError: Cannot read properties of null (reading 'message')" 0 /\
  exists k,
    throws_api (Thrown_toString sample_engine (null_read JNull k)) 0 _
      (Requests.editMessage sample_engine sample_config
         (fun _ => HttpResponse JNull) "abc123" 7 "fixed").
Proof.
  split; [reflexivity|].
  destruct (request_empty_body_fails sample_engine sample_config
              (fun _ => HttpResponse JNull) JNull (fun _ => eq_refl) eq_refl)
    as (_ & _ & _ & _ & _ & _ & H).
  exact (H "abc123" 7 "fixed").
Defined.

(** X9.  [sendMessage] issues one POST to [/send-message] whose body holds the
    application key, the identity, the text and the endpoint; it holds a
    [metadata] member, the object given, exactly when that object has at
    least one entry. *)
Theorem sendMessage_metadata (E : Engine) (config : ChatConfigWithDefaults)
    (http : Request -> HttpOutcome) (browserKey message : string)
    (endpoint : option string) (metadata : option (list (string * JValue))) :
  exists props,
    map (fun q => (method q, path q, body q))
        (snd (Requests.sendMessage E config http browserKey message endpoint metadata))
    = [("POST", "/send-message", JObj props)] /\
    lookup_prop props "chat_app_key" = JStr (appKey config) /\
    lookup_prop props "browser_key" = JStr browserKey /\
    lookup_prop props "message" = JStr message /\
    (forall e es, metadata = Some (e :: es) ->
       map fst props = ["chat_app_key"; "browser_key"; "message"; "endpoint"; "metadata"] /\
       lookup_prop props "metadata" = JObj (e :: es)) /\
    (metadata = None \/ metadata = Some [] ->
       map fst props = ["chat_app_key"; "browser_key"; "message"; "endpoint"]).
Proof.
  unfold Requests.sendMessage, Requests.request. simpl.
  destruct metadata as [[|e es]|]; simpl; eexists; (split; [reflexivity|]);
    (split; [reflexivity|]); (split; [reflexivity|]); (split; [reflexivity|]); split.
  - intros e0 es0 H. discriminate H.
  - intros _. reflexivity.
  - intros e0 es0 [= <- <-]. split; reflexivity.
  - intros [H | H]; discriminate H.
  - intros e0 es0 H. discriminate H.
  - intros _. reflexivity.
Qed.

Example sendMessage_empty_metadata :
  map (fun q => get (body q) "metadata")
      (snd (Requests.sendMessage sample_engine sample_config
              (fun _ => HttpResponse (JObj [])) "abc123" "hi" None (Some [])))
  = [JUndefined].
Proof. reflexivity. Qed.

Lemma sendMessage_metadata_witness :
  map (fun q => get (body q) "metadata")
      (snd (Requests.sendMessage sample_engine sample_config
              (fun _ => HttpResponse (JObj [])) "abc123" "hi" None
              (Some [("page", JStr "pricing")])))
  = [JObj [("page", JStr "pricing")]].
Proof.
  destruct (sendMessage_metadata sample_engine sample_config
              (fun _ => HttpResponse (JObj [])) "abc123" "hi" None
              (Some [("page", JStr "pricing")]))
    as (props & Hreq & _ & _ & _ & Hsome & _).
  destruct (Hsome ("page", JStr "pricing") [] eq_refl) as [_ Hmeta].
  destruct (snd (Requests.sendMessage _ _ _ _ _ _ _)) as [|q [|q' l]];
    try discriminate Hreq.
  injection Hreq as _ _ Hbody. simpl. unfold get. rewrite Hbody, Hmeta. reflexivity.
Defined.

(** ** Uploads: file name and MIME type *)

Lemma after_last_absent (sep : ascii) (s : string) :
  Text.includes s (String sep "") = false -> after_last sep s = None.
Proof.
  induction s as [|c s IH]; [reflexivity|].
  cbn [Text.includes Text.startsWith]. rewrite andb_true_r.
  intros H. apply orb_false_iff in H as [Hc Hs].
  simpl. rewrite (IH Hs), Hc. reflexivity.
Qed.

Lemma last_segment_app (sep : ascii) (a b : string) :
  Text.includes b (String sep "") = false ->
  last_segment sep (a +:+ String sep b) = b.
Proof.
  intros Hb. unfold last_segment.
  assert (after_last sep (a +:+ String sep b) = Some b) as ->; [|reflexivity].
  induction a as [|c a IH]; simpl.
  - rewrite (after_last_absent sep b Hb), Ascii.eqb_refl. reflexivity.
  - rewrite IH. reflexivity.
Qed.

Lemma last_segment_whole (sep : ascii) (s : string) :
  Text.includes s (String sep "") = false -> last_segment sep s = s.
Proof. intros H. unfold last_segment. rewrite (after_last_absent sep s H). reflexivity. Qed.

Lemma includes_char_app (sep : ascii) (a b : string) :
  Text.includes (a +:+ b) (String sep "") = false ->
  Text.includes a (String sep "") = false /\ Text.includes b (String sep "") = false.
Proof.
  induction a as [|c a IH]; simpl.
  - intros H. split; [reflexivity|exact H].
  - rewrite !andb_true_r. intros H. apply orb_false_iff in H as [Hc Hrest].
    destruct (IH Hrest) as [Ha Hb]. rewrite Hc, Ha. auto.
Qed.

(** An own member is read as it is. *)
Lemma member_held (props : list (string * JValue)) (key : string) (v : JValue) :
  List.NoDup (map fst props) -> In (key, v) props -> member props key = v.
Proof.
  intros Hnd Hin. unfold member.
  assert (has_own props key = true) as ->.
  { apply existsb_exists. exists (key, v). split; [exact Hin|apply String.eqb_refl]. }
  induction props as [|[k' v'] rest IH]; [destruct Hin|].
  simpl in *. inversion Hnd as [|? ? Hno Hnd']; subst.
  destruct Hin as [[= -> ->]|Hin]; [rewrite String.eqb_refl; reflexivity|].
  destruct (String.eqb_spec k' key) as [->|_]; [|apply IH; assumption].
  destruct Hno. apply (in_map fst) in Hin. exact Hin.
Qed.

Lemma lower_char_no_capital (c : ascii) : is_capital (lower_char c) = false.
Proof. destruct c as [[] [] [] [] [] [] [] []]; reflexivity. Qed.

Lemma toLowerCase_no_capital (s : string) : no_capital (toLowerCase s) = true.
Proof.
  induction s as [|c s IH]; simpl; [reflexivity|].
  rewrite lower_char_no_capital, IH. reflexivity.
Qed.

(** Of the members objects inherit, two have a name without capitals. *)
Lemma inherited_lower_case (s : string) :
  inherited (toLowerCase s) ->
  toLowerCase s = "constructor" \/ toLowerCase s = "__proto__".
Proof.
  intros H. pose proof (toLowerCase_no_capital s) as Hc.
  unfold inherited in H. simpl in H.
  repeat (destruct H as [H|H];
          [first [left; symmetry; exact H | right; symmetry; exact H
                 | rewrite <- H in Hc; discriminate Hc]|]).
  destruct H.
Qed.

Lemma mimeType_of_table (extension : string) :
  (forall mime, In (extension, mime) mimeTypes -> mimeType_of extension = mime) /\
  (~ In extension (map fst mimeTypes) -> ~ inherited extension ->
     mimeType_of extension = JStr "image/jpeg") /\
  (forall v, In (extension, v) Object_prototype -> mimeType_of extension = v).
Proof.
  split; [|split].
  - intros mime H. simpl in H.
    repeat (destruct H as [H|H]; [injection H as <- <-; reflexivity|]).
    destruct H.
  - intros Hno Hni. unfold mimeType_of.
    rewrite (member_own mimeTypes extension Hni).
    rewrite (lookup_prop_absent mimeTypes extension Hno). reflexivity.
  - intros v H. simpl in H.
    repeat (destruct H as [H|H]; [injection H as <- <-; reflexivity|]).
    destruct H.
Qed.

(** X10.  An upload of [dir/name.ext] with a live handle (or none) issues
    one POST to [/upload-image] whose file part carries the URI, the last
    path segment [name.ext] as file name, and as its type what the table of
    MIME types gives the lower-cased extension; for an extension the table
    does not hold that is ["image/jpeg"], unless the extension is
    [constructor] or [__proto__]: the read goes through the prototype of
    the table, and the type is then the built-in [Object], or its
    prototype, not a string.  A file name without a dot is its own
    extension. *)
Theorem uploadImage_file_part (E : Engine) (config : ChatConfigWithDefaults)
    (http : Request -> HttpOutcome) (browserKey dir file : string)
    (endpoint : option string) (token : option CancelToken) :
  Text.includes file "/" = false ->
  match token with Some t => isCancelled t | None => false end = false ->
  let uri := dir +:+ "/" +:+ file in
  exists req,
    snd (uploadImage E config http browserKey uri endpoint token) = [req] /\
    method req = "POST" /\ path req = "/upload-image" /\
    cancelToken req = token /\
    get (image_part req) "uri" = JStr uri /\
    get (image_part req) "name" = JStr file /\
    (forall name ext, file = name +:+ "." +:+ ext -> Text.includes ext "." = false ->
       (forall mime, In (toLowerCase ext, mime) mimeTypes ->
          get (image_part req) "type" = mime) /\
       (~ In (toLowerCase ext) (map fst mimeTypes) ->
        toLowerCase ext <> "constructor" -> toLowerCase ext <> "__proto__" ->
          get (image_part req) "type" = JStr "image/jpeg") /\
       (toLowerCase ext = "constructor" ->
          get (image_part req) "type" = JFun "Object") /\
       (toLowerCase ext = "__proto__" ->
          get (image_part req) "type" = JObj [])) /\
    (Text.includes file "." = false ->
       get (image_part req) "type" = mimeType_of (toLowerCase file)).
Proof.
  intros Hfile Hlive uri. subst uri.
  change (dir +:+ "/" +:+ file) with (dir +:+ String "/" file).
  unfold uploadImage. rewrite Hlive.
  rewrite (last_segment_app "/" dir file Hfile).
  eexists. split; [reflexivity|].
  unfold image_part. cbn [method path cancelToken body].
  split; [reflexivity|]. split; [reflexivity|]. split; [reflexivity|].
  split; [|split; [|split]].
  - destruct endpoint as [e|]; [destruct (truthy (JStr e))|]; reflexivity.
  - destruct endpoint as [e|]; [destruct (truthy (JStr e))|]; reflexivity.
  - intros name ext -> Hext.
    change (name +:+ "." +:+ ext) with (name +:+ String "." ext).
    rewrite (last_segment_app "." name ext Hext).
    destruct (mimeType_of_table (toLowerCase ext)) as (Htable & Hdefault & Hproto).
    assert (forall v, get (JObj ([("chat_app_key", JStr (appKey config));
                                  ("browser_key", JStr browserKey)]
                                 ++ match endpoint with
                                    | Some e => if truthy (JStr e)
                                                then [("endpoint", JStr e)] else []
                                    | None => []
                                    end
                                 ++ [("image", JObj [("uri", JStr (dir +:+ String "/"
                                                        (name +:+ String "." ext)));
                                                     ("name", JStr (name +:+ String "." ext));
                                                     ("type", v)])])) "image"
                      = JObj [("uri", JStr (dir +:+ String "/" (name +:+ String "." ext)));
                              ("name", JStr (name +:+ String "." ext));
                              ("type", v)]) as Himage.
    { intros v. destruct endpoint as [e|]; [destruct (truthy (JStr e))|]; reflexivity. }
    rewrite Himage. cbn [get lookup_prop String.eqb Ascii.eqb Bool.eqb].
    split; [|split; [|split]].
    + intros mime Hin. apply Htable, Hin.
    + intros Hnot Hc Hp. apply Hdefault; [exact Hnot|].
      intros Hin. destruct (inherited_lower_case ext Hin); contradiction.
    + intros Hc. apply Hproto. rewrite Hc. simpl. tauto.
    + intros Hp. apply Hproto. rewrite Hp. simpl. tauto.
  - intros Hdot. rewrite (last_segment_whole "." file Hdot).
    destruct endpoint as [e|]; [destruct (truthy (JStr e))|]; reflexivity.
Qed.

Lemma uploadImage_file_part_witness :
  map (fun q => (get (image_part q) "name", get (image_part q) "type"))
      (snd (uploadImage sample_engine sample_config
              (fun _ => HttpResponse (JObj [("image_url", JStr "u")]))
              "abc123" ("file:///var/mobile/tmp" +:+ "/" +:+ "IMG_0042.PNG") None None))
  = [(JStr "IMG_0042.PNG", JStr "image/png")].
Proof.
  destruct (uploadImage_file_part sample_engine sample_config
              (fun _ => HttpResponse (JObj [("image_url", JStr "u")]))
              "abc123" "file:///var/mobile/tmp" "IMG_0042.PNG" None None
              eq_refl eq_refl)
    as (req & Hreq & _ & _ & _ & _ & Hn & Hext & _).
  destruct (Hext "IMG_0042" "PNG" eq_refl eq_refl) as [Hmime _].
  rewrite Hreq. simpl map. rewrite Hn.
  rewrite (Hmime (JStr "image/png")); [reflexivity|].
  simpl. tauto.
Defined.

Example uploadImage_inherited_extension :
  map (fun q => get (image_part q) "type")
      (snd (uploadImage sample_engine sample_config
              (fun _ => HttpResponse (JObj [("image_url", JStr "u")]))
              "abc123" "file:///docs/photo.Constructor" None None))
  = [JFun "Object"].
Proof. reflexivity. Qed.

Example uploadImage_unknown_extension :
  map (fun q => get (image_part q) "type")
      (snd (uploadImage sample_engine sample_config
              (fun _ => HttpResponse (JObj [("image_url", JStr "u")]))
              "abc123" "file:///docs/report.pdf" None None))
  = [JStr "image/jpeg"].
Proof. reflexivity. Qed.

(** ** The socket service *)

(** X11.  While the socket is not connected no method emits anything: joining,
    leaving, typing and channel subscriptions are dropped.
    [updateBrowserKey] still records the identity, and when the socket
    then connects the [connect] listener joins the room of that identity. *)
Theorem socket_silent_until_connected {S : Type} (subs : Subscribers S)
    (sv : SocketService) (k channel : string) (b : bool) :
  socket_connected sv = false ->
  joinChatRoom k sv = sv /\
  leaveChatRoom k sv = sv /\
  Socket.sendTyping k b sv = sv /\
  Subscriptions.subscribe channel sv = sv /\
  Subscriptions.unsubscribe channel sv = sv /\
  emitted (updateBrowserKey k sv) = emitted sv /\
  socket (updateBrowserKey k sv) = socket sv /\
  currentBrowserKey (updateBrowserKey k sv) = Some k /\
  (forall io s s', socket sv = Some io -> truthy (JStr k) = true ->
     notifyConnectionChange subs true s = (s', Ok tt) ->
     exists sv',
       deliver subs EvConnect (updateBrowserKey k sv) s = (sv', s', Ok tt) /\
       socket_connected sv' = true /\
       currentBrowserKey sv' = Some k /\
       emitted sv' = (emitted sv ++ [("join", JStr ("private-chat_" +:+ k))])%list).
Proof.
  intros Hc.
  assert (updateBrowserKey k sv =
          {| socket := socket sv; currentBrowserKey := Some k;
             emitted := emitted sv |}) as Hupd.
  { unfold updateBrowserKey. case_bool_decide as Hsame.
    - destruct sv as [so cur em]. simpl in *. subst cur. reflexivity.
    - destruct (currentBrowserKey sv) as [old|]; rewrite ?Hc, ?andb_false_r;
        unfold socket_connected; simpl; fold (socket_connected sv); rewrite Hc;
        reflexivity. }
  unfold joinChatRoom, leaveChatRoom, Socket.sendTyping, Subscriptions.subscribe,
    Subscriptions.unsubscribe. rewrite Hc, Hupd. simpl.
  repeat split.
  intros io s s' Hio Ht Hn. change (truthy (JStr k) = true) in Ht. unfold deliver.
  cbn [socket currentBrowserKey emitted]. rewrite Hio, Hn.
  unfold rejoin, set_connected. cbn [socket currentBrowserKey emitted].
  rewrite Ht. unfold joinChatRoom, socket_connected.
  cbn [socket currentBrowserKey emitted connected negb].
  eexists. split; [reflexivity|]. repeat split.
Qed.

Lemma socket_silent_until_connected_witness :
  let sv := connect (JStr "wss://s") (JStr "key") None SocketService_new in
  let subs := {| connectionCallbacks := [recorder]; messageCallbacks := [];
                 typingCallbacks := []; browserKeyCallbacks := [] |} in
  exists sv',
    deliver subs EvConnect (updateBrowserKey "abc123" sv) [] = (sv', [2%nat], Ok tt) /\
    emitted sv' = [("join", JStr "private-chat_abc123")].
Proof.
  intros sv subs.
  destruct (socket_silent_until_connected subs sv "abc123" "room" true eq_refl)
    as (_ & _ & _ & _ & _ & _ & _ & _ & Hjoin).
  destruct (Hjoin {| connected := false; url := JStr "wss://s";
                     auth := JObj [("key", JStr "key")] |} [] [2%nat]
                  eq_refl eq_refl eq_refl) as (sv' & Hd & _ & _ & He).
  exists sv'. split; [exact Hd|exact He].
Defined.

(** X12.  On a connected socket [updateBrowserKey] with the identity already
    tracked does nothing; with another one it leaves the room of the old
    identity, when there is one, and then joins the room of the new. *)
Theorem updateBrowserKey_moves_rooms (sv : SocketService) (new : string) :
  socket_connected sv = true ->
  (currentBrowserKey sv = Some new -> updateBrowserKey new sv = sv) /\
  (forall old, currentBrowserKey sv = Some old -> old <> new -> old <> "" ->
     updateBrowserKey new sv =
     {| socket := socket sv; currentBrowserKey := Some new;
        emitted := (emitted sv ++ [("leave", JStr ("private-chat_" +:+ old));
                                   ("join", JStr ("private-chat_" +:+ new))])%list |}) /\
  (currentBrowserKey sv = None \/ currentBrowserKey sv = Some "" -> new <> "" ->
     updateBrowserKey new sv =
     {| socket := socket sv; currentBrowserKey := Some new;
        emitted := (emitted sv ++ [("join", JStr ("private-chat_" +:+ new))])%list |}).
Proof.
  intros Hc. unfold updateBrowserKey. repeat split.
  - intros ->. rewrite bool_decide_eq_true_2 by reflexivity. reflexivity.
  - intros old Hold Hne Hnonempty. rewrite Hold.
    rewrite bool_decide_eq_false_2 by congruence.
    assert (truthy (JStr old) = true) as ->.
    { simpl. destruct (String.eqb_spec old ""); [contradiction|reflexivity]. }
    rewrite Hc. simpl. unfold leaveChatRoom, joinChatRoom. rewrite Hc. simpl.
    unfold socket_connected in *. simpl. rewrite Hc. simpl.
    rewrite <- app_assoc. reflexivity.
  - intros [Hcur | Hcur] Hnew; rewrite Hcur.
    + rewrite bool_decide_eq_false_2 by discriminate.
      unfold joinChatRoom, socket_connected in *. simpl. rewrite Hc. reflexivity.
    + rewrite bool_decide_eq_false_2 by congruence. simpl.
      unfold joinChatRoom, socket_connected in *. simpl. rewrite Hc. reflexivity.
Qed.

Lemma updateBrowserKey_moves_rooms_witness :
  let sv := {| socket := Some {| connected := true; url := JStr "wss://s";
                                 auth := JObj [] |};
               currentBrowserKey := Some "old"; emitted := [] |} in
  emitted (updateBrowserKey "new" sv)
  = [("leave", JStr "private-chat_old"); ("join", JStr "private-chat_new")].
Proof.
  intros sv.
  destruct (updateBrowserKey_moves_rooms sv "new" eq_refl) as (_ & H & _).
  rewrite (H "old" eq_refl); [reflexivity | discriminate | discriminate].
Defined.

(** X13.  A [dispose()] that returns leaves no socket, no tracked identity
    of a socket it dropped, and four empty sets; a second one then changes
    nothing and notifies no one, and no event reaches a subscriber any
    more.  Dropping a connected socket, it has told the connection
    subscribers [false] twice, once from the ['disconnect'] event of the
    socket it closes and once itself; dropping a socket that was not
    connected, once; without a socket it notifies no one.  A [dispose()]
    that throws, because a connection subscriber does, keeps the four
    sets, and keeps the socket when it was the event that reached the
    subscriber. *)
Theorem dispose_twice {S : Type} (sv sv' : SocketService)
    (reg reg' : Subscriptions.Registry S) (s s' : S) (r : Result unit) :
  Subscriptions.dispose sv reg s = (sv', reg', s', r) ->
  let told := notifyConnectionChange (Subscriptions.subscribers reg) false in
  (r = Ok tt ->
   reg' = Subscriptions.Registry_empty /\
   socket sv' = None /\
   Subscriptions.dispose sv' reg' s' = (sv', reg', s', Ok tt) /\
   (forall ev, deliver (Subscriptions.subscribers reg') ev sv' s' = (sv', s', Ok tt)) /\
   (forall io, socket sv = Some io -> connected io = true ->
      currentBrowserKey sv' = None /\
      exists s1, told s = (s1, Ok tt) /\ told s1 = (s', Ok tt)) /\
   (forall io, socket sv = Some io -> connected io = false ->
      currentBrowserKey sv' = None /\ told s = (s', Ok tt)) /\
   (socket sv = None -> sv' = sv /\ s' = s)) /\
  (forall e, r = Throw e ->
   reg' = reg /\
   exists io, socket sv = Some io /\
     ((connected io = true /\ told s = (s', Throw e) /\
       sv' = set_connected false sv) \/
      (exists s1, (if connected io then told s = (s1, Ok tt) else s1 = s) /\
                  told s1 = (s', Throw e) /\ socket sv' = None))).
Proof.
  unfold Subscriptions.dispose, disconnect. intros H. cbv zeta.
  destruct (socket sv) as [io|] eqn:Hs.
  - destruct (connected io) eqn:Hc.
    + destruct (notifyConnectionChange _ false s) as [s1 [[]|e1]] eqn:H1.
      * destruct (notifyConnectionChange _ false s1) as [s2 [[]|e2]] eqn:H2;
          injection H as <- <- <- <-.
        -- split; [|discriminate]. intros _.
           split; [reflexivity|]. split; [reflexivity|]. split; [reflexivity|].
           split; [reflexivity|]. split; [|split; [|discriminate]].
           ++ intros io' _ _. split; [reflexivity|].
              exists s1. split; [reflexivity|exact H2].
           ++ intros io' Hio Hf. injection Hio as <-. congruence.
        -- split; [discriminate|]. intros e He. injection He as <-.
           split; [reflexivity|]. exists io. split; [reflexivity|]. right.
           exists s1. rewrite Hc. split; [reflexivity|]. split; [exact H2|reflexivity].
      * injection H as <- <- <- <-. split; [discriminate|].
        intros e He. injection He as <-. split; [reflexivity|].
        exists io. split; [reflexivity|]. left.
        split; [exact Hc|]. split; reflexivity.
    + destruct (notifyConnectionChange _ false s) as [s1 [[]|e1]] eqn:H1;
        injection H as <- <- <- <-.
      * split; [|discriminate]. intros _.
        split; [reflexivity|]. split; [reflexivity|]. split; [reflexivity|].
        split; [reflexivity|]. split; [|split; [|discriminate]].
        -- intros io' Hio Ht. injection Hio as <-. congruence.
        -- intros io' _ _. split; reflexivity.
      * split; [discriminate|]. intros e He. injection He as <-.
        split; [reflexivity|]. exists io. split; [reflexivity|]. right.
        exists s. rewrite Hc. split; [reflexivity|]. split; [exact H1|reflexivity].
  - injection H as <- <- <- <-. split; [|discriminate]. intros _. rewrite Hs.
    split; [reflexivity|]. split; [reflexivity|]. split; [reflexivity|].
    split; [|split; [discriminate|split; [discriminate|auto]]].
    intros ev. unfold deliver. rewrite Hs. reflexivity.
Qed.

Lemma dispose_twice_witness :
  let sv := {| socket := Some {| connected := true; url := JStr "wss://s";
                                 auth := JObj [("key", JStr "key")] |};
               currentBrowserKey := Some "abc123"; emitted := [] |} in
  let reg := Subscriptions.onConnectionChange
               {| Subscriptions.ref := 1; Subscriptions.call := recorder |}
               Subscriptions.Registry_empty in
  Subscriptions.dispose sv reg []
    = (SocketService_new, Subscriptions.Registry_empty, [2%nat; 2%nat], Ok tt) /\
  exists s1,
    notifyConnectionChange (Subscriptions.subscribers reg) false [] = (s1, Ok tt) /\
    notifyConnectionChange (Subscriptions.subscribers reg) false s1
      = ([2%nat; 2%nat], Ok tt).
Proof.
  intros sv reg. split; [reflexivity|].
  destruct (dispose_twice sv SocketService_new reg Subscriptions.Registry_empty
              [] [2%nat; 2%nat] (Ok tt) eq_refl) as [H _].
  destruct (H eq_refl) as (_ & _ & _ & _ & Htwice & _).
  destruct (Htwice _ eq_refl eq_refl) as [_ Htold]. exact Htold.
Defined.

(** ** Subscriptions *)

Lemma Set_member {A S} (r : nat) (set : list (Subscriptions.Handler A S)) :
  existsb (fun h' => Nat.eqb (Subscriptions.ref h') r) set = true <-> In r (refs set).
Proof.
  unfold refs. rewrite existsb_exists, in_map_iff. split.
  - intros (h' & Hin & Heq). apply Nat.eqb_eq in Heq. eauto.
  - intros (h' & Heq & Hin). exists h'. split; [exact Hin|]. apply Nat.eqb_eq, Heq.
Qed.

Lemma Set_add_member {A S} (h : Subscriptions.Handler A S)
    (set : list (Subscriptions.Handler A S)) :
  In (Subscriptions.ref h) (refs set) -> Subscriptions.Set_add h set = set.
Proof.
  intros Hin. unfold Subscriptions.Set_add.
  rewrite (proj2 (Set_member _ set) Hin). reflexivity.
Qed.

Lemma Set_add_new {A S} (h : Subscriptions.Handler A S)
    (set : list (Subscriptions.Handler A S)) :
  ~ In (Subscriptions.ref h) (refs set) ->
  Subscriptions.Set_add h set = (set ++ [h])%list.
Proof.
  intros Hno. unfold Subscriptions.Set_add.
  destruct (existsb _ set) eqn:Hex; [|reflexivity].
  destruct Hno. apply Set_member, Hex.
Qed.

Lemma Set_add_twice {A S} (h : Subscriptions.Handler A S)
    (set : list (Subscriptions.Handler A S)) :
  Subscriptions.Set_add h (Subscriptions.Set_add h set) = Subscriptions.Set_add h set.
Proof.
  apply Set_add_member. unfold Subscriptions.Set_add.
  destruct (existsb _ set) eqn:Hex; [apply Set_member, Hex|].
  unfold refs. rewrite map_app. apply in_or_app. right. left. reflexivity.
Qed.

Lemma Set_delete_fresh {A S} (r : nat) (set : list (Subscriptions.Handler A S)) :
  ~ In r (refs set) -> Subscriptions.Set_delete r set = set.
Proof.
  unfold Subscriptions.Set_delete, refs. induction set as [|h set IH]; [reflexivity|].
  simpl. intros H. destruct (Nat.eqb_spec (Subscriptions.ref h) r) as [Heq|_].
  - destruct H. left. exact Heq.
  - simpl. rewrite IH; [reflexivity|]. intros Hin. apply H. right. exact Hin.
Qed.

Lemma Set_delete_member {A S} (h : Subscriptions.Handler A S)
    (pre post : list (Subscriptions.Handler A S)) :
  ~ In (Subscriptions.ref h) (refs pre) -> ~ In (Subscriptions.ref h) (refs post) ->
  Subscriptions.Set_delete (Subscriptions.ref h) (pre ++ h :: post) = (pre ++ post)%list.
Proof.
  intros Hpre Hpost. unfold Subscriptions.Set_delete. rewrite List.filter_app.
  cbn [List.filter]. rewrite Nat.eqb_refl. cbn [negb].
  fold (Subscriptions.Set_delete (Subscriptions.ref h) pre).
  fold (Subscriptions.Set_delete (Subscriptions.ref h) post).
  rewrite (Set_delete_fresh _ pre Hpre), (Set_delete_fresh _ post Hpost). reflexivity.
Qed.

Lemma Set_delete_twice {A S} (r : nat) (set : list (Subscriptions.Handler A S)) :
  Subscriptions.Set_delete r (Subscriptions.Set_delete r set)
  = Subscriptions.Set_delete r set.
Proof.
  apply Set_delete_fresh. unfold refs, Subscriptions.Set_delete.
  intros Hin. apply in_map_iff in Hin. destruct Hin as (h & Heq & Hin).
  apply filter_In in Hin. destruct Hin as [_ Hne].
  apply negb_true_iff, Nat.eqb_neq in Hne. contradiction.
Qed.

Lemma Set_delete_add {A S} (h : Subscriptions.Handler A S)
    (set : list (Subscriptions.Handler A S)) :
  ~ In (Subscriptions.ref h) (refs set) ->
  Subscriptions.Set_delete (Subscriptions.ref h) (Subscriptions.Set_add h set) = set.
Proof.
  intros Hno. rewrite (Set_add_new h set Hno).
  rewrite (Set_delete_member h set [] Hno); [apply app_nil_r|].
  intros [].
Qed.

Ltac set_semantics :=
  intros h [cs ms ts bs];
  cbn -[Subscriptions.Set_add Subscriptions.Set_delete];
  unfold Subscriptions.onConnectionChange, Subscriptions.offConnectionChange,
    Subscriptions.onMessage, Subscriptions.offMessage,
    Subscriptions.onTyping, Subscriptions.offTyping,
    Subscriptions.onBrowserKeyUpdate, Subscriptions.offBrowserKeyUpdate,
    Subscriptions.subscribers;
  cbn -[Subscriptions.Set_add Subscriptions.Set_delete];
  repeat split; intros; subst;
  rewrite ?Set_add_twice, ?Set_delete_twice;
  try reflexivity;
  try (rewrite Set_add_member by assumption; reflexivity);
  try (rewrite Set_delete_add by assumption; reflexivity);
  try (rewrite Set_add_new by assumption; rewrite ?map_app; reflexivity);
  try (rewrite Set_delete_fresh by assumption; reflexivity);
  try (apply Set_delete_member; assumption).

(** X14.  Each of the four subscription methods treats its set as a set
    of callbacks told apart by reference, which a dispatch calls in the
    order of subscription.  A callback the set holds is not subscribed again and
    keeps its place; a new one goes last and is called last; the closure a
    subscription returns removes that callback and leaves every other one
    where it was, in order; called for a callback the set does not hold,
    or a second time, it changes nothing; and neither subscribing nor
    unsubscribing touches the three other sets. *)
Theorem subscriber_sets (S : Type) :
  subscribes_as_a_set (@connection_category S) /\
  subscribes_as_a_set (@message_category S) /\
  subscribes_as_a_set (@typing_category S) /\
  subscribes_as_a_set (@browserKey_category S).
Proof.
  unfold subscribes_as_a_set.
  split; [|split; [|split]]; set_semantics.
Qed.

Lemma subscriber_sets_witness :
  let first := {| Subscriptions.ref := 1; Subscriptions.call := @recorder bool |} in
  let second := {| Subscriptions.ref := 2; Subscriptions.call := @thrower bool |} in
  let third := {| Subscriptions.ref := 3; Subscriptions.call := @recorder bool |} in
  let reg := Subscriptions.onTyping third
               (Subscriptions.onTyping second
                  (Subscriptions.onTyping first Subscriptions.Registry_empty)) in
  Subscriptions.typingSet (Subscriptions.offTyping 2 reg) = [first; third] /\
  Subscriptions.onTyping first reg = reg.
Proof.
  intros first second third reg.
  destruct (subscriber_sets (list nat)) as (_ & _ & Htyping & _).
  split.
  - destruct (Htyping second reg) as (_ & _ & _ & _ & Hoff & _).
    apply (Hoff [first] [third]).
    + reflexivity.
    + simpl. intros [H|[]]. discriminate H.
    + simpl. intros [H|[]]. discriminate H.
  - destruct (Htyping first reg) as (_ & Hon & _).
    apply Hon. left. reflexivity.
Defined.

(** ** The session over time *)

Section SessionOverTime.
Context (E : Engine) (config : ChatConfigWithDefaults).

Lemma step_keeps_initialized (w : World) (op : Op) :
  isInitialized (state w) = true ->
  isInitialized (state (step E config w op)) = true /\
  remoteConfig (state (step E config w op)) = remoteConfig (state w).
Proof.
  intros Hi. destruct op; simpl.
  - split; [exact Hi|reflexivity].
  - unfold initialize. rewrite Hi. split; [exact Hi|reflexivity].
  - unfold register. rewrite Hi. simpl.
    destruct (mounted w); simpl; [|split; [exact Hi|reflexivity]].
    destruct (first_missing _ _) as [[key label]|]; simpl;
      [split; [exact Hi|reflexivity]|].
    destruct (api_registerBrowser _ _ _); simpl; split; auto.
  - split; [exact Hi|reflexivity].
  - unfold reset. destruct (mounted w).
    + destruct (disconnect_subscribers config (clients w) (socketService w) (state w)
                  (clearAll (Api.appKey config) (storage w)))
        as (sv' & st' & r & -> & (Ei & _ & Ec & _) & _).
      destruct r as [[]|e]; simpl; rewrite Ei, Ec; split; [exact Hi|reflexivity|exact Hi|reflexivity].
    + simpl. split; [exact Hi|reflexivity].
  - unfold disconnect_. destruct (mounted w); [|split; [exact Hi|reflexivity]].
    destruct (disconnect_subscribers config (clients w) (socketService w) (state w)
                (storage w))
      as (sv' & st' & r & -> & (Ei & _ & Ec & _) & _).
    simpl. rewrite Ei, Ec. split; [exact Hi|reflexivity].
  - unfold reconnect. destruct (mounted w); [|split; [exact Hi|reflexivity]].
    destruct (remoteConfig (state w)) eqn:Hrc; simpl; rewrite ?Hrc; split; auto.
  - unfold on_event. destruct (mounted w); [|split; [exact Hi|reflexivity]].
    destruct (deliver_subscribers config (clients w) ev (socketService w) (state w)
                (storage w))
      as (sv' & st' & store' & r & -> & (Ei & _ & Ec & _) & _).
    simpl. rewrite Ei, Ec. split; [exact Hi|reflexivity].
Qed.

Lemma identity_in_step_step (w : World) (op : Op) :
  invariant w -> clients w = no_clients -> identity_in_step config w ->
  identity_in_step config (step E config w op).
Proof.
  intros (_ & Hmount & _) Hclients Hid. unfold identity_in_step in *.
  destruct op; simpl.
  - exact Hid.
  - unfold initialize. destruct (isInitialized (state w)) eqn:Hi;
      [simpl; rewrite ?Hi; exact Hid|].
    destruct (mounted w); simpl; [|rewrite ?Hi; discriminate].
    destruct (api_getConfig api) as [rc|m s]; simpl; [|rewrite ?Hi; discriminate].
    destruct (truthy (isActive rc)); simpl; [intros _; reflexivity|rewrite ?Hi; discriminate].
  - unfold register. destruct (isInitialized (state w)) eqn:Hi; simpl;
      [|rewrite ?Hi; discriminate].
    destruct (mounted w); simpl; [|rewrite ?Hi; exact Hid].
    destruct (first_missing _ _) as [[key label]|]; simpl; [rewrite ?Hi; exact Hid|].
    destruct (api_registerBrowser _ _ _) as [resp|m s]; simpl; [|rewrite ?Hi; exact Hid].
    intros _. unfold getBrowserKey, saveUserData, saveBrowserKey.
    rewrite lookup_insert_ne by (apply not_eq_sym, storage_keys_differ).
    rewrite lookup_insert_eq. reflexivity.
  - exact Hid.
  - unfold reset. destruct (mounted w) eqn:Hm.
    + destruct (disconnect_subscribers config (clients w) (socketService w) (state w)
                  (clearAll (Api.appKey config) (storage w)))
        as (sv' & st' & r & -> & _ & _ & _ & _ & Hquiet).
      destruct Hquiet as (-> & _); [rewrite Hclients; constructor|].
      simpl. intros _.
      destruct (clearAll_cleared (Api.appKey config) (storage w)) as (Hb & _).
      rewrite Hb. reflexivity.
    + simpl. intros Hi. specialize (Hmount Hi). discriminate.
  - unfold disconnect_. destruct (mounted w); [|exact Hid].
    destruct (disconnect_subscribers config (clients w) (socketService w) (state w)
                (storage w))
      as (sv' & st' & r & -> & (Ei & _) & Hk & _).
    simpl. rewrite Ei, Hk. exact Hid.
  - unfold reconnect. destruct (mounted w); [|exact Hid].
    destruct (remoteConfig (state w)); exact Hid.
  - unfold on_event. destruct (mounted w); [|exact Hid].
    destruct (deliver_subscribers config (clients w) ev (socketService w) (state w)
                (storage w))
      as (sv' & st' & store' & r & -> & (Ei & _) & Hcase).
    simpl. rewrite Ei. intros Hi.
    destruct Hcase as [[Hk ->] | (k & Hk & ->)].
    + rewrite Hk. apply Hid. exact Hi.
    + rewrite Hk. unfold getBrowserKey, saveBrowserKey.
      rewrite lookup_insert_eq. reflexivity.
Qed.

End SessionOverTime.

(** X15.  Once a session is initialized it stays so, and it keeps the remote
    configuration it fetched: no sequence of mount, initialize, register,
    loadMessages, reset, disconnect, reconnect and socket events reverts
    [isInitialized] or replaces [remoteConfig]. *)
Theorem initialized_for_good (E : Engine) (config : ChatConfigWithDefaults)
    (ops : list Op) (w : World) :
  isInitialized (state w) = true ->
  isInitialized (state (run E config ops w)) = true /\
  remoteConfig (state (run E config ops w)) = remoteConfig (state w).
Proof.
  revert w. induction ops as [|op ops IH]; intros w Hi; simpl.
  - split; [exact Hi|reflexivity].
  - destruct (step_keeps_initialized E config w op Hi) as [Hi' Hc'].
    destruct (IH _ Hi') as [Hi'' Hc'']. split; [exact Hi''|congruence].
Qed.

(** X16.  In every reachable world of an initialized session the identity the
    state holds is the identity the store holds: both absent, or the same
    string. *)
Theorem identity_in_memory_is_persisted (E : Engine)
    (config : ChatConfigWithDefaults) (w : World) :
  reachable E config w ->
  isInitialized (state w) = true ->
  browserKey (state w) = getBrowserKey (Api.appKey config) (storage w).
Proof.
  intros (persisted & ops & ->).
  assert (forall ops w0, invariant w0 -> clients w0 = no_clients ->
            identity_in_step config w0 ->
            identity_in_step config (run E config ops w0)) as Hrun.
  { clear. induction ops as [|op ops IH]; intros w0 Hinv Hc Hid; simpl; [exact Hid|].
    apply IH; [apply invariant_step, Hinv | apply step_clients, Hc
              | apply identity_in_step_step; assumption]. }
  apply Hrun; [apply invariant_initial|reflexivity|].
  unfold identity_in_step. simpl. discriminate.
Qed.

Lemma initialized_for_good_witness :
  isInitialized (state (run sample_engine sample_config
                          [OpReset; OpDisconnect; OpInitialize (sample_api false)]
                          sample_registered_world)) = true.
Proof.
  apply (initialized_for_good sample_engine sample_config
           [OpReset; OpDisconnect; OpInitialize (sample_api false)]
           sample_registered_world).
  vm_compute. reflexivity.
Defined.

Lemma identity_in_memory_is_persisted_witness :
  browserKey (state sample_registered_world)
  = getBrowserKey "app" (storage sample_registered_world).
Proof.
  apply (identity_in_memory_is_persisted sample_engine sample_config
           sample_registered_world sample_registered_world_reachable).
  vm_compute. reflexivity.
Defined.

(** ** Start, restart and failure of a session *)

Lemma initialize_active (config : ChatConfigWithDefaults) (api : RemoteAPI)
    (w : World) (rc : ChatAppRemoteConfig) :
  isInitialized (state w) = false ->
  mounted w = true ->
  api_getConfig api = ApiOk rc ->
  truthy (isActive rc) = true ->
  initialize config api w =
  ({| state := {| isInitialized := true;
                  isConnected := isConnected (state w);
                  isRegistered := Storage.isRegistered (Api.appKey config) (storage w);
                  remoteConfig := Some rc;
                  browserKey := getBrowserKey (Api.appKey config) (storage w);
                  chatId := chatId (state w);
                  error := None |};
      storage := storage w;
      socketService := connect (socketUrl_for config rc) (socketApiKey rc)
                               (getBrowserKey (Api.appKey config) (storage w))
                               (socketService w);
      mounted := true; clients := clients w |}, Ok tt).
Proof.
  intros Hi Hm Hc Ha. unfold initialize. rewrite Hi, Hm, Hc, Ha. reflexivity.
Qed.

(** X17.  A device that holds a persisted, non-empty identity: after the
    provider has mounted and initialized against an active configuration
    and the socket has connected, the session is initialized, registered
    and connected under that identity, the socket was opened at the
    override URL when the configuration gives one and at the remote one
    otherwise, with the access key and the identity as its auth payload,
    and the one event emitted is the join of the identity's room. *)
Theorem restored_identity_joins_its_room (E : Engine) (config : ChatConfigWithDefaults)
    (api : RemoteAPI) (persisted : AsyncStorage) (k : string)
    (rc : ChatAppRemoteConfig) :
  getBrowserKey (Api.appKey config) persisted = Some k ->
  k <> "" ->
  api_getConfig api = ApiOk rc ->
  truthy (isActive rc) = true ->
  let w := run E config [OpMount; OpInitialize api; OpEvent EvConnect]
               (World_initial persisted) in
  isInitialized (state w) = true /\
  isRegistered (state w) = true /\
  browserKey (state w) = Some k /\
  isConnected (state w) = true /\
  socket (socketService w) =
    Some {| connected := true;
            url := match Api.socketUrl config with
                   | Some u => JStr u
                   | None => Types.socketUrl rc
                   end;
            auth := JObj [("key", socketApiKey rc); ("browser_key", JStr k)] |} /\
  currentBrowserKey (socketService w) = Some k /\
  emitted (socketService w) = [("join", JStr ("private-chat_" +:+ k))] /\
  storage w = persisted.
Proof.
  intros Hk Hne Hc Ha w. subst w. unfold run. cbn [fold_left step].
  rewrite (initialize_active config api (mount (World_initial persisted)) rc
             eq_refl eq_refl Hc Ha).
  cbn [fst mount World_initial state storage socketService mounted].
  assert (truthy (JStr k) = true) as Ht.
  { simpl. destruct (String.eqb_spec k ""); [contradiction|reflexivity]. }
  unfold on_event. cbn [mounted socketService state storage].
  rewrite Hk. unfold Storage.isRegistered. rewrite Hk.
  unfold connect, socket_connected, truthy_key. cbn [SocketService_new socket].
  rewrite Ht. unfold deliver. cbn [socket]. unfold notifyConnectionChange.
  cbn [providerSubscribers connectionCallbacks forEach].
  unfold rejoin, set_connected. cbn [socket currentBrowserKey emitted connected].
  rewrite Ht. unfold joinChatRoom, socket_connected.
  cbn [socket currentBrowserKey emitted connected negb fst state storage
       socketService isInitialized isRegistered browserKey isConnected url auth].
  unfold socketUrl_for.
  repeat split. destruct k; [contradiction|reflexivity].
Qed.

Lemma restored_identity_joins_its_room_witness :
  let w := run sample_engine sample_config
               [OpMount; OpInitialize (sample_api true); OpEvent EvConnect]
               (World_initial (saveBrowserKey "app" "abc123" ∅)) in
  browserKey (state w) = Some "abc123" /\
  emitted (socketService w) = [("join", JStr "private-chat_abc123")].
Proof.
  destruct (restored_identity_joins_its_room sample_engine sample_config
              (sample_api true) (saveBrowserKey "app" "abc123" ∅) "abc123"
              (sample_remote_config true))
    as (_ & _ & H3 & _ & _ & _ & H7 & _);
    [vm_compute; reflexivity | discriminate | reflexivity | reflexivity |].
  intros w. split; [exact H3|exact H7].
Defined.

Lemma updateBrowserKey_current (k : string) (sv : SocketService) :
  currentBrowserKey (updateBrowserKey k sv) = Some k.
Proof.
  unfold updateBrowserKey. case_bool_decide as Hsame; [congruence|].
  match goal with |- context [if socket_connected ?x then _ else _] =>
    destruct (socket_connected x) eqn:Hc end.
  - unfold joinChatRoom. rewrite Hc. reflexivity.
  - reflexivity.
Qed.

(** X18.  A registration that returns has stored the identity the backend
    issued where the state, the store and the socket service each keep
    it; and a provider started afterwards on the same device restores that
    identity, and counts the device as registered exactly when the
    identity is not the empty string. *)
Theorem registration_survives_restart (E : Engine) (config : ChatConfigWithDefaults)
    (api api' : RemoteAPI) (now : string) (P : list (string * JValue))
    (endpoint : option string) (w w' : World) (rc : ChatAppRemoteConfig) :
  register E config api now P endpoint w = (w', Ok tt) ->
  api_getConfig api' = ApiOk rc ->
  truthy (isActive rc) = true ->
  exists k,
    isRegistered (state w') = true /\
    browserKey (state w') = Some k /\
    getBrowserKey (Api.appKey config) (storage w') = Some k /\
    currentBrowserKey (socketService w') = Some k /\
    let again := restart E config api' (storage w') in
    isInitialized (state again) = true /\
    browserKey (state again) = Some k /\
    isRegistered (state again) = negb (String.eqb k "") /\
    storage again = storage w'.
Proof.
  intros Hreg Hc Ha. unfold register in Hreg.
  destruct (isInitialized (state w)); simpl in Hreg; [|discriminate].
  destruct (mounted w); simpl in Hreg; [|discriminate].
  destruct (first_missing _ P) as [[key label]|]; [discriminate|].
  destruct (api_registerBrowser api P endpoint) as [resp|m s]; [|discriminate].
  injection Hreg as <-. exists (response_browserKey resp).
  cbn [state storage socketService isRegistered browserKey].
  assert (getBrowserKey (Api.appKey config)
            (saveUserData E (Api.appKey config)
               (JObj (set_prop (set_prop P "registered" (JBool true))
                               "registrationDate" (JStr now)))
               (saveBrowserKey (Api.appKey config) (response_browserKey resp)
                               (storage w)))
          = Some (response_browserKey resp)) as Hstored.
  { unfold getBrowserKey, saveUserData, saveBrowserKey.
    rewrite lookup_insert_ne by (apply not_eq_sym, storage_keys_differ).
    apply lookup_insert_eq. }
  split; [reflexivity|]. split; [reflexivity|]. split; [exact Hstored|].
  split; [apply updateBrowserKey_current|].
  unfold restart, run. cbn [fold_left step].
  rewrite (initialize_active config api' (mount (World_initial _)) rc
             eq_refl eq_refl Hc Ha).
  cbn [fst mount World_initial state storage isInitialized browserKey isRegistered].
  rewrite Hstored. unfold Storage.isRegistered. rewrite Hstored.
  repeat split. destruct (response_browserKey resp); reflexivity.
Qed.

Lemma registration_survives_restart_witness :
  let w' := fst (register sample_engine sample_config (sample_api true) "t"
                          sample_userData None sample_initialized_world) in
  let again := restart sample_engine sample_config (sample_api true) (storage w') in
  browserKey (state again) = Some "abc123" /\ isRegistered (state again) = true.
Proof.
  destruct (registration_survives_restart sample_engine sample_config
              (sample_api true) (sample_api true) "t" sample_userData None
              sample_initialized_world
              (fst (register sample_engine sample_config (sample_api true) "t"
                             sample_userData None sample_initialized_world))
              (sample_remote_config true))
    as (k & _ & Hk & _ & _ & _ & Hb & Hr & _);
    [vm_compute; reflexivity | reflexivity | reflexivity |].
  assert (k = "abc123") as -> by (vm_compute in Hk; congruence).
  intros w' again. split; [exact Hb|exact Hr].
Defined.

(** X19.  After [reset()] on a mounted provider a provider started on the same
    device finds no identity: it initializes unregistered, and opens the
    socket with the access key alone. *)
Theorem reset_forgets_across_restart (E : Engine) (config : ChatConfigWithDefaults)
    (api : RemoteAPI) (w : World) (rc : ChatAppRemoteConfig) :
  mounted w = true ->
  api_getConfig api = ApiOk rc ->
  truthy (isActive rc) = true ->
  let again := restart E config api (storage (fst (reset config w))) in
  isInitialized (state again) = true /\
  isRegistered (state again) = false /\
  browserKey (state again) = None /\
  currentBrowserKey (socketService again) = None /\
  (exists io, socket (socketService again) = Some io /\
              auth io = JObj [("key", socketApiKey rc)]).
Proof.
  intros Hm Hc Ha.
  assert (getBrowserKey (Api.appKey config) (storage (fst (reset config w))) = None)
    as Hnone.
  { unfold reset. rewrite Hm.
    destruct (disconnect_subscribers config (clients w) (socketService w) (state w)
                (clearAll (Api.appKey config) (storage w)))
      as (sv' & st' & r & -> & _).
    destruct r as [[]|e]; simpl; apply clearAll_cleared. }
  unfold restart, run. cbn [fold_left step].
  rewrite (initialize_active config api (mount (World_initial _)) rc
             eq_refl eq_refl Hc Ha).
  cbn [fst mount World_initial state storage socketService isInitialized
       browserKey isRegistered].
  unfold Storage.isRegistered. rewrite Hnone.
  repeat split. eexists. split; reflexivity.
Qed.

Lemma reset_forgets_across_restart_witness :
  let again := restart sample_engine sample_config (sample_api true)
                 (storage (fst (reset sample_config sample_registered_world))) in
  isRegistered (state again) = false /\ browserKey (state again) = None.
Proof.
  destruct (reset_forgets_across_restart sample_engine sample_config (sample_api true)
              sample_registered_world (sample_remote_config true)
              eq_refl eq_refl eq_refl) as (_ & H2 & H3 & _).
  intros again. split; [exact H2|exact H3].
Defined.

(** X20.  A failed fetch of the configuration: [initialize()] throws the
    [ChatApiException], records it in the state, and leaves the session
    uninitialized with the store and the socket service untouched; a later
    call fetches again, and when that succeeds the error is cleared. *)
Theorem initialize_failure_then_retry (config : ChatConfigWithDefaults)
    (api api' : RemoteAPI) (w : World) (message : string) (statusCode : Z)
    (rc : ChatAppRemoteConfig) :
  isInitialized (state w) = false ->
  mounted w = true ->
  api_getConfig api = ApiFail message statusCode ->
  let failed := fst (initialize config api w) in
  snd (initialize config api w) = Throw (ChatApiException message statusCode) /\
  error (state failed) = Some (ChatApiException message statusCode) /\
  isInitialized (state failed) = false /\
  remoteConfig (state failed) = remoteConfig (state w) /\
  storage failed = storage w /\
  socketService failed = socketService w /\
  (api_getConfig api' = ApiOk rc -> truthy (isActive rc) = true ->
     snd (initialize config api' failed) = Ok tt /\
     isInitialized (state (fst (initialize config api' failed))) = true /\
     error (state (fst (initialize config api' failed))) = None /\
     remoteConfig (state (fst (initialize config api' failed))) = Some rc).
Proof.
  intros Hi Hm Hc failed.
  assert (initialize config api w =
          ({| state := {| isInitialized := false;
                          isConnected := isConnected (state w);
                          isRegistered := isRegistered (state w);
                          remoteConfig := remoteConfig (state w);
                          browserKey := browserKey (state w);
                          chatId := chatId (state w);
                          error := Some (ChatApiException message statusCode) |};
              storage := storage w; socketService := socketService w;
              mounted := true; clients := clients w |}, Throw (ChatApiException message statusCode))) as H.
  { unfold initialize. rewrite Hi, Hm, Hc. reflexivity. }
  subst failed. rewrite H. cbn [fst snd state storage socketService error
                                 isInitialized remoteConfig].
  do 6 (split; [reflexivity|]). intros Hc' Ha.
  unfold initialize. cbn [state isInitialized mounted negb].
  rewrite Hc', Ha. repeat split.
Qed.

Lemma initialize_failure_then_retry_witness :
  let down := {| api_getConfig := ApiFail "Request failed with status 503" 503;
                 api_registerBrowser := api_registerBrowser (sample_api true);
                 api_getMessages := api_getMessages (sample_api true) |} in
  let failed := fst (initialize sample_config down (mount (World_initial ∅))) in
  error (state failed) = Some (ChatApiException "Request failed with status 503" 503) /\
  isInitialized (state (fst (initialize sample_config (sample_api true) failed))) = true.
Proof.
  intros down failed.
  destruct (initialize_failure_then_retry sample_config down (sample_api true)
              (mount (World_initial ∅)) "Request failed with status 503" 503
              (sample_remote_config true) eq_refl eq_refl eq_refl)
    as (_ & H2 & _ & _ & _ & _ & Hretry).
  destruct (Hretry eq_refl eq_refl) as (_ & H & _).
  split; [exact H2|exact H].
Defined.

(** ** Identity rotation *)

(** X21.  A [browser-key-updated] event that carries a string, on a mounted
    provider with a socket: the state, the store and the socket service
    take the new identity; [isRegistered] and every other field of the
    state stay as they were; the socket emits nothing, so no room is left
    or joined.  An event whose [browser_key] is not a string changes
    nothing. *)
Theorem identity_rotation (config : ChatConfigWithDefaults) (w : World)
    (data : JValue) :
  mounted w = true ->
  socket (socketService w) <> None ->
  let w' := fst (on_event config (EvBrowserKeyUpdated data) w) in
  snd (on_event config (EvBrowserKeyUpdated data) w) = Ok tt /\
  (forall k, get data "browser_key" = JStr k ->
     browserKey (state w') = Some k /\
     getBrowserKey (Api.appKey config) (storage w') = Some k /\
     currentBrowserKey (socketService w') = Some k /\
     isRegistered (state w') = isRegistered (state w) /\
     isInitialized (state w') = isInitialized (state w) /\
     isConnected (state w') = isConnected (state w) /\
     chatId (state w') = chatId (state w) /\
     emitted (socketService w') = emitted (socketService w) /\
     socket (socketService w') = socket (socketService w)) /\
  ((forall k, get data "browser_key" <> JStr k) -> w' = w).
Proof.
  intros Hm Hs w'. subst w'. unfold on_event. rewrite Hm. unfold deliver.
  destruct (socket (socketService w)) as [io|] eqn:Hio; [|contradiction].
  destruct (get data "browser_key") as [| |b|n|k|l|o|f] eqn:Hk; simpl.
  all: split; [reflexivity|]; split;
    try (intros k0 H0; discriminate H0);
    try (intros _; destruct w; simpl in Hm; rewrite Hm; reflexivity);
    try (intros Hno; destruct (Hno k); reflexivity).
  intros k0 [= <-]. unfold getBrowserKey, saveBrowserKey.
  rewrite lookup_insert_eq. repeat split.
Qed.

Lemma identity_rotation_witness :
  let w' := fst (on_event sample_config
                   (EvBrowserKeyUpdated (JObj [("browser_key", JStr "rotated")]))
                   sample_registered_world) in
  browserKey (state w') = Some "rotated" /\
  currentBrowserKey (socketService w') = Some "rotated" /\
  emitted (socketService w') = [("join", JStr "private-chat_abc123")].
Proof.
  destruct (identity_rotation sample_config sample_registered_world
              (JObj [("browser_key", JStr "rotated")]) eq_refl)
    as (_ & H & _); [vm_compute; discriminate|].
  destruct (H "rotated" eq_refl) as (H1 & _ & H3 & _ & _ & _ & _ & H8 & _).
  intros w'. split; [exact H1|]. split; [exact H3|].
  exact (eq_trans H8 ltac:(vm_compute; reflexivity)).
Defined.

(** ** The operations of a registered device *)

(** X22.  Sending, editing, uploading, paging and updating the profile are
    refused, with nothing requested and nothing changed: with "Chat not
    initialized" before initialization, whether or not an identity is
    held; and, once initialized, with "Not registered" while the identity
    of the state is null or the empty string. *)
Theorem operations_need_identity (E : Engine) (config : ChatConfigWithDefaults)
    (api : RemoteAPI) (rest : Session.RemoteAPI_rest) (w : World) :
  (isInitialized (state w) = false -> all_refuse E config api rest NotInitialized w) /\
  (isInitialized (state w) = true ->
   browserKey (state w) = None \/ browserKey (state w) = Some "" ->
   all_refuse E config api rest Session.NotRegistered w).
Proof.
  unfold all_refuse, refused, Session.updateBrowser, Session.updateUserData,
    Session.sendMessage, Session.editMessage, Session.sendImage, Session.sendFile,
    Session.getMessages, Session.identity_guard.
  split.
  - intros ->. simpl. repeat split.
  - intros -> [-> | ->]; simpl; repeat split.
Qed.

Lemma operations_need_identity_witness :
  Session.sendMessage
    {| Session.api_updateBrowser := fun _ _ => ApiFail "" 0;
       Session.api_updateUserData := fun _ _ => ApiFail "" 0;
       Session.api_sendMessage := fun _ _ _ _ => ApiFail "" 0;
       Session.api_editMessage := fun _ _ _ => ApiFail "" 0;
       Session.api_uploadImage := fun _ _ _ _ => Ok JNull;
       Session.api_uploadFile := fun _ _ _ _ => Ok JNull |}
    "hello" None None sample_initialized_world
  = Throw Session.NotRegistered.
Proof.
  destruct (operations_need_identity sample_engine sample_config (sample_api true)
              {| Session.api_updateBrowser := fun _ _ => ApiFail "" 0;
                 Session.api_updateUserData := fun _ _ => ApiFail "" 0;
                 Session.api_sendMessage := fun _ _ _ _ => ApiFail "" 0;
                 Session.api_editMessage := fun _ _ _ => ApiFail "" 0;
                 Session.api_uploadImage := fun _ _ _ _ => Ok JNull;
                 Session.api_uploadFile := fun _ _ _ _ => Ok JNull |}
              sample_initialized_world) as [_ H].
  destruct (H eq_refl (or_introl eq_refl)) as (_ & _ & Hsend & _).
  apply Hsend.
Defined.

(** X23.  A registration the backend answers without a [browser_key] (the
    response parser's default is the empty string) returns normally and
    sets [isRegistered]; yet the device cannot act as registered: every
    operation of a registered device is refused with "Not registered", the
    store does not count it as registered, and after a restart neither does
    the state. *)
Theorem registration_without_identity (E : Engine) (config : ChatConfigWithDefaults)
    (api api' : RemoteAPI) (rest : Session.RemoteAPI_rest) (now : string)
    (P : list (string * JValue)) (endpoint : option string) (w w' : World)
    (rc : ChatAppRemoteConfig) :
  register E config api now P endpoint w = (w', Ok tt) ->
  browserKey (state w') = Some "" ->
  isRegistered (state w') = true /\
  all_refuse E config api rest Session.NotRegistered w' /\
  Session.checkIsRegistered config w' = false /\
  (api_getConfig api' = ApiOk rc -> truthy (isActive rc) = true ->
     isRegistered (state (restart E config api' (storage w'))) = false).
Proof.
  intros Hreg Hkey. unfold register in Hreg.
  destruct (isInitialized (state w)) eqn:Hi; simpl in Hreg; [|discriminate].
  destruct (mounted w) eqn:Hm; simpl in Hreg; [|discriminate].
  destruct (first_missing _ P) as [[key label]|]; [discriminate|].
  destruct (api_registerBrowser api P endpoint) as [resp|m s]; [|discriminate].
  injection Hreg as <-. simpl in Hkey. injection Hkey as Hkey.
  assert (getBrowserKey (Api.appKey config)
            (saveUserData E (Api.appKey config)
               (JObj (set_prop (set_prop P "registered" (JBool true))
                               "registrationDate" (JStr now)))
               (saveBrowserKey (Api.appKey config) (response_browserKey resp)
                               (storage w)))
          = Some "") as Hstored.
  { unfold getBrowserKey, saveUserData, saveBrowserKey.
    rewrite lookup_insert_ne by (apply not_eq_sym, storage_keys_differ).
    rewrite lookup_insert_eq, Hkey. reflexivity. }
  split; [reflexivity|]. split; [|split].
  - unfold all_refuse, refused, Session.updateBrowser, Session.updateUserData,
      Session.sendMessage, Session.editMessage, Session.sendImage, Session.sendFile,
      Session.getMessages, Session.identity_guard.
    cbn [state isInitialized browserKey negb]. rewrite Hkey. simpl. repeat split.
  - unfold Session.checkIsRegistered, Storage.isRegistered.
    cbn [mounted storage]. rewrite Hstored. reflexivity.
  - intros Hc Ha. unfold restart, run. cbn [fold_left step].
    rewrite (initialize_active config api' (mount (World_initial _)) rc
               eq_refl eq_refl Hc Ha).
    cbn [fst mount World_initial state storage isRegistered].
    unfold Storage.isRegistered. rewrite Hstored. reflexivity.
Qed.

Lemma registration_without_identity_witness :
  let api := {| api_getConfig := ApiOk (sample_remote_config true);
                api_registerBrowser := fun _ _ =>
                  ApiOk {| success := true; response_browserKey := "";
                           response_chatId := None; response_message := None;
                           lastMessages := None |};
                api_getMessages := fun _ _ _ => ApiFail "Network Error" 0 |} in
  let w' := fst (register sample_engine sample_config api "t" sample_userData None
                          sample_initialized_world) in
  isRegistered (state w') = true /\
  Session.getMessages api None None w' = Throw Session.NotRegistered.
Proof.
  intros api w'.
  destruct (registration_without_identity sample_engine sample_config api api
              {| Session.api_updateBrowser := fun _ _ => ApiFail "" 0;
                 Session.api_updateUserData := fun _ _ => ApiFail "" 0;
                 Session.api_sendMessage := fun _ _ _ _ => ApiFail "" 0;
                 Session.api_editMessage := fun _ _ _ => ApiFail "" 0;
                 Session.api_uploadImage := fun _ _ _ _ => Ok JNull;
                 Session.api_uploadFile := fun _ _ _ _ => Ok JNull |}
              "t" sample_userData None sample_initialized_world w'
              (sample_remote_config true))
    as (H1 & Hall & _); [vm_compute; reflexivity | vm_compute; reflexivity |].
  destruct Hall as (_ & _ & _ & _ & _ & _ & Hget).
  split; [exact H1|apply Hget].
Defined.

(** ** The messages that come with a profile update *)

Lemma mapM_throws {A B} (f : A -> Result B) (l : list A) :
  Exists (fun x => exists e, f x = Throw e) l -> exists e, mapM f l = Throw e.
Proof.
  induction 1 as [x rest [e He] | x rest _ [e IH]]; simpl.
  - exists e. rewrite He. reflexivity.
  - destruct (f x) as [y|e']; simpl; [|exists e'; reflexivity].
    exists e. rewrite IH. reflexivity.
Qed.

Lemma parseChatMessage_unreadable (v : JValue) :
  ~ type_readable v -> exists e, parseChatMessage v = Throw e.
Proof.
  intros Hno. unfold parseChatMessage.
  destruct (nullish v); [eexists; reflexivity|].
  destruct (parseMessageType (get v "type")) as [t|e] eqn:Ht; simpl.
  - destruct Hno. exists t. exact Ht.
  - exists e. reflexivity.
Qed.

(** X24.  [updateBrowser] of a registered device whose update the backend
    accepted, answering with [lastMessages]: the entries that are not
    objects are skipped, and when the [type] of every object entry is
    absent, [null] or a string, one message per object entry is returned,
    the profile is persisted, the identity is kept and the chat id is the
    response's, or the previous one when the response has none.  When some
    object entry has another [type], the call throws and the world is left
    as it was: the profile the backend accepted is not persisted. *)
Theorem updateBrowser_lastMessages (E : Engine) (config : ChatConfigWithDefaults)
    (rest : Session.RemoteAPI_rest) (userData : list (string * JValue))
    (w : World) (key : string) (response : RegistrationResponse)
    (items : list JValue) :
  isInitialized (state w) = true ->
  mounted w = true ->
  browserKey (state w) = Some key ->
  key <> "" ->
  Session.api_updateBrowser rest key userData = ApiOk response ->
  lastMessages response = Some items ->
  let objects := List.filter is_object items in
  let out := Session.updateBrowser E config rest userData w in
  (Forall type_readable objects ->
     exists messages,
       snd out = Ok messages /\
       length messages = length objects /\
       storage (fst out) !! userDataStorageKey (Api.appKey config)
         = Some (JSON_stringify E (JObj userData)) /\
       getBrowserKey (Api.appKey config) (storage (fst out))
         = getBrowserKey (Api.appKey config) (storage w) /\
       browserKey (state (fst out)) = Some key /\
       chatId (state (fst out))
         = match response_chatId response with
           | Some c => Some c
           | None => chatId (state w)
           end) /\
  (Exists (fun v => ~ type_readable v) objects ->
     exists e, out = (w, Throw e)).
Proof.
  intros Hi Hm Hk Hne Hapi Hlast objects out.
  assert (truthy (JStr key) = true) as Ht.
  { destruct key; [congruence|reflexivity]. }
  assert (out = match mapM parseChatMessage objects with
                | Throw e => (w, Throw e)
                | Ok messages =>
                    ({| state := {| isInitialized := isInitialized (state w);
                                    isConnected := isConnected (state w);
                                    isRegistered := isRegistered (state w);
                                    remoteConfig := remoteConfig (state w);
                                    browserKey := browserKey (state w);
                                    chatId := match response_chatId response with
                                              | Some c => Some c
                                              | None => chatId (state w)
                                              end;
                                    error := error (state w) |};
                        storage := saveUserData E (Api.appKey config) (JObj userData)
                                                (storage w);
                        socketService := socketService w;
                        mounted := mounted w; clients := clients w |}, Ok messages)
                end) as Hout.
  { subst out objects. unfold Session.updateBrowser, Session.identity_guard.
    rewrite Hi, Hk, Ht, Hm. cbn [negb]. rewrite Hapi.
    unfold Session.parse_lastMessages. rewrite Hlast. reflexivity. }
  split.
  - intros Hall.
    destruct (mapM_parseChatMessage_objects objects) as (ms & Hms & Hlen).
    { apply List.Forall_forall. intros v Hv. split.
      - apply filter_In in Hv. destruct Hv as [_ Hv]. unfold is_object in Hv.
        apply andb_true_iff in Hv. destruct Hv as [_ Hv].
        apply negb_true_iff in Hv. exact Hv.
      - exact (proj1 (List.Forall_forall _ _) Hall v Hv). }
    exists ms. rewrite Hout, Hms. cbn [fst snd state storage browserKey chatId].
    unfold saveUserData, getBrowserKey.
    rewrite lookup_insert_eq.
    rewrite lookup_insert_ne by (apply not_eq_sym, storage_keys_differ).
    repeat split; try assumption.
  - intros Hex.
    destruct (mapM_throws parseChatMessage objects) as [e He].
    { apply List.Exists_exists in Hex. destruct Hex as (v & Hv & Hno).
      apply List.Exists_exists. exists v. split; [exact Hv|].
      apply parseChatMessage_unreadable, Hno. }
    exists e. rewrite Hout, He. reflexivity.
Qed.

Lemma updateBrowser_lastMessages_witness :
  let rest := {| Session.api_updateBrowser := fun _ _ =>
                   ApiOk {| success := true; response_browserKey := "abc123";
                            response_chatId := None; response_message := None;
                            lastMessages :=
                              Some [JStr "note"; JObj [("id", JNum 1); ("type", JNum 5)]] |};
                 Session.api_updateUserData := fun _ _ => ApiFail "" 0;
                 Session.api_sendMessage := fun _ _ _ _ => ApiFail "" 0;
                 Session.api_editMessage := fun _ _ _ => ApiFail "" 0;
                 Session.api_uploadImage := fun _ _ _ _ => Ok JNull;
                 Session.api_uploadFile := fun _ _ _ _ => Ok JNull |} in
  exists e,
    Session.updateBrowser sample_engine sample_config rest [("name", JStr "Grace")]
                          sample_registered_world
    = (sample_registered_world, Throw e).
Proof.
  intros rest.
  destruct (updateBrowser_lastMessages sample_engine sample_config rest
              [("name", JStr "Grace")] sample_registered_world "abc123"
              {| success := true; response_browserKey := "abc123";
                 response_chatId := None; response_message := None;
                 lastMessages :=
                   Some [JStr "note"; JObj [("id", JNum 1); ("type", JNum 5)]] |}
              [JStr "note"; JObj [("id", JNum 1); ("type", JNum 5)]]
              eq_refl eq_refl eq_refl ltac:(discriminate) eq_refl eq_refl)
    as [_ H].
  apply H. apply Exists_cons_hd. intros [t Ht]. discriminate Ht.
Defined.

(** ** The two ways to fetch a page *)

(** X25.  Where the provider is initialized, the identity of its state is the
    persisted one (as it is throughout a session) and no read of the store
    is rejected: a page [getMessages]
    returns is the page [loadMessages] returns, provided a profile is
    persisted; and whenever [getMessages] throws, be it for a missing
    identity or a failed request, [loadMessages] returns the empty page. *)
Theorem loadMessages_softens_getMessages (E : Engine)
    (config : ChatConfigWithDefaults) (api : RemoteAPI) (page perPage : option Z)
    (w : World) :
  isInitialized (state w) = true ->
  mounted w = true ->
  browserKey (state w) = getBrowserKey (Api.appKey config) (storage w) ->
  (forall p, Session.getMessages api page perPage w = Ok p ->
     truthy (getUserData E (Api.appKey config) (storage w)) = true ->
     loadMessages E config api none_rejected page perPage w = Ok p) /\
  (forall e, Session.getMessages api page perPage w = Throw e ->
     loadMessages E config api none_rejected page perPage w
     = Ok (createEmptyPaginatedMessages (Some (default 20 perPage)))).
Proof.
  intros Hi Hm Hk.
  unfold Session.getMessages, Session.identity_guard, loadMessages,
    await_getBrowserKey, await_getUserData, getItem, none_rejected.
  change (storage w !! browserStorageKey (Api.appKey config))
    with (getBrowserKey (Api.appKey config) (storage w)).
  rewrite Hi, Hm. cbn [negb bind]. rewrite <- Hk.
  destruct (browserKey (state w)) as [key|]; cbn [truthy_key].
  - destruct (truthy (JStr key)) eqn:Ht; cbn [negb bind]; rewrite ?Ht; cbn [negb bind].
    + split.
      * intros p Hp ->. cbn [negb].
        destruct (api_getMessages api key _ _); [|discriminate].
        injection Hp as ->. reflexivity.
      * intros e He.
        destruct (truthy (getUserData E (Api.appKey config) (storage w)));
          [|reflexivity].
        cbn [negb]. destruct (api_getMessages api key _ _); [discriminate|reflexivity].
    + split; [discriminate|reflexivity].
  - cbn [negb bind]. split; [discriminate|reflexivity].
Qed.

Lemma loadMessages_softens_getMessages_witness :
  Session.getMessages (sample_api true) None None sample_registered_world
    = Throw (ChatApiException "Network Error" 0) /\
  loadMessages sample_engine sample_config (sample_api true) none_rejected None None
               sample_registered_world
    = Ok (createEmptyPaginatedMessages (Some 20)).
Proof.
  split; [vm_compute; reflexivity|].
  destruct (loadMessages_softens_getMessages sample_engine sample_config
              (sample_api true) None None sample_registered_world
              eq_refl eq_refl) as [_ H]; [vm_compute; reflexivity|].
  apply (H (ChatApiException "Network Error" 0)). vm_compute. reflexivity.
Defined.

(** ** The list of [useChatMessages] *)

Lemma strict_eq_eq (a b : JValue) : Hooks.strict_eq a b = true -> a = b.
Proof.
  destruct a, b; simpl; try discriminate; intros H.
  - reflexivity.
  - reflexivity.
  - apply Bool.eqb_prop in H. congruence.
  - apply Z.eqb_eq in H. congruence.
  - apply String.eqb_eq in H. congruence.
Qed.

Lemma strict_eq_primitive (a b : JValue) :
  primitive b -> Hooks.strict_eq a b = false -> a <> b.
Proof. unfold primitive. intros Hb Hf ->. congruence. Qed.

Lemma existsb_id_false (v : JValue) (l : list ChatMessage) :
  primitive v ->
  existsb (fun m => Hooks.strict_eq (id m) v) l = false -> ~ In v (ids l).
Proof.
  intros Hp Hex Hin. apply in_map_iff in Hin. destruct Hin as (m & Hm & Hin).
  assert (existsb (fun m => Hooks.strict_eq (id m) v) l = true) as Ht.
  { apply existsb_exists. exists m. split; [exact Hin|]. rewrite Hm. exact Hp. }
  congruence.
Qed.

Lemma existsb_id_true (v : JValue) (l : list ChatMessage) :
  existsb (fun m => Hooks.strict_eq (id m) v) l = true -> In v (ids l).
Proof.
  intros Hex. apply existsb_exists in Hex. destruct Hex as (m & Hin & Hm).
  apply strict_eq_eq in Hm. subst v. apply in_map, Hin.
Qed.

Lemma ids_replace (newMessage : ChatMessage) (l : list ChatMessage) :
  ids (map (fun m => if Hooks.strict_eq (id m) (id newMessage) then newMessage else m) l)
  = ids l.
Proof.
  unfold ids. induction l as [|m l IH]; simpl; [reflexivity|].
  rewrite IH. f_equal.
  destruct (Hooks.strict_eq (id m) (id newMessage)) eqn:Hm; [|reflexivity].
  symmetry. apply strict_eq_eq, Hm.
Qed.

Lemma replace_absent (newMessage : ChatMessage) (l : list ChatMessage) :
  existsb (fun m => Hooks.strict_eq (id m) (id newMessage)) l = false ->
  map (fun m => if Hooks.strict_eq (id m) (id newMessage) then newMessage else m) l = l.
Proof.
  induction l as [|m l IH]; simpl; [reflexivity|].
  intros H. apply orb_false_iff in H. destruct H as [Hm Hl].
  rewrite Hm, (IH Hl). reflexivity.
Qed.

(** X26.  A message that arrives with an id [===] can compare (a number or a
    string, as the wire gives) replaces, where it stands, the message of
    the list that has its id, and goes first when there is none: the list
    then holds the new message, and of the previous ones exactly those with
    another id; ids that were distinct stay distinct; receiving the same
    message again changes nothing. *)
Theorem receive_upsert (newMessage : ChatMessage) (prev : list ChatMessage) :
  primitive (id newMessage) ->
  let next := Hooks.receive newMessage prev in
  (forall m, In m next <-> m = newMessage \/ (In m prev /\ id m <> id newMessage)) /\
  (In (id newMessage) (ids prev) -> ids next = ids prev) /\
  (~ In (id newMessage) (ids prev) -> next = newMessage :: prev) /\
  (distinct_ids prev -> distinct_ids next) /\
  Hooks.receive newMessage next = next.
Proof.
  intros Hp next. subst next. unfold Hooks.receive.
  destruct (existsb (fun m => Hooks.strict_eq (id m) (id newMessage)) prev) eqn:Hex.
  - split; [|split; [|split; [|split]]].
    + intros m. rewrite in_map_iff. split.
      * intros (m0 & Hm0 & Hin).
        destruct (Hooks.strict_eq (id m0) (id newMessage)) eqn:Hs.
        -- left. congruence.
        -- right. subst m0. split; [exact Hin|].
           apply strict_eq_primitive; assumption.
      * intros [-> | [Hin Hne]].
        -- apply existsb_exists in Hex. destruct Hex as (m0 & Hin & Hs).
           exists m0. rewrite Hs. split; [reflexivity|exact Hin].
        -- exists m. split; [|exact Hin].
           destruct (Hooks.strict_eq (id m) (id newMessage)) eqn:Hs; [|reflexivity].
           apply strict_eq_eq in Hs. contradiction.
    + intros _. apply ids_replace.
    + intros Hno. destruct Hno. apply existsb_id_true, Hex.
    + unfold distinct_ids. rewrite ids_replace. exact (fun H => H).
    + assert (existsb (fun m => Hooks.strict_eq (id m) (id newMessage))
                (map (fun m => if Hooks.strict_eq (id m) (id newMessage)
                               then newMessage else m) prev) = true) as ->.
      { apply existsb_exists. apply existsb_exists in Hex.
        destruct Hex as (m0 & Hin & Hs). exists newMessage. split; [|exact Hp].
        apply in_map_iff. exists m0. rewrite Hs. split; [reflexivity|exact Hin]. }
      rewrite map_map. apply map_ext. intros m.
      destruct (Hooks.strict_eq (id m) (id newMessage)) eqn:Hs.
      * unfold primitive in Hp. rewrite Hp. reflexivity.
      * rewrite Hs. reflexivity.
  - pose proof (existsb_id_false _ _ Hp Hex) as Hno.
    split; [|split; [|split; [|split]]].
    + intros m. simpl. split.
      * intros [<- | Hin]; [left; reflexivity|]. right. split; [exact Hin|].
        intros Heq. apply Hno. rewrite <- Heq. apply in_map, Hin.
      * intros [-> | [Hin _]]; [left; reflexivity | right; exact Hin].
    + intros Hin. contradiction.
    + reflexivity.
    + unfold distinct_ids, ids. simpl. intros Hd. constructor; assumption.
    + simpl. unfold primitive in Hp. rewrite Hp. simpl.
      rewrite (replace_absent _ _ Hex). reflexivity.
Qed.

Lemma receive_upsert_witness :
  let edited := {| id := JNum 2; Types.chatId := JNum 7; content := JStr "edited";
                   type := MsgUser; senderName := JUndefined; senderType := JUndefined;
                   createdAt := DateNow; updatedAt := None; isRead := JBool false;
                   readAt := None; metadata := JUndefined |} in
  let first := {| id := JNum 1; Types.chatId := JNum 7; content := JStr "one";
                  type := MsgUser; senderName := JUndefined; senderType := JUndefined;
                  createdAt := DateNow; updatedAt := None; isRead := JBool false;
                  readAt := None; metadata := JUndefined |} in
  let second := {| id := JNum 2; Types.chatId := JNum 7; content := JStr "two";
                   type := MsgUser; senderName := JUndefined; senderType := JUndefined;
                   createdAt := DateNow; updatedAt := None; isRead := JBool false;
                   readAt := None; metadata := JUndefined |} in
  ids (Hooks.receive edited [first; second]) = [JNum 1; JNum 2] /\
  Hooks.receive edited (Hooks.receive edited [first; second])
  = Hooks.receive edited [first; second].
Proof.
  intros edited first second.
  destruct (receive_upsert edited [first; second] eq_refl)
    as (_ & Hids & _ & _ & Hidem).
  split; [|exact Hidem].
  apply Hids. right. left. reflexivity.
Defined.

Lemma NoDup_ids_filter (g : ChatMessage -> bool) (l : list ChatMessage) :
  List.NoDup (ids l) -> List.NoDup (ids (List.filter g l)).
Proof.
  unfold ids. induction l as [|m l IH]; simpl; intros Hd; [constructor|].
  inversion Hd as [|? ? Hno Hd']; subst.
  destruct (g m); simpl; [|apply IH, Hd'].
  constructor; [|apply IH, Hd'].
  intros Hin. apply Hno. apply in_map_iff in Hin.
  destruct Hin as (m0 & Hm0 & Hin). apply filter_In in Hin.
  rewrite <- Hm0. apply in_map, Hin.
Qed.

Lemma existsb_ids_false (v : JValue) (l : list JValue) :
  primitive v ->
  existsb (fun i => Hooks.strict_eq i v) l = false -> ~ In v l.
Proof.
  intros Hp Hex Hin.
  assert (existsb (fun i => Hooks.strict_eq i v) l = true) as Ht.
  { apply existsb_exists. exists v. split; [exact Hin|exact Hp]. }
  congruence.
Qed.

Lemma existsb_ids_true (v : JValue) (l : list JValue) :
  existsb (fun i => Hooks.strict_eq i v) l = true -> In v l.
Proof.
  intros Hex. apply existsb_exists in Hex. destruct Hex as (i & Hin & Hi).
  apply strict_eq_eq in Hi. subst v. exact Hin.
Qed.

(** X27.  [loadMore] of a page whose ids [===] can compare: the list keeps its
    messages, in their places, and gets after them exactly the messages of
    the page whose id it did not hold, in the order of the page; when the
    ids of the list were distinct and so were those of the page, the ids of
    the result are distinct. *)
Theorem appendPage_merges (page prev : list ChatMessage) :
  Forall (fun m => primitive (id m)) page ->
  let next := Hooks.appendPage page prev in
  firstn (length prev) next = prev /\
  skipn (length prev) next
    = List.filter (fun m => negb (existsb (fun i => Hooks.strict_eq i (id m)) (ids prev)))
                  page /\
  (forall m, In m (skipn (length prev) next) <->
             In m page /\ ~ In (id m) (ids prev)) /\
  (distinct_ids prev -> distinct_ids page -> distinct_ids next).
Proof.
  intros Hp next. subst next. unfold Hooks.appendPage. fold (ids prev).
  assert (forall m, In m (List.filter
                     (fun m => negb (existsb (fun i => Hooks.strict_eq i (id m)) (ids prev)))
                     page)
                    <-> In m page /\ ~ In (id m) (ids prev)) as Hchar.
  { intros m. rewrite filter_In. split.
    - intros [Hin Hf]. split; [exact Hin|].
      apply negb_true_iff in Hf. apply existsb_ids_false; [|exact Hf].
      exact (proj1 (List.Forall_forall _ _) Hp m Hin).
    - intros [Hin Hno]. split; [exact Hin|].
      apply negb_true_iff.
      destruct (existsb _ (ids prev)) eqn:Hex; [|reflexivity].
      destruct Hno. apply existsb_ids_true, Hex. }
  split; [|split; [|split]].
  - rewrite firstn_app, Nat.sub_diag, firstn_all. simpl. apply app_nil_r.
  - rewrite skipn_app, Nat.sub_diag, skipn_all. reflexivity.
  - intros m. rewrite skipn_app, Nat.sub_diag, skipn_all. simpl. apply Hchar.
  - unfold distinct_ids. intros Hd Hd'.
    unfold ids at 1. rewrite map_app. fold (ids prev).
    apply List.NoDup_app.
    + exact Hd.
    + apply (NoDup_ids_filter _ _ Hd').
    + intros v Hin Hin'. apply in_map_iff in Hin'.
      destruct Hin' as (m & <- & Hm). apply Hchar in Hm. destruct Hm as [_ Hm].
      contradiction.
Qed.

Lemma appendPage_merges_witness :
  let message n text :=
    {| id := JNum n; Types.chatId := JNum 7; content := JStr text;
       type := MsgUser; senderName := JUndefined; senderType := JUndefined;
       createdAt := DateNow; updatedAt := None; isRead := JBool false;
       readAt := None; metadata := JUndefined |} in
  ids (Hooks.appendPage [message 2 "two again"; message 3 "three"]
                        [message 1 "one"; message 2 "two"])
  = [JNum 1; JNum 2; JNum 3] /\
  distinct_ids (Hooks.appendPage [message 2 "two again"; message 3 "three"]
                                 [message 1 "one"; message 2 "two"]).
Proof.
  intros message. split; [reflexivity|].
  destruct (appendPage_merges [message 2 "two again"; message 3 "three"]
                              [message 1 "one"; message 2 "two"])
    as (_ & _ & _ & Hd).
  - repeat constructor.
  - apply Hd.
    + unfold distinct_ids. simpl. constructor.
      * simpl. intros [H|[]]. discriminate H.
      * constructor; [intros []|constructor].
    + unfold distinct_ids. simpl. constructor.
      * simpl. intros [H|[]]. discriminate H.
      * constructor; [intros []|constructor].
Defined.

(** ** The typing indicator of [useChatTyping] *)

Lemma alternating_snoc (l : list bool) (b : bool) :
  alternating l -> b = Nat.even (length l) -> alternating (l ++ [b]).
Proof.
  intros Hl Hb i c Hi.
  destruct (Nat.lt_ge_cases i (length l)) as [Hlt|Hge].
  - rewrite nth_error_app1 in Hi by exact Hlt. apply Hl, Hi.
  - rewrite nth_error_app2 in Hi by exact Hge.
    destruct (i - length l)%nat as [|k] eqn:Hk; simpl in Hi.
    + injection Hi as <-. replace i with (length l) by lia. exact Hb.
    + destruct k; discriminate Hi.
Qed.

Lemma last_snoc (l : list bool) (b d : bool) : List.last (l ++ [b]) d = b.
Proof. apply List.last_last. Qed.

(** What every event keeps: a pending timeout means the flag is set, and
    the flag is what was last sent. *)
Lemma typing_step_flag (st : Hooks.TypingState) (ev : Hooks.TypingEvent) :
  (Hooks.typingTimeout st = true -> Hooks.isCurrentlyTyping st = true) ->
  List.last (Hooks.sent st) false = Hooks.isCurrentlyTyping st ->
  (Hooks.typingTimeout (Hooks.typing_step st ev) = true ->
   Hooks.isCurrentlyTyping (Hooks.typing_step st ev) = true) /\
  List.last (Hooks.sent (Hooks.typing_step st ev)) false
  = Hooks.isCurrentlyTyping (Hooks.typing_step st ev).
Proof.
  intros Hto Hlast.
  destruct ev as [text| |isTyping]; simpl.
  - unfold Hooks.setTyping.
    destruct (0 <? Z.of_nat (String.length text)); simpl.
    + split; [reflexivity|].
      destruct (Hooks.isCurrentlyTyping st) eqn:Hc; [exact Hlast|apply last_snoc].
    + split; [discriminate|].
      destruct (Hooks.isCurrentlyTyping st) eqn:Hc; [apply last_snoc|exact Hlast].
  - unfold Hooks.timeout_elapses.
    destruct (Hooks.typingTimeout st) eqn:Ht; simpl.
    + split; [discriminate|apply last_snoc].
    + split; [rewrite Ht; discriminate|exact Hlast].
  - split; [discriminate|apply last_snoc].
Qed.

(** What keystrokes and timeouts keep. *)
Lemma typing_step_alternates (st : Hooks.TypingState) (ev : Hooks.TypingEvent) :
  match ev with Hooks.Manual _ => False | _ => True end ->
  (Hooks.typingTimeout st = true -> Hooks.isCurrentlyTyping st = true) ->
  Hooks.isCurrentlyTyping st = Nat.odd (length (Hooks.sent st)) ->
  alternating (Hooks.sent st) ->
  Hooks.isCurrentlyTyping (Hooks.typing_step st ev)
  = Nat.odd (length (Hooks.sent (Hooks.typing_step st ev))) /\
  alternating (Hooks.sent (Hooks.typing_step st ev)).
Proof.
  intros Hev Hto Hodd Halt.
  assert (forall b, Hooks.isCurrentlyTyping st = negb b ->
            b = Nat.odd (length (Hooks.sent st ++ [b])) /\
            alternating (Hooks.sent st ++ [b])) as Hflip.
  { intros b Hb. rewrite Hodd in Hb.
    assert (b = Nat.even (length (Hooks.sent st))) as He.
    { rewrite <- Nat.negb_odd, Hb, negb_involutive. reflexivity. }
    split; [|apply alternating_snoc; assumption].
    rewrite length_app. simpl. rewrite Nat.add_1_r, Nat.odd_succ. exact He. }
  destruct ev as [text| |isTyping]; simpl; [| |contradiction].
  - unfold Hooks.setTyping.
    destruct (0 <? Z.of_nat (String.length text)); simpl;
      destruct (Hooks.isCurrentlyTyping st) eqn:Hc;
      try (split; assumption); apply Hflip; reflexivity.
  - unfold Hooks.timeout_elapses.
    destruct (Hooks.typingTimeout st) eqn:Ht; simpl; [|split; assumption].
    apply Hflip. rewrite (Hto eq_refl). reflexivity.
Qed.

(** X28.  Whatever the keystrokes, elapsed timeouts and manual calls, the flag
    of [useChatTyping] is the state it last sent ([false] when it sent
    none), and a timeout is pending only while the flag is set.  Driven by
    keystrokes and timeouts alone, the hook never sends the same state
    twice in a row: what it sends is [true, false, true, ...]. *)
Theorem typing_notifications (evs : list Hooks.TypingEvent) :
  let st := fold_left Hooks.typing_step evs Hooks.TypingState_initial in
  List.last (Hooks.sent st) false = Hooks.isCurrentlyTyping st /\
  (Hooks.typingTimeout st = true -> Hooks.isCurrentlyTyping st = true) /\
  (typed_only evs -> alternating (Hooks.sent st)).
Proof.
  intros st. subst st.
  assert (forall evs st,
            (Hooks.typingTimeout st = true -> Hooks.isCurrentlyTyping st = true) ->
            List.last (Hooks.sent st) false = Hooks.isCurrentlyTyping st ->
            let st' := fold_left Hooks.typing_step evs st in
            (Hooks.typingTimeout st' = true -> Hooks.isCurrentlyTyping st' = true) /\
            List.last (Hooks.sent st') false = Hooks.isCurrentlyTyping st' /\
            (typed_only evs ->
             Hooks.isCurrentlyTyping st = Nat.odd (length (Hooks.sent st)) ->
             alternating (Hooks.sent st) ->
             alternating (Hooks.sent st'))) as Hrun.
  { clear. induction evs as [|ev evs IH]; intros st Hto Hlast; simpl.
    - split; [exact Hto|]. split; [exact Hlast|]. intros _ _ H. exact H.
    - destruct (typing_step_flag st ev Hto Hlast) as [Hto' Hlast'].
      destruct (IH _ Hto' Hlast') as (H1 & H2 & H3).
      split; [exact H1|]. split; [exact H2|].
      intros Hty Hodd Halt. inversion Hty as [|? ? Hev Hty']; subst.
      destruct (typing_step_alternates st ev Hev Hto Hodd Halt) as [Hodd' Halt'].
      apply H3; assumption. }
  destruct (Hrun evs Hooks.TypingState_initial) as (H1 & H2 & H3).
  - discriminate.
  - reflexivity.
  - split; [exact H2|]. split; [exact H1|].
    intros Hty. apply H3; [exact Hty|reflexivity|].
    intros i b Hi. destruct i; discriminate Hi.
Qed.

Lemma typing_notifications_witness :
  Hooks.sent (fold_left Hooks.typing_step
                [Hooks.Keystroke "h"; Hooks.Keystroke "hi"; Hooks.Elapsed;
                 Hooks.Keystroke ""; Hooks.Keystroke "hi!"]
                Hooks.TypingState_initial)
  = [true; false; true] /\
  alternating (Hooks.sent (fold_left Hooks.typing_step
                [Hooks.Keystroke "h"; Hooks.Keystroke "hi"; Hooks.Elapsed;
                 Hooks.Keystroke ""; Hooks.Keystroke "hi!"]
                Hooks.TypingState_initial)).
Proof.
  split; [reflexivity|].
  destruct (typing_notifications
              [Hooks.Keystroke "h"; Hooks.Keystroke "hi"; Hooks.Elapsed;
               Hooks.Keystroke ""; Hooks.Keystroke "hi!"]) as (_ & _ & H).
  apply H. repeat constructor.
Defined.
